(** * cloudbase-manager-node: the function-deployment orchestrator

    A shallow embedding of [src/function/index.ts] (class [FunctionService]):
    [validCreateParams], [createFunction], [updateFunctionConfig],
    [updateFunctionCode], [updateFunctionIncrementalCode],
    [createFunctionTriggers], [getFunctionDetail], the two retry helpers and
    [waitFunctionActive]; then the other methods of the class, the listing,
    the invocation, the copy and the deletion of functions and of triggers,
    the download address, and the methods on layers; and of
    [src/index.ts], the constructor and the singleton of class [CloudBase].

    Asynchronous methods become computations in a small monad [M]: a
    computation reads the history of the outward calls made so far, and
    yields an outcome (a value, a thrown error, or the end of the fuel that
    bounds the polling loop) together with the outward calls it made
    itself, oldest first.  Outward calls are the requests to the platform,
    the builds of the packer and the pauses; the remote platform and the
    packer are not part of index.ts, and their replies are given by a
    [Host], an arbitrary function of the history, over which the theorems
    quantify.

    What the model leaves out: the [preLazy] decorator (../utils), so that
    a method starts with its environment resolved and [getFunctionConfig]
    is a field of the host; numbers other than integers; and replies of
    the transport that are not objects.  A string stands for the UTF-8
    writing of the JavaScript string. *)

From Stdlib Require Import List String Ascii ZArith Bool Arith Lia.
From Stdlib Require Import DecimalString Permutation.
Import ListNotations.
Open Scope string_scope.

(** ** JavaScript values *)

#[local] Set Warnings "-register-all".

Inductive jsval : Type :=
| JUndefined
| JNull
| JBool (b : bool)
| JNum (n : Z)
| JStr (s : string)
| JArr (items : list jsval)
| JObj (fields : list (string * jsval)).

(** A plain object: its own enumerable string keys, in the order they were
    written; [Object_keys] gives the order in which they are listed. *)
Definition obj : Type := list (string * jsval).

(** [!!v] *)
Definition truthy (v : jsval) : bool :=
  match v with
  | JUndefined | JNull => false
  | JBool b => b
  | JNum n => negb (n =? 0)%Z
  | JStr s => negb (s =? "")
  | JArr _ | JObj _ => true
  end.

(** [a === b]; two objects or arrays that come from different places are
    different references. *)
Definition strict_eq (a b : jsval) : bool :=
  match a, b with
  | JUndefined, JUndefined => true
  | JNull, JNull => true
  | JBool x, JBool y => Bool.eqb x y
  | JNum x, JNum y => (x =? y)%Z
  | JStr x, JStr y => (x =? y)
  | _, _ => false
  end.

(** [o[k]] on a plain object. *)
Fixpoint obj_get (o : obj) (k : string) : jsval :=
  match o with
  | [] => JUndefined
  | (k', v) :: rest => if k' =? k then v else obj_get rest k
  end.

(** [k in o] *)
Fixpoint obj_has (o : obj) (k : string) : bool :=
  match o with
  | [] => false
  | (k', _) :: rest => (k' =? k) || obj_has rest k
  end.

(** [o[k] = v]: an existing key keeps its place, a new key goes last. *)
Fixpoint obj_set (k : string) (v : jsval) (o : obj) : obj :=
  match o with
  | [] => [(k, v)]
  | (k', v') :: rest =>
      if k' =? k then (k, v) :: rest else (k', v') :: obj_set k v rest
  end.

(** [c && (o[k] = v)] as a statement. *)
Definition obj_set_if (c : bool) (k : string) (v : jsval) (o : obj) : obj :=
  if c then obj_set k v o else o.

(** [v.k] on any value that is neither [null] nor [undefined]; only plain
    objects have the properties read here. *)
Definition js_get (v : jsval) (k : string) : jsval :=
  match v with
  | JObj o => obj_get o k
  | _ => JUndefined
  end.

(** The value of a decimal digit. *)
Definition digit_of (c : ascii) : option N :=
  let n := N_of_ascii c in
  if ((48 <=? n) && (n <=? 57))%N then Some (n - 48)%N else None.

(** The number a string of digits writes, after [acc]. *)
Fixpoint decimal (s : string) (acc : N) : option N :=
  match s with
  | EmptyString => Some acc
  | String c rest =>
      match digit_of c with
      | Some d => decimal rest (10 * acc + d)%N
      | None => None
      end
  end.

(** The index a key writes, when the key is an array index: the decimal
    writing, without a leading zero, of an integer from 0 to 2^32 - 2. *)
Definition array_index (key : string) : option N :=
  match key with
  | EmptyString => None
  | String c rest =>
      if (N_of_ascii c =? 48)%N && negb (rest =? "") then None
      else
        match decimal key 0 with
        | Some n => if (n <=? 4294967294)%N then Some n else None
        | None => None
        end
  end.

(** The keys that are array indices, by ascending index. *)
Fixpoint insert_index (n : N) (key : string) (sorted : list (N * string))
  : list (N * string) :=
  match sorted with
  | [] => [(n, key)]
  | (m, k) :: rest =>
      if (n <=? m)%N then (n, key) :: sorted
      else (m, k) :: insert_index n key rest
  end.

Fixpoint index_keys (o : obj) : list (N * string) :=
  match o with
  | [] => []
  | (key, _) :: rest =>
      match array_index key with
      | Some n => insert_index n key (index_keys rest)
      | None => index_keys rest
      end
  end.

(** The other keys, in the order they were written. *)
Fixpoint named_keys (o : obj) : list string :=
  match o with
  | [] => []
  | (key, _) :: rest =>
      match array_index key with
      | Some _ => named_keys rest
      | None => key :: named_keys rest
      end
  end.

(** [Object.keys(o)]: the keys that are array indices first, by ascending
    index, then the others in the order they were written. *)
Definition Object_keys (o : obj) : list string :=
  (map snd (index_keys o) ++ named_keys o)%list.

(** [xs.includes(x)] on an array of strings. *)
Definition includes (xs : list string) (x : string) : bool :=
  existsb (fun y => y =? x) xs.

(** [xs.join(sep)] *)
Fixpoint join (sep : string) (xs : list string) : string :=
  match xs with
  | [] => ""
  | [x] => x
  | x :: rest => x ++ sep ++ join sep rest
  end.

(** An optional string read as a condition: [undefined] and [''] are falsy. *)
Definition truthy_s (s : option string) : bool :=
  match s with
  | Some t => negb (t =? "")
  | None => false
  end.

(** [s || d] on an optional string. *)
Definition or_s (s : option string) (d : string) : string :=
  match s with
  | Some t => if t =? "" then d else t
  | None => d
  end.

Definition nl : string := String (ascii_of_nat 10) "".
Definition dquote : string := String (ascii_of_nat 34) "".

(** ** Errors

    [CloudBaseError] (../error) and the errors the transport throws: an
    error object with a message and the optional [code] and [requestId]. *)

Record JsError : Type := CloudBaseError {
  message : string;
  code : option string;
  requestId : option string
}.

(** ** Interfaces (../interfaces, and the parameter types of index.ts) *)

Record IFunctionVPC : Type := {
  subnetId : string;
  vpcId : string
}.

Record ICloudFunctionTrigger : Type := {
  trigger_name : string;
  trigger_type : string;
  trigger_config : string
}.

Record ICloudFunction : Type := {
  name : string;
  timeout : option Z;
  envVariables : option obj;
  runtime : option string;
  vpc : option IFunctionVPC;
  installDependency : option bool;
  triggers : option (list ICloudFunctionTrigger);
  handler : option string;
  ignore : option (string + list string);
  isWaitInstall : option bool;
  l5 : option bool;
  layers : option (list jsval)
}.

Record ICreateFunctionParam : Type := {
  cf_func : ICloudFunction;
  cf_functionRootPath : string;
  cf_force : option bool;
  cf_base64Code : option string;
  cf_codeSecret : option string
}.

Record IUpdateFunctionCodeParam : Type := {
  uc_func : ICloudFunction;
  uc_functionRootPath : option string;
  uc_base64Code : option string;
  uc_codeSecret : option string
}.

Record IUpdateFunctionIncrementalCodeParam : Type := {
  ui_func : ICloudFunction;
  ui_functionRootPath : string;
  ui_deleteFiles : option (list string);
  ui_addFiles : option string
}.

(** [IResponseInfo | ICreateFunctionRes]: what [createFunction] resolves to. *)
Inductive DeployResult : Type :=
| Single (res : obj)
| Composite (triggerRes : jsval) (configRes : obj) (codeRes : obj).

(** ** Outward calls *)

Inductive Service : Type := scf | vpcsvc.

Inductive CodeType : Type := File | JavaFile.

Inductive Call : Type :=
| Request (service : Service) (action : string) (data : option obj)
| Sleep (ms : Z)
| Build (functionRootPath : option string) (funcName : string)
        (ignore : list string) (incrementalPath : option string)
        (type : CodeType).

(** What lies outside index.ts.  [namespace] is what [getFunctionConfig]
    reads from the resolved environment; [CREATING] and [UPDATING] are the
    two members of [SCF_STATUS] (../constant) the polling loop compares
    with; [JSON_stringify] is the built-in; [request_reply] is
    [CloudService.request] and [build_reply] is [FunctionPacker.build],
    each free to depend on every call made before. *)
Record Host : Type := {
  namespace : string;
  CREATING : string;
  UPDATING : string;
  JSON_stringify : jsval -> string;
  request_reply : list Call -> Service -> string -> option obj -> JsError + obj;
  build_reply : list Call -> option string -> string -> list string ->
                option string -> CodeType -> JsError + string
}.

(** ** The monad of asynchronous methods *)

Inductive outcome (A : Type) : Type :=
| Returned (a : A)
| Thrown (e : JsError)
| OutOfFuel.

Arguments Returned {A} a.
Arguments Thrown {A} e.
Arguments OutOfFuel {A}.

Definition M (A : Type) : Type := list Call -> outcome A * list Call.

Definition ret {A} (a : A) : M A := fun _ => (Returned a, []).

Definition throw {A} (e : JsError) : M A := fun _ => (Thrown e, []).

Definition out_of_fuel {A} : M A := fun _ => (OutOfFuel, []).

Definition bind {A B} (m : M A) (f : A -> M B) : M B :=
  fun h =>
    match m h with
    | (Returned a, t) =>
        let (o, t') := f a (h ++ t)%list in (o, (t ++ t')%list)
    | (Thrown e, t) => (Thrown e, t)
    | (OutOfFuel, t) => (OutOfFuel, t)
    end.

(** [try { m } catch (e) { handler e }] *)
Definition try_catch {A} (m : M A) (handler : JsError -> M A) : M A :=
  fun h =>
    match m h with
    | (Thrown e, t) =>
        let (o, t') := handler e (h ++ t)%list in (o, (t ++ t')%list)
    | r => r
    end.

Declare Scope js_scope.
Delimit Scope js_scope with js.
Notation "x <- m ;; k" := (bind m (fun x => k))
  (at level 61, m at next level, right associativity) : js_scope.
Notation "m ;; k" := (bind m (fun _ => k))
  (at level 61, right associativity) : js_scope.
Open Scope js_scope.

(** ** FunctionService *)

Section FunctionService.

Variable host : Host.

(** [this.scfService.request] / [this.vpcService.request] *)
Definition request (service : Service) (action : string) (data : option obj)
  : M obj :=
  fun h =>
    (match request_reply host h service action data with
     | inl e => Thrown e
     | inr res => Returned res
     end, [Request service action data]).

(** [sleep(ms)] (../utils) *)
Definition sleep (ms : Z) : M unit :=
  fun _ => (Returned tt, [Sleep ms]).

(** [new FunctionPacker(root, name, ignore, incrementalPath).build(type)] *)
Definition packer_build (root : option string) (funcName : string)
  (ignore : list string) (incrementalPath : option string) (type : CodeType)
  : M string :=
  fun h =>
    (match build_reply host h root funcName ignore incrementalPath type with
     | inl e => Thrown e
     | inr base64 => Returned base64
     end, [Build root funcName ignore incrementalPath type]).

(** *** validCreateParams *)

Definition validRuntime : list string := ["Nodejs8.9"; "Php7"; "Java8"].

(** The character class [[A-Za-z0-9+=/]]. *)
Definition codeSecret_char (c : ascii) : bool :=
  let n := nat_of_ascii c in
  (((65 <=? n) && (n <=? 90)) || ((97 <=? n) && (n <=? 122))
   || ((48 <=? n) && (n <=? 57))
   || (n =? 43) || (n =? 61) || (n =? 47))%nat.

(** [/^[A-Za-z0-9+=/]{1,160}$/.test(s)] *)
Definition codeSecret_test (s : string) : bool :=
  (1 <=? String.length s)%nat && (String.length s <=? 160)%nat
  && forallb codeSecret_char (list_ascii_of_string s).

Definition codeSecret_error : JsError :=
  CloudBaseError
    ("CodeSecret 格式错误，CodeSecret 只能包含 1-160 位大小字母、数字、"
       ++ dquote ++ "+" ++ dquote ++ "、" ++ dquote ++ "=" ++ dquote
       ++ "、" ++ dquote ++ "/" ++ dquote)
    None None.

Definition runtime_error (func : ICloudFunction) (rt : string) : JsError :=
  CloudBaseError
    (name func ++ " Invalid runtime value：" ++ rt
       ++ ". Now only support: " ++ join ", " validRuntime)
    None None.

Definition validCreateParams (func : ICloudFunction)
  (codeSecret : option string) : M unit :=
  if truthy_s codeSecret && negb (codeSecret_test (or_s codeSecret ""))
  then throw codeSecret_error
  else
    if truthy_s (runtime func)
       && negb (includes validRuntime (or_s (runtime func) ""))
    then throw (runtime_error func (or_s (runtime func) ""))
    else ret tt.

(** *** createFunctionTriggers *)

Definition trigger_type_error (item : ICloudFunctionTrigger) : JsError :=
  CloudBaseError
    ("不支持的触发器类型 [" ++ trigger_type item
       ++ "]，目前仅支持定时触发器（timer）！")
    None None.

(** [triggers.map(item => ...)]: the first item that is not a timer throws. *)
Fixpoint parseTriggers (ts : list ICloudFunctionTrigger)
  : JsError + list jsval :=
  match ts with
  | [] => inr []
  | item :: rest =>
      if negb (trigger_type item =? "timer")
      then inl (trigger_type_error item)
      else
        match parseTriggers rest with
        | inl e => inl e
        | inr parsed =>
            inr (JObj [("TriggerName", JStr (trigger_name item));
                       ("Type", JStr (trigger_type item));
                       ("TriggerDesc", JStr (trigger_config item))] :: parsed)
        end
  end.

(** [!triggers || !triggers.length], after the default [triggers = []]. *)
Definition no_triggers (ts : option (list ICloudFunctionTrigger)) : bool :=
  match ts with
  | None | Some [] => true
  | Some (_ :: _) => false
  end.

Definition createFunctionTriggers (funcName : string)
  (ts : option (list ICloudFunctionTrigger)) : M jsval :=
  match ts with
  | None | Some [] => ret JNull
  | Some ts =>
      match parseTriggers ts with
      | inl e => throw e
      | inr parsedTriggers =>
          res <- request scf "BatchCreateTrigger"
                   (Some [("FunctionName", JStr funcName);
                          ("Namespace", JStr (namespace host));
                          ("Triggers",
                           JStr (JSON_stringify host (JArr parsedTriggers)));
                          ("Count",
                           JNum (Z.of_nat (List.length parsedTriggers)))]) ;;
          ret (JObj res)
      end
  end.

(** *** getFunctionDetail *)

Definition detail_validKeys : list string :=
  ["Status"; "CodeInfo"; "CodeSize"; "Environment"; "FunctionName";
   "Handler"; "MemorySize"; "ModTime"; "Namespace"; "Runtime"; "Timeout";
   "Triggers"; "VpcConfig"].

(** [Object.keys(res).forEach(key => { if (!validKeys.includes(key)) return;
    data[key] = res[key] })], from [data = {}]. *)
Definition pick_validKeys (res : obj) : obj :=
  fold_left
    (fun data key =>
       if negb (includes detail_validKeys key) then data
       else obj_set key (obj_get res key) data)
    (Object_keys res) [].

(** A destructuring default: [{ k = d } = v]. *)
Definition with_default (v d : jsval) : jsval :=
  match v with
  | JUndefined => d
  | _ => v
  end.

Definition TypeError (msg : string) : JsError := CloudBaseError msg None None.

(** [items.find(item => item[key] === target)]; reading a property of
    [null] or [undefined] throws. *)
Fixpoint find_by (key : string) (target : jsval) (items : list jsval)
  : JsError + jsval :=
  match items with
  | [] => inr JUndefined
  | item :: rest =>
      match item with
      | JUndefined | JNull =>
          inl (TypeError ("Cannot read property '" ++ key ++ "'"))
      | _ =>
          if strict_eq (js_get item key) target then inr item
          else find_by key target rest
      end
  end.

(** [v.find(...)]: only an array has [find]. *)
Definition array_find (key : string) (target : jsval) (v : jsval) : M jsval :=
  match v with
  | JArr items =>
      match find_by key target items with
      | inl e => throw e
      | inr found => ret found
      end
  | _ => throw (TypeError "find is not a function")
  end.

Definition getVpcs : M jsval :=
  res <- request vpcsvc "DescribeVpcs" None ;;
  ret (obj_get res "VpcSet").

Definition getSubnets_data (vpcId : jsval) : obj :=
  [("Filters",
    JArr [JObj [("Name", JStr "vpc-id"); ("Values", JArr [vpcId])]])].

Definition getSubnets (vpcId : jsval) : M jsval :=
  res <- request vpcsvc "DescribeSubnets" (Some (getSubnets_data vpcId)) ;;
  ret (obj_get res "SubnetSet").

Definition getFunctionDetail_params (funcName : string)
  (codeSecret : option string) : obj :=
  let params : obj :=
    [("FunctionName", JStr funcName);
     ("Namespace", JStr (namespace host));
     ("ShowCode", JStr "TRUE")] in
  obj_set_if (truthy_s codeSecret) "CodeSecret" (JStr (or_s codeSecret ""))
    params.

(** [const { VpcId = '', SubnetId = '' } = data.VpcConfig || {}] *)
Definition VpcConfig_or_empty (data : obj) : jsval :=
  if truthy (obj_get data "VpcConfig") then obj_get data "VpcConfig"
  else JObj [].

Definition VpcId_of (data : obj) : jsval :=
  with_default (js_get (VpcConfig_or_empty data) "VpcId") (JStr "").

Definition SubnetId_of (data : obj) : jsval :=
  with_default (js_get (VpcConfig_or_empty data) "SubnetId") (JStr "").

Definition empty_vpc_info : jsval :=
  JObj [("vpc", JStr ""); ("subnet", JStr "")].

Definition getFunctionDetail (funcName : string) (codeSecret : option string)
  : M obj :=
  let params := getFunctionDetail_params funcName codeSecret in
  res <- request scf "GetFunction" (Some params) ;;
  let data := pick_validKeys res in
  let VpcId := VpcId_of data in
  let SubnetId := SubnetId_of data in
  if truthy VpcId && truthy SubnetId then
    try_catch
      (vpcs <- getVpcs ;;
       subnets <- getSubnets VpcId ;;
       vpc <- array_find "VpcId" VpcId vpcs ;;
       subnet <- array_find "SubnetId" SubnetId subnets ;;
       ret (obj_set "VpcConfig" (JObj [("vpc", vpc); ("subnet", subnet)])
              data))
      (fun _ => ret (obj_set "VPC" empty_vpc_info data))
  else ret data.

(** *** waitFunctionActive

    The [do ... while] loop has no bound of its own: [fuel] bounds the
    number of iterations the model follows. *)

Definition is_transient (status : jsval) : bool :=
  strict_eq status (JStr (CREATING host))
  || strict_eq status (JStr (UPDATING host)).

Fixpoint waitFunctionActive (fuel : nat) (funcName : string) : M unit :=
  match fuel with
  | O => out_of_fuel
  | S fuel' =>
      detail <- getFunctionDetail funcName None ;;
      sleep 1000 ;;
      let status := obj_get detail "Status" in
      if is_transient status then waitFunctionActive fuel' funcName
      else ret tt
  end.

(** *** updateFunctionConfig *)

(** [Object.keys(func.envVariables || {}).map(key =>
      ({ Key: key, Value: func.envVariables[key] }))] *)
Definition envVariables_of (func : ICloudFunction) : list jsval :=
  match envVariables func with
  | None => []
  | Some vars =>
      map (fun key => JObj [("Key", JStr key); ("Value", obj_get vars key)])
        (Object_keys vars)
  end.

(** [typeof func.l5 === 'undefined' ? null : func.l5 ? 'TRUE' : 'FALSE'] *)
Definition l5Enable_of (func : ICloudFunction) : jsval :=
  match l5 func with
  | None => JNull
  | Some true => JStr "TRUE"
  | Some false => JStr "FALSE"
  end.

(** [{ SubnetId: (func.vpc && func.vpc.subnetId) || '',
       VpcId: (func.vpc && func.vpc.vpcId) || '' }] *)
Definition VpcConfig_of (func : ICloudFunction) : obj :=
  [("SubnetId", JStr (match vpc func with Some v => subnetId v | None => "" end));
   ("VpcId", JStr (match vpc func with Some v => vpcId v | None => "" end))].

(** [func.layers && func.layers.length] *)
Definition has_layers (func : ICloudFunction) : bool :=
  match layers func with
  | Some (_ :: _) => true
  | _ => false
  end.

Definition layers_of (func : ICloudFunction) : jsval :=
  JArr (match layers func with Some ls => ls | None => [] end).

Definition bool_flag (b : bool) : string := if b then "TRUE" else "FALSE".

Definition updateFunctionConfig_params (func : ICloudFunction) : obj :=
  let envVariables := envVariables_of func in
  let l5Enable := l5Enable_of func in
  let params : obj :=
    [("FunctionName", JStr (name func));
     ("Namespace", JStr (namespace host));
     ("L5Enable", l5Enable)] in
  let params :=
    obj_set_if (negb (List.length envVariables =? 0)%nat) "Environment"
      (JObj [("Variables", JArr envVariables)]) params in
  let params :=
    match timeout func with
    | Some t => obj_set_if (negb (t =? 0)%Z) "Timeout" (JNum t) params
    | None => params
    end in
  let params :=
    obj_set_if (truthy_s (runtime func)) "Runtime"
      (JStr (or_s (runtime func) "")) params in
  let params := obj_set "VpcConfig" (JObj (VpcConfig_of func)) params in
  let params :=
    obj_set_if (or_s (runtime func) "" =? "Nodejs8.9") "InstallDependency"
      (JStr "TRUE") params in
  let params :=
    match installDependency func with
    | Some b => obj_set "InstallDependency" (JStr (bool_flag b)) params
    | None => params
    end in
  obj_set_if (has_layers func) "Layers" (layers_of func) params.

Definition updateFunctionConfig (func : ICloudFunction) : M obj :=
  request scf "UpdateFunctionConfiguration"
    (Some (updateFunctionConfig_params func)).

(** *** Packaging, as [createFunction] and [updateFunctionCode] both do it *)

(** [installDependency = func.runtime === 'Nodejs8.9' ? 'TRUE' : 'FALSE'],
    then overridden when [func.installDependency] is defined. *)
Definition installDependency_of (func : ICloudFunction) : string :=
  match installDependency func with
  | Some b => bool_flag b
  | None => if or_s (runtime func) "" =? "Nodejs8.9" then "TRUE" else "FALSE"
  end.

(** Whether a byte goes on with a character begun before it, in UTF-8. *)
Definition continuation (c : ascii) : bool :=
  let n := nat_of_ascii c in ((128 <=? n) && (n <=? 191))%nat.

(** [[...s]] on a string: its characters, each a string.  A character is a
    byte that begins one, and the bytes that go on with it. *)
Definition goes_on (s : string) : bool :=
  match s with
  | String c _ => continuation c
  | EmptyString => false
  end.

Fixpoint spread_string (s : string) : list string :=
  match s with
  | EmptyString => []
  | String c rest =>
      let characters := spread_string rest in
      if goes_on rest then
        match characters with
        | first :: others => String c first :: others
        | [] => [String c ""]
        end
      else String c "" :: characters
  end.

(** [[...(func.ignore || [])]] *)
Definition spread_ignore (func : ICloudFunction) : list string :=
  match ignore func with
  | None => []
  | Some (inl s) => spread_string s
  | Some (inr globs) => globs
  end.

Definition ignore_of (func : ICloudFunction) (installDependency : string)
  : list string :=
  if installDependency =? "TRUE"
  then "node_modules/**/*" :: "node_modules" :: spread_ignore func
  else spread_ignore func.

Definition codeType_of (func : ICloudFunction) : CodeType :=
  if or_s (runtime func) "" =? "Java8" then JavaFile else File.

Definition not_exist_error : JsError :=
  CloudBaseError "函数不存在！" None None.

(** [func.isWaitInstall === true] *)
Definition isWaitInstall_true (func : ICloudFunction) : bool :=
  match isWaitInstall func with
  | Some true => true
  | _ => false
  end.

(** The packaging block, the same in [createFunction] (lines 205-229) and
    [updateFunctionCode] (lines 556-579): read the code from the local root
    unless [base64Code] was supplied. *)
Definition package_code (functionRootPath : option string)
  (func : ICloudFunction) (base64Code : option string) : M string :=
  let installDependency := installDependency_of func in
  if negb (truthy_s base64Code) then
    let ignore := ignore_of func installDependency in
    let type := codeType_of func in
    base64 <- packer_build functionRootPath (name func) ignore None type ;;
    if negb (truthy (JStr base64)) then throw not_exist_error
    else ret base64
  else ret (or_s base64Code "").

(** *** updateFunctionCode *)

Definition updateFunctionCode_params (func : ICloudFunction) (base64 : string)
  (codeSecret : option string) : obj :=
  let params : obj :=
    [("FunctionName", JStr (name func));
     ("Namespace", JStr (namespace host));
     ("ZipFile", JStr base64);
     ("Handler", JStr (or_s (handler func) "index.main"));
     ("InstallDependency", JStr (installDependency_of func))] in
  obj_set_if (truthy_s codeSecret) "CodeSecret" (JStr (or_s codeSecret ""))
    params.

Definition update_error (funcName : string) (e : JsError) : JsError :=
  CloudBaseError ("[" ++ funcName ++ "] 函数代码更新失败： " ++ message e)
    (code e) None.

Definition updateFunctionCode (fuel : nat) (funcParam : IUpdateFunctionCodeParam)
  : M obj :=
  let func := uc_func funcParam in
  let functionRootPath := uc_functionRootPath funcParam in
  let base64Code := uc_base64Code funcParam in
  let codeSecret := uc_codeSecret funcParam in
  let funcName := name func in
  validCreateParams func None ;;
  let installDependency := installDependency_of func in
  base64 <- package_code functionRootPath func base64Code ;;
  let params := updateFunctionCode_params func base64 codeSecret in
  try_catch
    (res <- request scf "UpdateFunctionCode" (Some params) ;;
     (if truthy (JStr installDependency) && isWaitInstall_true func
      then waitFunctionActive fuel funcName
      else ret tt) ;;
     ret res)
    (fun e => throw (update_error funcName e)).

(** *** The retry helpers

    Both recurse with [count + 1] while [count < 3]; the recursion is
    written on the number of attempts still possible, [S (3 - count)], so
    that it is structural.  The [O] case is never reached
    ([retryCreateTrigger_total], [retryUpdateFunctionCode_total]). *)

Fixpoint retryCreateTrigger_loop (attempts : nat) (funcName : string)
  (ts : option (list ICloudFunctionTrigger)) (count : nat) : M unit :=
  match attempts with
  | O => out_of_fuel
  | S attempts' =>
      try_catch
        (createFunctionTriggers funcName ts ;; ret tt)
        (fun e =>
           if (count <? 3)%nat then
             sleep 500 ;;
             retryCreateTrigger_loop attempts' funcName ts (count + 1)
           else throw e)
  end.

Definition retryCreateTrigger (funcName : string)
  (ts : option (list ICloudFunctionTrigger)) (count : nat) : M unit :=
  retryCreateTrigger_loop (S (3 - count)) funcName ts count.

Fixpoint retryUpdateFunctionCode_loop (attempts : nat) (fuel : nat)
  (param : IUpdateFunctionCodeParam) (count : nat) : M obj :=
  match attempts with
  | O => out_of_fuel
  | S attempts' =>
      try_catch
        (updateFunctionCode fuel param)
        (fun e =>
           if (count <? 3)%nat then
             sleep 500 ;;
             retryUpdateFunctionCode_loop attempts' fuel param (count + 1)
           else throw e)
  end.

Definition retryUpdateFunctionCode (fuel : nat)
  (param : IUpdateFunctionCodeParam) (count : nat) : M obj :=
  retryUpdateFunctionCode_loop (S (3 - count)) fuel param count.

(** *** createFunction *)

Definition createFunction_params (func : ICloudFunction) (base64 : string)
  (codeSecret : option string) : obj :=
  let funcName := name func in
  let installDependency := installDependency_of func in
  let envVariables := envVariables_of func in
  let l5Enable := l5Enable_of func in
  let params : obj :=
    [("FunctionName", JStr funcName);
     ("Namespace", JStr (namespace host));
     ("Code", JObj [("ZipFile", JStr base64)]);
     ("MemorySize", JNum 256);
     ("Role", JStr "TCB_QcsRole");
     ("Stamp", JStr "MINI_QCBASE");
     ("L5Enable", l5Enable)] in
  let params :=
    obj_set_if (negb (List.length envVariables =? 0)%nat) "Environment"
      (JObj [("Variables", JArr envVariables)]) params in
  let params :=
    obj_set "Handler" (JStr (or_s (handler func) "index.main")) params in
  let params :=
    obj_set "Timeout"
      (JNum (match timeout func with
             | Some t => if (t =? 0)%Z then 20%Z else t
             | None => 20%Z
             end)) params in
  let params :=
    obj_set "Runtime" (JStr (or_s (runtime func) "Nodejs8.9")) params in
  let params := obj_set "VpcConfig" (JObj (VpcConfig_of func)) params in
  let params :=
    obj_set "InstallDependency" (JStr installDependency) params in
  let params :=
    obj_set_if (truthy_s codeSecret) "CodeSecret" (JStr (or_s codeSecret ""))
      params in
  let params :=
    if truthy (js_get (obj_get params "VpcConfig") "SubnetId")
       && truthy (js_get (obj_get params "VpcConfig") "VpcId")
    then obj_set "EipConfig" (JObj [("EipFixed", JStr "TRUE")]) params
    else obj_set "EipConfig" (JObj [("EipFixed", JStr "FALSE")]) params in
  obj_set_if (has_layers func) "Layers" (layers_of func) params.

Definition deploy_error (funcName : string) (e : JsError) : JsError :=
  CloudBaseError ("[" ++ funcName ++ "] 部署失败：" ++ nl ++ message e)
    (code e) (requestId e).

(** [e.code === 'ResourceInUse.FunctionName'] *)
Definition is_conflict (e : JsError) : bool :=
  match code e with
  | Some c => c =? "ResourceInUse.FunctionName"
  | None => false
  end.

(** The destructuring default [force = false]. *)
Definition force_of (funcParam : ICreateFunctionParam) : bool :=
  match cf_force funcParam with
  | Some b => b
  | None => false
  end.

Definition createFunction (fuel : nat) (funcParam : ICreateFunctionParam)
  : M DeployResult :=
  let func := cf_func funcParam in
  let functionRootPath := cf_functionRootPath funcParam in
  let force := force_of funcParam in
  let base64Code := cf_base64Code funcParam in
  let codeSecret := cf_codeSecret funcParam in
  let funcName := name func in
  validCreateParams func codeSecret ;;
  base64 <- package_code (Some functionRootPath) func base64Code ;;
  let params := createFunction_params func base64 codeSecret in
  try_catch
    (res <- request scf "CreateFunction" (Some params) ;;
     retryCreateTrigger funcName (triggers func) 0 ;;
     (if truthy (obj_get params "InstallDependency")
         && isWaitInstall_true func
      then waitFunctionActive fuel funcName
      else ret tt) ;;
     ret (Single res))
    (fun e =>
       if is_conflict e && force then
         triggerRes <- createFunctionTriggers funcName (triggers func) ;;
         configRes <- updateFunctionConfig func ;;
         codeRes <- retryUpdateFunctionCode fuel
                      {| uc_func := func;
                         uc_functionRootPath := Some functionRootPath;
                         uc_base64Code := Some base64;
                         uc_codeSecret := codeSecret |} 0 ;;
         ret (Composite triggerRes configRes codeRes)
       else if negb (message e =? "") && negb force
       then throw (deploy_error funcName e)
       else throw e).

(** *** updateFunctionIncrementalCode *)

Definition updateFunctionIncrementalCode
  (funcParam : IUpdateFunctionIncrementalCodeParam) : M obj :=
  let functionRootPath := ui_functionRootPath funcParam in
  let func := ui_func funcParam in
  let deleteFiles := ui_deleteFiles funcParam in
  let addFiles := ui_addFiles funcParam in
  let params : obj :=
    [("FunctionName", JStr (name func));
     ("Namespace", JStr (namespace host))] in
  validCreateParams func None ;;
  let params :=
    match deleteFiles with
    | Some files => obj_set "DeleteFiles" (JArr (map JStr files)) params
    | None => params
    end in
  params <-
    (if truthy_s addFiles then
       let type := codeType_of func in
       base64 <- packer_build (Some functionRootPath) (name func) [] addFiles
                   type ;;
       if negb (truthy (JStr base64)) then throw not_exist_error
       else ret (obj_set "AddFiles" (JStr base64) params)
     else ret params) ;;
  request scf "UpdateFunctionIncrementalCode" (Some params).

(** *** listFunctions *)

(** A default parameter, or a destructuring default, on a number. *)
Definition default_Z (v : option Z) (d : Z) : Z :=
  match v with
  | Some n => n
  | None => d
  end.

Definition listFunctions_params (limit offset : option Z) : obj :=
  [("Namespace", JStr (namespace host));
   ("Limit", JNum (default_Z limit 20));
   ("Offset", JNum (default_Z offset 0))].

(** [const { FunctionId, FunctionName, Runtime, AddTime, ModTime, Status }
    = func], then the object literal pushed; destructuring [null] or
    [undefined] throws. *)
Definition listFunctions_record (func : jsval) : JsError + jsval :=
  match func with
  | JUndefined | JNull =>
      inl (TypeError "Cannot destructure property 'FunctionId'")
  | _ =>
      inr (JObj [("FunctionId", js_get func "FunctionId");
                 ("FunctionName", js_get func "FunctionName");
                 ("Runtime", js_get func "Runtime");
                 ("AddTime", js_get func "AddTime");
                 ("ModTime", js_get func "ModTime");
                 ("Status", js_get func "Status")])
  end.

(** [Functions.forEach(func => { ...; data.push({ ... }) })] *)
Fixpoint listFunctions_forEach (Functions : list jsval) (data : list jsval)
  : JsError + list jsval :=
  match Functions with
  | [] => inr data
  | func :: rest =>
      match listFunctions_record func with
      | inl e => inl e
      | inr record => listFunctions_forEach rest (data ++ [record])%list
      end
  end.

Definition listFunctions (limit offset : option Z) : M (list jsval) :=
  res <- request scf "ListFunctions"
           (Some (listFunctions_params limit offset)) ;;
  let Functions := with_default (obj_get res "Functions") (JArr []) in
  match Functions with
  | JArr items =>
      match listFunctions_forEach items [] with
      | inl e => throw e
      | inr data => ret data
      end
  | JNull => throw (TypeError "Cannot read property 'forEach' of null")
  | _ => throw (TypeError "Functions.forEach is not a function")
  end.

(** *** deleteFunction *)

Definition deleteFunction (funcName : string) : M obj :=
  request scf "DeleteFunction"
    (Some [("FunctionName", JStr funcName);
           ("Namespace", JStr (namespace host))]).

(** *** getFunctionLogs *)

Record IFunctionLogOptions : Type := {
  lo_name : string;
  lo_offset : option Z;
  lo_limit : option Z;
  lo_order : option string;
  lo_orderBy : option string;
  lo_startTime : option string;
  lo_endTime : option string;
  lo_requestId : option string
}.

(** An optional string as the value of a property. *)
Definition opt_JStr (s : option string) : jsval :=
  match s with
  | Some t => JStr t
  | None => JUndefined
  end.

Definition getFunctionLogs_params (options : IFunctionLogOptions) : obj :=
  [("Namespace", JStr (namespace host));
   ("FunctionName", JStr (lo_name options));
   ("Offset", JNum (default_Z (lo_offset options) 0));
   ("Limit", JNum (default_Z (lo_limit options) 10));
   ("Order", opt_JStr (lo_order options));
   ("OrderBy", opt_JStr (lo_orderBy options));
   ("StartTime", opt_JStr (lo_startTime options));
   ("EndTime", opt_JStr (lo_endTime options));
   ("FunctionRequestId", opt_JStr (lo_requestId options))].

Definition getFunctionLogs (options : IFunctionLogOptions) : M obj :=
  request scf "GetFunctionLogs" (Some (getFunctionLogs_params options)).

(** *** invokeFunction *)

(** The decimal writing of an array index. *)
Definition index_key (i : nat) : string :=
  NilEmpty.string_of_uint (Nat.to_uint i).

(** The own properties of an array, or of a string taken as an object:
    one per index, from [i] on. *)
Fixpoint indexed (i : nat) (items : list jsval) : obj :=
  match items with
  | [] => []
  | item :: rest => (index_key i, item) :: indexed (S i) rest
  end.

(** [{ ...target, ...v }] for a [target] that has no index key: every own
    property of [v] is copied over [target].  An object brings its keys, an
    array and a string their indices, which the engine lists first (a
    string is taken character by character, as in [spread_string]: a
    character outside the basic plane, which an engine takes as two, is
    taken as one); the other values bring nothing. *)
Definition spread (v : jsval) (target : obj) : obj :=
  match v with
  | JObj fields =>
      fold_left (fun acc key => obj_set key (obj_get fields key) acc)
        (Object_keys fields) target
  | JArr items => (indexed 0 items ++ target)%list
  | JStr s => (indexed 0 (map JStr (spread_string s)) ++ target)%list
  | _ => target
  end.

Definition invokeFunction_params (funcName : string) (params : jsval) : obj :=
  let _params : obj :=
    [("FunctionName", JStr funcName);
     ("Namespace", JStr (namespace host));
     ("LogType", JStr "Tail")] in
  obj_set_if (truthy params) "ClientContext"
    (JStr (JSON_stringify host params)) _params.

Definition invoke_error (funcName : string) (e : JsError) : JsError :=
  CloudBaseError ("[" ++ funcName ++ "] 调用失败：" ++ nl ++ message e)
    None None.

(** The [params] of an invocation: a value that can be written in JSON,
    or one that [JSON.stringify] refuses (an object that holds itself, a
    BigInt), of which the model keeps whether it is truthy and the error
    [JSON.stringify] throws on it. *)
Inductive InvokeParams : Type :=
| Data (v : jsval)
| Refused (is_truthy : bool) (e : JsError).

Definition invokeFunction (funcName : string) (params : InvokeParams)
  : M obj :=
  _params <-
    match params with
    | Data v => ret (invokeFunction_params funcName v)
    | Refused is_truthy e =>
        if is_truthy then throw e
        else ret (invokeFunction_params funcName JUndefined)
    end ;;
  try_catch
    (res <- request scf "Invoke" (Some _params) ;;
     let RequestId := obj_get res "RequestId" in
     let Result := obj_get res "Result" in
     ret (spread Result [("RequestId", RequestId)]))
    (fun e => throw (invoke_error funcName e)).

(** *** copyFunction *)

Definition missing_error : JsError := CloudBaseError "参数缺失" None None.

Definition copyFunction_params (funcName newFunctionName : string)
  (targetEnvId : option string) (force : option bool) : obj :=
  let force := match force with Some b => b | None => false end in
  [("FunctionName", JStr funcName);
   ("NewFunctionName", JStr newFunctionName);
   ("Namespace", JStr (namespace host));
   ("TargetNamespace", JStr (or_s targetEnvId (namespace host)));
   ("Override", JBool (if force then true else false))].

Definition copyFunction (funcName newFunctionName : string)
  (targetEnvId : option string) (force : option bool) : M obj :=
  if negb (truthy (JStr (namespace host)))
     || negb (truthy (JStr funcName))
     || negb (truthy (JStr newFunctionName))
  then throw missing_error
  else
    request scf "CopyFunction"
      (Some (copyFunction_params funcName newFunctionName targetEnvId force)).

(** *** deleteFunctionTrigger *)

Definition deleteFunctionTrigger (funcName triggerName : string) : M obj :=
  request scf "DeleteTrigger"
    (Some [("FunctionName", JStr funcName);
           ("Namespace", JStr (namespace host));
           ("TriggerName", JStr triggerName);
           ("Type", JStr "timer")]).

(** *** getFunctionDownloadUrl *)

Definition getFunctionDownloadUrl_params (functionName : string)
  (codeSecret : option string) : obj :=
  let params : obj :=
    [("FunctionName", JStr functionName);
     ("Namespace", JStr (namespace host))] in
  obj_set_if (truthy_s codeSecret) "CodeSecret" (JStr (or_s codeSecret ""))
    params.

Definition download_error (functionName : string) (e : JsError) : JsError :=
  CloudBaseError
    ("[" ++ functionName ++ "] 获取函数代码下载链接失败：" ++ nl ++ message e)
    None None.

Definition getFunctionDownloadUrl (functionName : string)
  (codeSecret : option string) : M obj :=
  let params := getFunctionDownloadUrl_params functionName codeSecret in
  try_catch
    (res <- request scf "GetFunctionAddress" (Some params) ;;
     let Url := obj_get res "Url" in
     let CodeSha256 := obj_get res "CodeSha256" in
     let RequestId := obj_get res "RequestId" in
     ret [("Url", Url); ("RequestId", RequestId); ("CodeSha256", CodeSha256)])
    (fun e => throw (download_error functionName e)).

(** *** The layer methods that are one request

    Each of them declares the list [validRuntime] again, with the same
    three members. *)

Record ILayerOptions : Type := {
  lv_name : string;
  lv_version : Z
}.

Record IVersionListOptions : Type := {
  vl_name : string;
  vl_runtimes : option (list string)
}.

Record ILayerListOptions : Type := {
  ll_offset : option Z;
  ll_limit : option Z;
  ll_runtime : option string;
  ll_searchKey : option string
}.

Definition layer_runtime_error : JsError :=
  CloudBaseError
    ("Invalid runtime value. Now only support: " ++ join ", " validRuntime)
    None None.

(** [runtimes.some(item => validRuntime.indexOf(item) === -1)] *)
Definition some_invalid (runtimes : list string) : bool :=
  existsb (fun item => negb (includes validRuntime item)) runtimes.

Definition deleteLayerVersion (options : ILayerOptions) : M obj :=
  request scf "DeleteLayerVersion"
    (Some [("LayerName", JStr (lv_name options));
           ("LayerVersion", JNum (lv_version options))]).

(** [runtimes?.length] *)
Definition has_runtimes (runtimes : option (list string)) : bool :=
  match runtimes with
  | Some (_ :: _) => true
  | _ => false
  end.

Definition runtimes_of (runtimes : option (list string)) : list string :=
  match runtimes with
  | Some rs => rs
  | None => []
  end.

Definition listLayerVersions (options : IVersionListOptions) : M obj :=
  let runtimes := vl_runtimes options in
  let param : obj := [("LayerName", JStr (vl_name options))] in
  param <-
    (if has_runtimes runtimes then
       if some_invalid (runtimes_of runtimes) then throw layer_runtime_error
       else ret (obj_set "CompatibleRuntime"
                   (JArr (map JStr (runtimes_of runtimes))) param)
     else ret param) ;;
  request scf "ListLayerVersions" (Some param).

Definition listLayers (options : ILayerListOptions) : M obj :=
  let runtime := ll_runtime options in
  let param : obj :=
    [("Limit", JNum (default_Z (ll_limit options) 20));
     ("Offset", JNum (default_Z (ll_offset options) 0));
     ("SearchKey", opt_JStr (ll_searchKey options))] in
  param <-
    (if truthy_s runtime then
       if negb (includes validRuntime (or_s runtime "")) then
         throw layer_runtime_error
       else ret (obj_set "CompatibleRuntime" (JStr (or_s runtime "")) param)
     else ret param) ;;
  request scf "ListLayers" (Some param).

Definition getLayerVersion (options : ILayerOptions) : M obj :=
  request scf "GetLayerVersion"
    (Some [("LayerName", JStr (lv_name options));
           ("LayerVersion", JNum (lv_version options))]).

End FunctionService.

(** ** createLayer

    [createLayer] also works on the local disk: through [isDirectory],
    [checkPathExist] and [delSync] (../utils/fs), [zipDir] (../utils) and
    Node's [fs], [path] and [process].  None of them is in index.ts: they
    are the fields of a [Machine], the fallible ones free to depend on
    everything done before.  What [readFile_reply] gives is the content of
    the file already written in base64, as [fileBuffer.toString('base64')]
    returns it. *)

Inductive DiskCall : Type :=
| IsDirectory (dest : string)
| CheckPathExist (dest : string)
| DelSync (dest : string)
| ZipDir (dirPath outputPath : string)
| ReadFile (file : string).

(** What [createLayer] does outwards: a call of the kind the other methods
    make, or a call on the local disk. *)
Inductive Effect : Type :=
| Remote (c : Call)
| Local (c : DiskCall).

Record Machine : Type := {
  cwd : string;
  path_parse_name : string -> string;
  path_join : string -> string -> string;
  path_extname : string -> string;
  isDirectory_reply : list Effect -> string -> JsError + bool;
  checkPathExist_reply : list Effect -> string -> JsError + bool;
  delSync_reply : list Effect -> string -> JsError + unit;
  zipDir_reply : list Effect -> string -> string -> JsError + unit;
  readFile_reply : list Effect -> string -> JsError + string
}.

(** The monad [M], over effects. *)
Definition L (A : Type) : Type := list Effect -> outcome A * list Effect.

Definition retL {A} (a : A) : L A := fun _ => (Returned a, []).

Definition throwL {A} (e : JsError) : L A := fun _ => (Thrown e, []).

Definition bindL {A B} (m : L A) (f : A -> L B) : L B :=
  fun h =>
    match m h with
    | (Returned a, t) =>
        let (o, t') := f a (h ++ t)%list in (o, (t ++ t')%list)
    | (Thrown e, t) => (Thrown e, t)
    | (OutOfFuel, t) => (OutOfFuel, t)
    end.

Declare Scope disk_scope.
Delimit Scope disk_scope with disk.
Notation "x <- m ;; k" := (bindL m (fun x => k))
  (at level 61, m at next level, right associativity) : disk_scope.
Notation "m ;; k" := (bindL m (fun _ => k))
  (at level 61, right associativity) : disk_scope.

(** The calls of a history that the platform has seen. *)
Fixpoint remote_calls (h : list Effect) : list Call :=
  match h with
  | [] => []
  | Remote c :: h' => c :: remote_calls h'
  | Local _ :: h' => remote_calls h'
  end.

(** A computation of [M] run among effects. *)
Definition remote {A} (m : M A) : L A :=
  fun h => let (o, t) := m (remote_calls h) in (o, map Remote t).

(** One call on the local disk. *)
Definition local {A} (reply : list Effect -> JsError + A) (c : DiskCall)
  : L A :=
  fun h =>
    (match reply h with
     | inl e => Thrown e
     | inr a => Returned a
     end, [Local c]).

Record IFunctionLayerOptions : Type := {
  fl_contentPath : option string;
  fl_base64Content : option string;
  fl_name : string;
  fl_runtimes : option (list string);
  fl_description : option string;
  fl_licenseInfo : option string
}.

(** A destructuring default on a string: [{ k = d } = options]. *)
Definition default_s (s : option string) (d : string) : string :=
  match s with
  | Some t => t
  | None => d
  end.

Definition zip_type_error : JsError :=
  CloudBaseError "文件类型不正确，目前只支持 ZIP 文件！" None None.

Section Layers.

Variable host : Host.
Variable machine : Machine.

Definition isDirectory (dest : string) : L bool :=
  local (fun h => isDirectory_reply machine h dest) (IsDirectory dest).

Definition checkPathExist (dest : string) : L bool :=
  local (fun h => checkPathExist_reply machine h dest) (CheckPathExist dest).

Definition delSync (dest : string) : L unit :=
  local (fun h => delSync_reply machine h dest) (DelSync dest).

Definition zipDir (dirPath outputPath : string) : L unit :=
  local (fun h => zipDir_reply machine h dirPath outputPath)
    (ZipDir dirPath outputPath).

Definition readFile (file : string) : L string :=
  local (fun h => readFile_reply machine h file) (ReadFile file).

Definition createLayer_params (options : IFunctionLayerOptions)
  (base64 : string) : obj :=
  let runtimes := runtimes_of (fl_runtimes options) in
  [("LayerName", JStr (fl_name options));
   ("CompatibleRuntimes", JArr (map JStr runtimes));
   ("Content", JObj [("ZipFile", JStr base64)]);
   ("Description", JStr (default_s (fl_description options) ""));
   ("LicenseInfo", JStr (default_s (fl_licenseInfo options) ""))].

(** The temporary archive of a directory: [path.join(process.cwd(),
    `temp-${path.parse(contentPath).name}.zip`)]. *)
Definition temp_zip (contentPath : string) : string :=
  let dirName := path_parse_name machine contentPath in
  path_join machine (cwd machine) ("temp-" ++ dirName ++ ".zip").

Definition createLayer (options : IFunctionLayerOptions) : L obj :=
  (let contentPath := default_s (fl_contentPath options) "" in
   let base64Content := default_s (fl_base64Content options) "" in
   let runtimes := runtimes_of (fl_runtimes options) in
   if some_invalid runtimes then throwL layer_runtime_error
   else
     base64 <-
       (if truthy (JStr base64Content) then retL base64Content
        else
          isDir <- isDirectory contentPath ;;
          if isDir : bool then
            let dest := temp_zip contentPath in
            exist <- checkPathExist dest ;;
            (if exist : bool then delSync dest else retL tt) ;;
            zipDir contentPath dest ;;
            base64 <- readFile dest ;;
            delSync dest ;;
            retL base64
          else
            let fileType := path_extname machine contentPath in
            if negb (fileType =? ".zip") then throwL zip_type_error
            else readFile contentPath) ;;
     remote (request host scf "PublishLayerVersion"
               (Some (createLayer_params options base64))))%disk.

End Layers.

(** ** class CloudBase (src/index.ts)

    The entry point, through which a caller reaches [FunctionService]
    ([app.functions]).  Its context and its environment manager (./context,
    ./environmentManager) are not in the source: [Manager] is what the
    constructor gets from them, [new_manager config envId] standing for
    [new CloudBaseContext(config)], [new EnvironmentManager(context)] and
    [environmentManager.add(envId)], which may throw. *)

Record CloudBaseConfig : Type := {
  secretId : option string;
  secretKey : option string;
  token : option string;
  envId : option string;
  proxy : option string
}.

Definition pair_error : JsError :=
  CloudBaseError "secretId and secretKey must be a pair" None None.

Section CloudBaseClass.

Variable Manager : Type.
Variable new_manager : CloudBaseConfig -> string -> JsError + Manager.

Record CloudBase : Type := {
  cloudBaseConfig : CloudBaseConfig;
  environmentManager : Manager
}.

(** [new CloudBase(config)], with the default [config = {}]. *)
Definition new_CloudBase (config : option CloudBaseConfig)
  : JsError + CloudBase :=
  let config :=
    match config with
    | Some c => c
    | None =>
        {| secretId := None; secretKey := None; token := None;
           envId := None; proxy := None |}
    end in
  if (truthy_s (secretId config) && negb (truthy_s (secretKey config)))
     || (negb (truthy_s (secretId config)) && truthy_s (secretKey config))
  then inl pair_error
  else
    let cloudBaseConfig :=
      {| secretId := secretId config; secretKey := secretKey config;
         token := token config; envId := envId config;
         proxy := proxy config |} in
    match new_manager cloudBaseConfig (or_s (envId config) "") with
    | inl e => inl e
    | inr manager =>
        inr {| cloudBaseConfig := cloudBaseConfig;
               environmentManager := manager |}
    end.

(** [CloudBase.init(config)]; the second component is the static field
    [CloudBase.cloudBase] before and after the call. *)
Definition init (config : CloudBaseConfig) (cloudBase : option CloudBase)
  : (JsError + CloudBase) * option CloudBase :=
  match cloudBase with
  | Some app => (inr app, Some app)
  | None =>
      match new_CloudBase (Some config) with
      | inl e => (inl e, None)
      | inr app => (inr app, Some app)
      end
  end.

Definition getManagerConfig (app : CloudBase) : CloudBaseConfig :=
  cloudBaseConfig app.

End CloudBaseClass.

(** * Vocabulary of the properties *)

(** ** Reading a trace *)

Definition is_request (c : Call) : bool :=
  match c with Request _ _ _ => true | _ => false end.

Definition is_build (c : Call) : bool :=
  match c with Build _ _ _ _ _ => true | _ => false end.

(** The actions of the requests of a trace, in order. *)
Fixpoint actions (t : list Call) : list string :=
  match t with
  | [] => []
  | Request _ action _ :: t' => action :: actions t'
  | _ :: t' => actions t'
  end.

(** How many requests of a trace name the action. *)
Definition count_action (action : string) (t : list Call) : nat :=
  List.length (filter (fun a => a =? action) (actions t)).

(** The pauses of a trace, in order. *)
Fixpoint sleeps (t : list Call) : list Z :=
  match t with
  | [] => []
  | Sleep ms :: t' => ms :: sleeps t'
  | _ :: t' => sleeps t'
  end.

(** What a call is, without its arguments. *)
Inductive kind : Type :=
| KAction (action : string)
| KSleep
| KBuild.

Definition call_kind (c : Call) : kind :=
  match c with
  | Request _ action _ => KAction action
  | Sleep _ => KSleep
  | Build _ _ _ _ _ => KBuild
  end.

(** [emits ks m]: whatever the history, every call of [m] has its kind in
    [ks]. *)
Definition emits {A} (ks : list kind) (m : M A) : Prop :=
  forall h, Forall (fun c => In (call_kind c) ks) (snd (m h)).

(** The calls of a status check, and of the wait for activation. *)
Definition detail_kinds : list kind :=
  [KAction "GetFunction"; KAction "DescribeVpcs"; KAction "DescribeSubnets"].

Definition wait_kinds : list kind := KSleep :: detail_kinds.

(** Every kind of call [createFunction] makes besides its create
    request. *)
Definition after_create_kinds : list kind :=
  [KAction "BatchCreateTrigger"; KAction "UpdateFunctionConfiguration";
   KAction "UpdateFunctionCode"; KBuild; KSleep; KAction "GetFunction";
   KAction "DescribeVpcs"; KAction "DescribeSubnets"].

(** The three endpoints of the Reconcile sequence, and the requests of a
    trace that go to them, in order. *)
Definition reconcile_actions : list string :=
  ["BatchCreateTrigger"; "UpdateFunctionConfiguration"; "UpdateFunctionCode"].

Definition main_actions (t : list Call) : list string :=
  filter (includes reconcile_actions) (actions t).

(** The errors the host replied to the calls of trace [t], made after
    history [h]. *)
Fixpoint failures (host : Host) (h t : list Call) : list JsError :=
  match t with
  | [] => []
  | c :: t' =>
      (match c with
       | Request s a d =>
           match request_reply host h s a d with
           | inl e => [e]
           | inr _ => []
           end
       | Build r n i p ty =>
           match build_reply host h r n i p ty with
           | inl e => [e]
           | inr _ => []
           end
       | Sleep _ => []
       end ++ failures host (h ++ [c]) t')%list
  end.

(** A computation surfaces every failure when it never returns normally
    from a run in which the host failed one of its calls. *)
Definition surfaces_failures {A} (host : Host) (m : M A) : Prop :=
  forall h a t, m h = (Returned a, t) -> failures host h t = [].

(** ** Validation *)

(** The two checks of [validCreateParams], as one condition. *)
Definition params_ok (func : ICloudFunction) (codeSecret : option string)
  : bool :=
  negb (truthy_s codeSecret && negb (codeSecret_test (or_s codeSecret "")))
  && negb (truthy_s (runtime func)
           && negb (includes validRuntime (or_s (runtime func) ""))).

(** ** The wait for activation *)

(** [polls host f h n t]: from history [h], [n] successive status checks
    of function [f], each followed by its one-second pause, the first
    [n - 1] of them reporting [CREATING] or [UPDATING] and the last one
    anything else; [t] is the trace of the whole. *)
Inductive polls (host : Host) (funcName : string)
  : list Call -> nat -> list Call -> Prop :=
| polls_last h detail t :
    getFunctionDetail host funcName None h = (Returned detail, t) ->
    is_transient host (obj_get detail "Status") = false ->
    polls host funcName h 1 (t ++ [Sleep 1000])%list
| polls_next h detail t n t' :
    getFunctionDetail host funcName None h = (Returned detail, t) ->
    is_transient host (obj_get detail "Status") = true ->
    polls host funcName (h ++ t ++ [Sleep 1000])%list n t' ->
    polls host funcName h (S n) (t ++ Sleep 1000 :: t')%list.

(** A status with which the wait goes on: CREATING or UPDATING, and no
    other. *)
Definition in_progress (host : Host) (status : jsval) : Prop :=
  status = JStr (CREATING host) \/ status = JStr (UPDATING host).

(** [checks host f h statuses t]: from history [h], the successive status
    checks of function [f], each followed by its one-second pause, report
    the statuses [statuses], of which all but the last are CREATING or
    UPDATING and the last is anything else (it may be missing:
    [undefined]); [t] is the trace of the whole. *)
Inductive checks (host : Host) (funcName : string)
  : list Call -> list jsval -> list Call -> Prop :=
| checks_last h detail t :
    getFunctionDetail host funcName None h = (Returned detail, t) ->
    ~ in_progress host (obj_get detail "Status") ->
    checks host funcName h [obj_get detail "Status"] (t ++ [Sleep 1000])%list
| checks_next h detail t statuses t' :
    getFunctionDetail host funcName None h = (Returned detail, t) ->
    in_progress host (obj_get detail "Status") ->
    checks host funcName (h ++ t ++ [Sleep 1000])%list statuses t' ->
    checks host funcName h (obj_get detail "Status" :: statuses)
      (t ++ Sleep 1000 :: t')%list.

(** ** The retry policy *)

(** The recursion the two retry helpers share. *)
Fixpoint retry_loop {A} (m : M A) (attempts count : nat) : M A :=
  match attempts with
  | O => out_of_fuel
  | S attempts' =>
      try_catch m
        (fun e =>
           if (count <? 3)%nat then
             sleep 500 ;; retry_loop m attempts' (count + 1)
           else throw e)
  end.



(** The trace of [k] attempts at one request: each attempt is the request
    followed by the calls of a wait for activation, and two attempts are
    500 ms apart. *)
Inductive attempts_trace (req : Call) : nat -> list Call -> Prop :=
| attempts_one w :
    Forall (fun c => In (call_kind c) wait_kinds) w ->
    attempts_trace req 1 (req :: w)
| attempts_more w k t :
    Forall (fun c => In (call_kind c) wait_kinds) w ->
    attempts_trace req k t ->
    attempts_trace req (S k) (req :: w ++ Sleep 500 :: t)%list.

(** ** The paths of createFunction *)

(** The create request of [createFunction] for the artifact [base64]. *)
Definition create_call (host : Host) (fp : ICreateFunctionParam)
  (base64 : string) : Call :=
  Request scf "CreateFunction"
    (Some (createFunction_params host (cf_func fp) base64 (cf_codeSecret fp))).

(** [create_answered host fp h base64 tp reply]: from history [h],
    [createFunction] on [fp] passes validation, gets the artifact [base64]
    from the packaging, whose calls are [tp], and the platform answers its
    create request with [reply]. *)
Definition create_answered (host : Host) (fp : ICreateFunctionParam)
  (h : list Call) (base64 : string) (tp : list Call)
  (reply : JsError + obj) : Prop :=
  params_ok (cf_func fp) (cf_codeSecret fp) = true
  /\ package_code host (Some (cf_functionRootPath fp)) (cf_func fp)
       (cf_base64Code fp) h = (Returned base64, tp)
  /\ request_reply host (h ++ tp)%list scf "CreateFunction"
       (Some (createFunction_params host (cf_func fp) base64
                (cf_codeSecret fp))) = reply.

(** What [createFunction] does once its create request has returned
    [res]: the rest of its [try] block. *)
Definition after_created (host : Host) (fuel : nat)
  (fp : ICreateFunctionParam) (base64 : string) (res : obj)
  : M DeployResult :=
  let func := cf_func fp in
  let params := createFunction_params host func base64 (cf_codeSecret fp) in
  retryCreateTrigger host (name func) (triggers func) 0 ;;
  (if truthy (obj_get params "InstallDependency") && isWaitInstall_true func
   then waitFunctionActive host fuel (name func)
   else ret tt) ;;
  ret (Single res).

(** The parameter [createFunction] hands to the code update of the
    Reconcile sequence. *)
Definition reconcile_param (fp : ICreateFunctionParam) (base64 : string)
  : IUpdateFunctionCodeParam :=
  {| uc_func := cf_func fp;
     uc_functionRootPath := Some (cf_functionRootPath fp);
     uc_base64Code := Some base64;
     uc_codeSecret := cf_codeSecret fp |}.

(** The Reconcile sequence, as the specification words it: create the
    triggers, update the configuration, update the code from the artifact
    already packaged, and return the three results together. *)
Definition reconcile (host : Host) (fuel : nat) (fp : ICreateFunctionParam)
  (base64 : string) : M DeployResult :=
  let func := cf_func fp in
  triggerRes <- createFunctionTriggers host (name func) (triggers func) ;;
  configRes <- updateFunctionConfig host func ;;
  codeRes <- retryUpdateFunctionCode host fuel (reconcile_param fp base64) 0 ;;
  ret (Composite triggerRes configRes codeRes).

(** What [createFunction] does once its create request has failed with
    [e]: the three branches of its [catch]. *)
Definition on_create_failure (host : Host) (fuel : nat)
  (fp : ICreateFunctionParam) (base64 : string) (e : JsError)
  : M DeployResult :=
  if is_conflict e && force_of fp then reconcile host fuel fp base64
  else if negb (message e =? "") && negb (force_of fp)
       then throw (deploy_error (name (cf_func fp)) e)
       else throw e.

(** A deployment failure annotated with the function name, as
    [createFunction] builds it. *)
Definition annotated (funcName : string) (e : JsError) : Prop :=
  exists detail,
    message e = "[" ++ funcName ++ "] 部署失败：" ++ nl ++ detail.

(** ** Environment variables *)

(** The [Environment] parameter that carries the whole desired set. *)
Definition Environment_of (func : ICloudFunction) : jsval :=
  JObj [("Variables", JArr (envVariables_of func))].

(** One variable, as the platform takes it. *)
Definition variable_entry (kv : string * jsval) : jsval :=
  JObj [("Key", JStr (fst kv)); ("Value", snd kv)].

(** ** The ignore list and the packer *)

(** Whether dependencies are to be installed in the cloud: asked for
    explicitly, or left unsaid for a Nodejs8.9 function. *)
Definition wants_install (func : ICloudFunction) : bool :=
  match installDependency func with
  | Some b => b
  | None =>
      match runtime func with
      | Some r => r =? "Nodejs8.9"
      | None => false
      end
  end.

(** The ignore list the packer is to receive, as the specification words it. *)
Definition expected_ignore (func : ICloudFunction) : list string :=
  if wants_install func
  then "node_modules/**/*" :: "node_modules" :: spread_ignore func
  else spread_ignore func.

(** Modelled from the spec: [FunctionPacker] (./packer) is not in the
    source.  Section 4.1 of the specification: the packer "excludes paths
    matching any ignore glob (glob matching against the relative path; a
    glob that matches a directory excludes its entire subtree)".  A
    relative path is the list of its segments; how a glob matches a path
    is left to [glob_match]. *)
Fixpoint self_and_ancestors (path : list string) : list (list string) :=
  match path with
  | [] => []
  | segment :: rest =>
      [segment] :: map (cons segment) (self_and_ancestors rest)
  end.

Definition packer_excludes (glob_match : string -> string -> bool)
  (ignore : list string) (path : list string) : bool :=
  existsb
    (fun glob =>
       existsb (fun p => glob_match glob (join "/" p))
         (self_and_ancestors path))
    ignore.

Definition packed_files (glob_match : string -> string -> bool)
  (ignore : list string) (files : list (list string)) : list (list string) :=
  filter (fun path => negb (packer_excludes glob_match ignore path)) files.

(** ** Scenarios

    A scripted host answers the i-th request of a run with the i-th reply
    of its script (an empty object once the script is over), and every
    packer build with the same artifact. *)

Definition scripted (replies : list (JsError + obj)) (built : JsError + string)
  : Host :=
  {| namespace := "env-1";
     CREATING := "Creating";
     UPDATING := "Updating";
     JSON_stringify := fun _ => "[...]";
     request_reply := fun h _ _ _ =>
       nth (List.length (filter is_request h)) replies (inr []);
     build_reply := fun _ _ _ _ _ _ => built |}.

Definition plain_function (funcName : string) : ICloudFunction :=
  {| name := funcName; timeout := None; envVariables := None;
     runtime := None; vpc := None; installDependency := None;
     triggers := None; handler := None; ignore := None;
     isWaitInstall := None; l5 := None; layers := None |}.


(** The scenarios of the examples. *)

Definition status_reply (status : string) : JsError + obj :=
  inr [("Status", JStr status)].

(** A function that stays [Creating] for [n] status checks, then is
    [Active]. *)
Definition polling_host (n : nat) : Host :=
  scripted (repeat (status_reply "Creating") n ++ [status_reply "Active"])%list
    (inr "").

Definition get_call (funcName : string) : Call :=
  Request scf "GetFunction"
    (Some [("FunctionName", JStr funcName); ("Namespace", JStr "env-1");
           ("ShowCode", JStr "TRUE")]).

(** A function in a VPC whose VPC query fails. *)
Definition vpc_error : JsError :=
  CloudBaseError "vpc service unavailable" (Some "InternalError")
    (Some "req-2").

Definition vpc_detail_reply : obj :=
  [("Status", JStr "Active");
   ("VpcConfig",
    JObj [("VpcId", JStr "vpc-1"); ("SubnetId", JStr "subnet-1")])].

Definition vpc_fail_host : Host :=
  scripted [inr vpc_detail_reply; inl vpc_error] (inr "").

(** Creating a function whose name is taken. *)
Definition conflict_error (msg : string) : JsError :=
  CloudBaseError msg (Some "ResourceInUse.FunctionName") (Some "req-1").

Definition refusing_host : Host :=
  scripted [inl (conflict_error "f already exists")] (inr "").

Definition deploy (func : ICloudFunction) (force : bool)
  : ICreateFunctionParam :=
  {| cf_func := func;
     cf_functionRootPath := "./functions";
     cf_force := Some force;
     cf_base64Code := Some "UEsDBAoAAAAAAA==";
     cf_codeSecret := None |}.

(** A function with one timer trigger, deployed over an existing function
    of the same name: the create request is refused, the three requests of
    the Reconcile sequence succeed. *)
Definition timer : ICloudFunctionTrigger :=
  {| trigger_name := "tick"; trigger_type := "timer";
     trigger_config := "0 0 2 * * * *" |}.

Definition timed_function : ICloudFunction :=
  {| name := "f"; timeout := Some 5%Z; envVariables := None;
     runtime := Some "Nodejs8.9"; vpc := None;
     installDependency := Some false; triggers := Some [timer];
     handler := None; ignore := None; isWaitInstall := None; l5 := None;
     layers := None |}.

Definition reply_id (id : string) : JsError + obj :=
  inr [("RequestId", JStr id)].

Definition taken_host : Host :=
  scripted [inl (conflict_error "f already exists");
            reply_id "req-2"; reply_id "req-3"; reply_id "req-4"] (inr "").

(** Replies of a platform in trouble. *)
Definition busy_error (id : string) : JsError :=
  CloudBaseError "service busy" (Some "InternalError") (Some id).

Definition busy (id : string) : JsError + obj := inl (busy_error id).




(** The requests of these runs. *)
Definition batch_call : Call :=
  Request scf "BatchCreateTrigger"
    (Some [("FunctionName", JStr "f"); ("Namespace", JStr "env-1");
           ("Triggers", JStr "[...]"); ("Count", JNum 1)]).

Definition config_call (host : Host) : Call :=
  Request scf "UpdateFunctionConfiguration"
    (Some (updateFunctionConfig_params host timed_function)).

Definition code_call (host : Host) : Call :=
  Request scf "UpdateFunctionCode"
    (Some (updateFunctionCode_params host timed_function
             "UEsDBAoAAAAAAA==" None)).

(** A PHP function whose dependencies are not to be installed, deployed by
    a caller who asks to wait for readiness. *)
Definition waiting_function : ICloudFunction :=
  {| name := "f"; timeout := None; envVariables := None;
     runtime := Some "Php7"; vpc := None; installDependency := Some false;
     triggers := None; handler := None; ignore := None;
     isWaitInstall := Some true; l5 := None; layers := None |}.

Definition waiting_host : Host :=
  scripted [reply_id "req-1"; status_reply "Active"] (inr "").

Definition update_of (func : ICloudFunction) (codeSecret : option string)
  : IUpdateFunctionCodeParam :=
  {| uc_func := func;
     uc_functionRootPath := None;
     uc_base64Code := Some "UEsDBAoAAAAAAA==";
     uc_codeSecret := codeSecret |}.

(** A function whose desired set of environment variables is empty, and
    one with two variables. *)
Definition bare_function : ICloudFunction :=
  {| name := "f"; timeout := None; envVariables := Some [];
     runtime := None; vpc := None; installDependency := None;
     triggers := None; handler := None; ignore := None;
     isWaitInstall := None; l5 := None; layers := None |}.

Definition configured_function : ICloudFunction :=
  {| name := "f"; timeout := None;
     envVariables := Some [("STAGE", JStr "prod"); ("RETRIES", JNum 3)];
     runtime := None; vpc := None; installDependency := None;
     triggers := None; handler := None; ignore := None;
     isWaitInstall := None; l5 := None; layers := None |}.

(** A Nodejs8.9 function packaged from its local directory. *)
Definition node_function : ICloudFunction :=
  {| name := "f"; timeout := None; envVariables := None;
     runtime := Some "Nodejs8.9"; vpc := None; installDependency := None;
     triggers := None; handler := None;
     ignore := Some (inr ["*.log"]);
     isWaitInstall := None; l5 := None; layers := None |}.

Definition local_deploy (func : ICloudFunction) : ICreateFunctionParam :=
  {| cf_func := func;
     cf_functionRootPath := "./functions";
     cf_force := None;
     cf_base64Code := None;
     cf_codeSecret := None |}.

Definition local_update (func : ICloudFunction) : IUpdateFunctionCodeParam :=
  {| uc_func := func;
     uc_functionRootPath := Some "./functions";
     uc_base64Code := None;
     uc_codeSecret := None |}.

(** Over an existing function, the trigger creation fails; or the
    configuration update does. *)
Definition refused_trigger_host : Host :=
  scripted [inl (conflict_error "f already exists"); busy "req-2";
            reply_id "req-3"; reply_id "req-4"] (inr "").

Definition refused_config_host : Host :=
  scripted [inl (conflict_error "f already exists"); reply_id "req-2";
            busy "req-3"; reply_id "req-4"] (inr "").


(** A function that is being updated, then created, then active; and one
    whose creation failed. *)
Definition updating_host : Host :=
  scripted [status_reply "Updating"; status_reply "Creating";
            status_reply "Active"] (inr "").

Definition failed_host : Host :=
  scripted [status_reply "CreateFailed"] (inr "").

(** * Vocabulary of the further properties *)

(** [null] or [undefined]. *)
Definition nullish (v : jsval) : bool :=
  match v with
  | JUndefined | JNull => true
  | _ => false
  end.

(** ** listFunctions *)

Definition function_keys : list string :=
  ["FunctionId"; "FunctionName"; "Runtime"; "AddTime"; "ModTime"; "Status"].

(** What a listing keeps of one function of the reply. *)
Definition summary (func : jsval) : jsval :=
  JObj (map (fun key => (key, js_get func key)) function_keys).

Definition list_call (host : Host) (limit offset : option Z) : Call :=
  Request scf "ListFunctions" (Some (listFunctions_params host limit offset)).

(** ** Scenarios *)

(** Two functions as the platform lists them. *)
Definition listed (funcName status : string) : jsval :=
  JObj [("FunctionId", JStr ("lam-" ++ funcName));
        ("FunctionName", JStr funcName);
        ("Namespace", JStr "env-1");
        ("Runtime", JStr "Nodejs8.9");
        ("AddTime", JStr "2020-01-01 00:00:00");
        ("ModTime", JStr "2020-01-02 00:00:00");
        ("Status", JStr status)].

Definition listing_reply (items : jsval) : JsError + obj :=
  inr [("Functions", items); ("TotalCount", JNum 2);
       ("RequestId", JStr "req-1")].

Definition listing_host (items : jsval) : Host :=
  scripted [listing_reply items] (inr "").

(** ** createFunctionTriggers *)

Definition is_timer (item : ICloudFunctionTrigger) : bool :=
  trigger_type item =? "timer".

(** A trigger as the platform takes it. *)
Definition parsed_trigger (item : ICloudFunctionTrigger) : jsval :=
  JObj [("TriggerName", JStr (trigger_name item));
        ("Type", JStr (trigger_type item));
        ("TriggerDesc", JStr (trigger_config item))].

Definition triggers_params (host : Host) (funcName : string)
  (ts : list ICloudFunctionTrigger) : obj :=
  [("FunctionName", JStr funcName);
   ("Namespace", JStr (namespace host));
   ("Triggers", JStr (JSON_stringify host (JArr (map parsed_trigger ts))));
   ("Count", JNum (Z.of_nat (List.length ts)))].

Definition webhook : ICloudFunctionTrigger :=
  {| trigger_name := "hook"; trigger_type := "http";
     trigger_config := "/hook" |}.

(** ** getFunctionDetail *)

(** The first item whose property [key] is [target], or [undefined]. *)
Definition first_match (key : string) (target : jsval) (items : list jsval)
  : jsval :=
  match find (fun item => strict_eq (js_get item key) target) items with
  | Some item => item
  | None => JUndefined
  end.

Definition detail_call (host : Host) (funcName : string)
  (codeSecret : option string) : Call :=
  Request scf "GetFunction"
    (Some (getFunctionDetail_params host funcName codeSecret)).

(** The function [f] lives in vpc-1/subnet-1, which both queries know. *)
Definition full_detail_reply : obj :=
  [("FunctionName", JStr "f"); ("Status", JStr "Active");
   ("VpcConfig",
    JObj [("VpcId", JStr "vpc-1"); ("SubnetId", JStr "subnet-1")]);
   ("RequestId", JStr "req-1")].

Definition vpc_item (id vpcName : string) : jsval :=
  JObj [("VpcId", JStr id); ("VpcName", JStr vpcName)].

Definition subnet_item (id subnetName : string) : jsval :=
  JObj [("SubnetId", JStr id); ("SubnetName", JStr subnetName)].

Definition vpcs_reply : obj :=
  [("VpcSet", JArr [vpc_item "vpc-0" "old"; vpc_item "vpc-1" "main"])].

Definition subnets_reply : obj :=
  [("SubnetSet", JArr [subnet_item "subnet-1" "a"])].

Definition vpc_host : Host :=
  scripted [inr full_detail_reply; inr vpcs_reply; inr subnets_reply]
    (inr "").

(** ** The parameters of the create and of the configuration requests *)

(** Whether the function names both a VPC and a subnet. *)
Definition in_vpc (func : ICloudFunction) : bool :=
  match vpc func with
  | Some v => negb (subnetId v =? "") && negb (vpcId v =? "")
  | None => false
  end.

(** ** The calls of a deployment *)

(** Every action [createFunction] can ask of the platform. *)
Definition deploy_actions : list string :=
  ["CreateFunction"; "BatchCreateTrigger"; "UpdateFunctionConfiguration";
   "UpdateFunctionCode"; "GetFunction"; "DescribeVpcs"; "DescribeSubnets"].

(** ** updateFunctionIncrementalCode *)

(** The parameters of an incremental update before the added files. *)
Definition incremental_base (host : Host)
  (param : IUpdateFunctionIncrementalCodeParam) : obj :=
  let params : obj :=
    [("FunctionName", JStr (name (ui_func param)));
     ("Namespace", JStr (namespace host))] in
  match ui_deleteFiles param with
  | Some files => obj_set "DeleteFiles" (JArr (map JStr files)) params
  | None => params
  end.

(** The build of the files an incremental update adds. *)
Definition incremental_build (param : IUpdateFunctionIncrementalCodeParam)
  : Call :=
  Build (Some (ui_functionRootPath param)) (name (ui_func param)) []
    (ui_addFiles param) (codeType_of (ui_func param)).

(** ** The layers *)

(** The request that publishes the content [base64] as a layer version. *)
Definition publish_call (options : IFunctionLayerOptions) (base64 : string)
  : Effect :=
  Remote (Request scf "PublishLayerVersion"
            (Some (createLayer_params options base64))).

(** The four ways [createLayer] has to its request, as the calls on the
    disk that come before it: none when the content is given; the reading
    of a ZIP file; the archiving of a directory into a temporary file,
    read and then deleted, the temporary file being deleted first when one
    was there already. *)
Definition ways_to_publish (contentPath dest : string)
  : list (list DiskCall) :=
  [ [];
    [IsDirectory contentPath; ReadFile contentPath];
    [IsDirectory contentPath; CheckPathExist dest; ZipDir contentPath dest;
     ReadFile dest; DelSync dest];
    [IsDirectory contentPath; CheckPathExist dest; DelSync dest;
     ZipDir contentPath dest; ReadFile dest; DelSync dest] ].

(** A machine where [./layer] is a directory, a temporary archive of it
    is left from an earlier run, and every call succeeds. *)
Definition posix_machine : Machine :=
  {| cwd := "/work";
     path_parse_name := fun p => if p =? "./layer" then "layer" else p;
     path_join := fun a b => a ++ "/" ++ b;
     path_extname := fun p => if p =? "./layer.zip" then ".zip" else "";
     isDirectory_reply := fun _ p => inr (p =? "./layer");
     checkPathExist_reply := fun _ _ => inr true;
     delSync_reply := fun _ _ => inr tt;
     zipDir_reply := fun _ _ _ => inr tt;
     readFile_reply := fun _ _ => inr "UEsDBAoAAAAAAA==" |}.

Definition layer_of (contentPath : string) (runtimes : list string)
  : IFunctionLayerOptions :=
  {| fl_contentPath := Some contentPath;
     fl_base64Content := None;
     fl_name := "deps";
     fl_runtimes := Some runtimes;
     fl_description := None;
     fl_licenseInfo := None |}.

Definition inline_layer : IFunctionLayerOptions :=
  {| fl_contentPath := Some "./layer";
     fl_base64Content := Some "UEsDBAoAAAAAAA==";
     fl_name := "deps";
     fl_runtimes := Some ["Nodejs8.9"];
     fl_description := None;
     fl_licenseInfo := None |}.

(** The same machine, but the archive cannot be read back. *)
Definition unreadable : JsError :=
  CloudBaseError "EACCES: permission denied" (Some "EACCES") None.

Definition locked_machine : Machine :=
  {| cwd := "/work";
     path_parse_name := path_parse_name posix_machine;
     path_join := path_join posix_machine;
     path_extname := path_extname posix_machine;
     isDirectory_reply := isDirectory_reply posix_machine;
     checkPathExist_reply := fun _ _ => inr false;
     delSync_reply := fun _ _ => inr tt;
     zipDir_reply := fun _ _ _ => inr tt;
     readFile_reply := fun _ _ => inl unreadable |}.

(** The same again, with a temporary archive left from an earlier run. *)
Definition stale_machine : Machine :=
  {| cwd := "/work";
     path_parse_name := path_parse_name posix_machine;
     path_join := path_join posix_machine;
     path_extname := path_extname posix_machine;
     isDirectory_reply := isDirectory_reply posix_machine;
     checkPathExist_reply := fun _ _ => inr true;
     delSync_reply := fun _ _ => inr tt;
     zipDir_reply := fun _ _ _ => inr tt;
     readFile_reply := fun _ _ => inl unreadable |}.

(** ** class CloudBase *)

Definition credentials (id key : option string) : CloudBaseConfig :=
  {| secretId := id; secretKey := key; token := None;
     envId := Some "env-1"; proxy := None |}.

(** A manager that is the list of its environments. *)
Definition list_manager (config : CloudBaseConfig) (env : string)
  : JsError + list string :=
  inr [env].

(** ** invokeFunction *)

Definition invoke_call (host : Host) (funcName : string) (params : jsval)
  : Call :=
  Request scf "Invoke" (Some (invokeFunction_params host funcName params)).

(** The error of [JSON.stringify] on an object that holds itself. *)
Definition circular : JsError :=
  CloudBaseError "Converting circular structure to JSON" None None.

(** The reply to an invocation. *)
Definition invoke_reply : obj :=
  [("RequestId", JStr "req-1");
   ("Result",
    JObj [("FunctionRequestId", JStr "run-1"); ("RetMsg", JStr "42");
          ("Duration", JNum 3)])].

(** An incremental update that deletes one file and adds a directory. *)
Definition patch : IUpdateFunctionIncrementalCodeParam :=
  {| ui_func := plain_function "f";
     ui_functionRootPath := "./functions";
     ui_deleteFiles := Some ["old.js"];
     ui_addFiles := Some "lib" |}.

(** ** The namespace of a request *)

(** Every request of the trace to the function service names the
    namespace of the current environment. *)
Definition namespaced (host : Host) (t : list Call) : Prop :=
  forall action data,
    In (Request scf action data) t ->
    exists params,
      data = Some params
      /\ obj_get params "Namespace" = JStr (namespace host).

(** No request of the trace names a namespace. *)
Definition unscoped (t : list Call) : Prop :=
  forall service action data,
    In (Request service action data) t ->
    exists params, data = Some params /\ obj_has params "Namespace" = false.

(** ** The Reconcile sequence *)

(** The three requests of the sequence. *)
Definition trigger_creation (host : Host) (funcName : string)
  (ts : list ICloudFunctionTrigger) : Call :=
  Request scf "BatchCreateTrigger" (Some (triggers_params host funcName ts)).

Definition config_update (host : Host) (func : ICloudFunction) : Call :=
  Request scf "UpdateFunctionConfiguration"
    (Some (updateFunctionConfig_params host func)).

Definition code_update (host : Host) (func : ICloudFunction)
  (base64 : string) (codeSecret : option string) : Call :=
  Request scf "UpdateFunctionCode"
    (Some (updateFunctionCode_params host func base64 codeSecret)).

(** [triggers_created host func h triggerRes t1]: from history [h], the
    platform takes the triggers of [func].  A function without triggers
    asks for nothing: no request, and the result is [null].  For a function
    with timers the platform accepts the one request that carries them, and
    its reply is the result. *)
Definition triggers_created (host : Host) (func : ICloudFunction)
  (h : list Call) (triggerRes : jsval) (t1 : list Call) : Prop :=
  match triggers func with
  | None | Some [] => triggerRes = JNull /\ t1 = []
  | Some ts =>
      forallb is_timer ts = true
      /\ exists reply,
           request_reply host h scf "BatchCreateTrigger"
             (Some (triggers_params host (name func) ts)) = inr reply
           /\ triggerRes = JObj reply
           /\ t1 = [trigger_creation host (name func) ts]
  end.

(** [settled host fuel func h w]: what follows an accepted code update of
    [func], from history [h].  When the caller asked to wait for the
    installation, the status checks [w], which the fuel covers, end on a
    status that is neither CREATING nor UPDATING; otherwise nothing
    follows. *)
Definition settled (host : Host) (fuel : nat) (func : ICloudFunction)
  (h : list Call) (w : list Call) : Prop :=
  match isWaitInstall func with
  | Some true =>
      exists statuses,
        checks host (name func) h statuses w
        /\ List.length statuses <= fuel
  | _ => w = []
  end.

(** Over an existing function without triggers, whose caller waits for the
    installation: the create request is refused, the two updates are
    accepted, and the first status check reports Active. *)
Definition taken_waiting_host : Host :=
  scripted [inl (conflict_error "f already exists");
            reply_id "req-2"; reply_id "req-3"; status_reply "Active"]
    (inr "").

(** * Properties *)

(** ** Objects *)

Lemma obj_get_set_same k v o : obj_get (obj_set k v o) k = v.
Proof.
  induction o as [|[k' v'] o IH]; simpl.
  - now rewrite String.eqb_refl.
  - destruct (k' =? k) eqn:E; simpl.
    + now rewrite String.eqb_refl.
    + now rewrite E.
Qed.

Lemma obj_get_set_other k k' v o :
  k <> k' -> obj_get (obj_set k v o) k' = obj_get o k'.
Proof.
  intros Hne. induction o as [|[k0 v0] o IH]; simpl.
  - destruct (k =? k') eqn:E; [apply String.eqb_eq in E; contradiction | reflexivity].
  - destruct (k0 =? k) eqn:E; simpl.
    + apply String.eqb_eq in E; subst k0.
      destruct (k =? k') eqn:E'; [apply String.eqb_eq in E'; contradiction | reflexivity].
    + destruct (k0 =? k'); [reflexivity | exact IH].
Qed.

Lemma obj_has_set k k' v o :
  obj_has (obj_set k v o) k' = (k =? k') || obj_has o k'.
Proof.
  induction o as [|[k0 v0] o IH]; simpl.
  - reflexivity.
  - destruct (k0 =? k) eqn:E; simpl.
    + apply String.eqb_eq in E; subst k0.
      destruct (k =? k'); reflexivity.
    + rewrite IH. destruct (k0 =? k'), (k =? k'); reflexivity.
Qed.

Lemma obj_get_absent o k : obj_has o k = false -> obj_get o k = JUndefined.
Proof.
  induction o as [|[k0 v0] o IH]; simpl; [reflexivity|].
  destruct (k0 =? k); simpl; [discriminate | exact IH].
Qed.

Definition pick_step (res : obj) (data : obj) (key : string) : obj :=
  if negb (includes detail_validKeys key) then data
  else obj_set key (obj_get res key) data.

Lemma pick_fold_inv res ks : forall acc,
  (forall k0, obj_has acc k0 = true -> obj_get acc k0 = obj_get res k0) ->
  forall k0, obj_has (fold_left (pick_step res) ks acc) k0 = true ->
             obj_get (fold_left (pick_step res) ks acc) k0 = obj_get res k0.
Proof.
  induction ks as [|key ks IH]; simpl; intros acc Hacc; [exact Hacc|].
  apply IH. intros k0. unfold pick_step.
  destruct (includes detail_validKeys key); cbn [negb]; [|apply Hacc].
  rewrite obj_has_set. destruct (String.eqb_spec key k0) as [->|Hne]; cbn [orb].
  - intros _. apply obj_get_set_same.
  - intros H. rewrite obj_get_set_other by assumption. now apply Hacc.
Qed.

Lemma includes_cons x xs k : includes (x :: xs) k = (x =? k) || includes xs k.
Proof. reflexivity. Qed.

Lemma pick_fold_has res ks : forall acc k0,
  obj_has (fold_left (pick_step res) ks acc) k0
  = obj_has acc k0 || (includes detail_validKeys k0 && includes ks k0).
Proof.
  induction ks as [|key ks IH]; intros acc k0; cbn [fold_left].
  - cbn [includes existsb]. now rewrite andb_false_r, orb_false_r.
  - rewrite IH, includes_cons. unfold pick_step.
    destruct (String.eqb_spec key k0) as [->|Hne].
    + destruct (includes detail_validKeys k0) eqn:E; cbn [negb andb orb].
      * rewrite obj_has_set, String.eqb_refl. cbn [orb]. now rewrite orb_true_r.
      * reflexivity.
    + destruct (includes detail_validKeys key) eqn:E; cbn [negb andb orb];
        [|reflexivity].
      rewrite obj_has_set.
      destruct (key =? k0) eqn:E0; [apply String.eqb_eq in E0; contradiction|].
      reflexivity.
Qed.

Lemma includes_app xs ys k :
  includes (xs ++ ys) k = includes xs k || includes ys k.
Proof. unfold includes. apply existsb_app. Qed.

Lemma includes_insert_index n key sorted k :
  includes (map snd (insert_index n key sorted)) k
  = (key =? k) || includes (map snd sorted) k.
Proof.
  induction sorted as [|[m k0] sorted IH]; cbn [insert_index]; [reflexivity|].
  destruct (n <=? m)%N; [reflexivity|].
  cbn [map snd]. rewrite !includes_cons, IH.
  now destruct (key =? k), (k0 =? k).
Qed.

(** The keys listed are the keys written, in another order. *)
Lemma Object_keys_Permutation o : Permutation (Object_keys o) (map fst o).
Proof.
  unfold Object_keys. induction o as [|[key v] o IH]; [constructor|].
  cbn [index_keys named_keys map fst].
  destruct (array_index key) as [n|].
  - assert (Hi : forall sorted,
               Permutation (map snd (insert_index n key sorted))
                 (key :: map snd sorted)).
    { induction sorted as [|[m k0] sorted IHs]; cbn [insert_index];
        [apply Permutation_refl|].
      destruct (n <=? m)%N; [apply Permutation_refl|].
      cbn [map snd]. eapply perm_trans; [apply perm_skip, IHs|].
      apply perm_swap. }
    eapply perm_trans; [apply Permutation_app_tail, Hi|].
    cbn [app]. now apply perm_skip.
  - eapply perm_trans; [apply Permutation_sym, Permutation_middle|].
    now apply perm_skip.
Qed.

Lemma obj_has_keys o k : obj_has o k = includes (Object_keys o) k.
Proof.
  unfold Object_keys. rewrite includes_app.
  induction o as [|[k0 v0] o IH]; [reflexivity|].
  cbn [obj_has index_keys named_keys]. rewrite IH.
  destruct (array_index k0).
  - rewrite includes_insert_index. now rewrite orb_assoc.
  - rewrite includes_cons.
    destruct (k0 =? k), (includes (map snd (index_keys o)) k); reflexivity.
Qed.

Lemma pick_validKeys_get res k :
  obj_get (pick_validKeys res) k
  = if includes detail_validKeys k then obj_get res k else JUndefined.
Proof.
  unfold pick_validKeys.
  change (fun data key => if negb (includes detail_validKeys key) then data
                          else obj_set key (obj_get res key) data)
    with (pick_step res).
  destruct (obj_has (fold_left (pick_step res) (Object_keys res) []) k) eqn:H.
  - rewrite pick_fold_inv; [| cbn [obj_has]; discriminate | assumption].
    rewrite pick_fold_has in H. cbn [obj_has orb] in H.
    apply andb_prop in H as [-> _]. reflexivity.
  - rewrite obj_get_absent by assumption.
    rewrite pick_fold_has in H. cbn [obj_has orb] in H.
    destruct (includes detail_validKeys k); [|reflexivity].
    cbn [andb] in H. rewrite <- obj_has_keys in H.
    now rewrite obj_get_absent.
Qed.

(** ** The monad *)

Lemma bind_Returned {A B} (m : M A) (f : A -> M B) h a t :
  m h = (Returned a, t) ->
  bind m f h = (let (o, t') := f a (h ++ t)%list in (o, (t ++ t')%list)).
Proof. intros H. unfold bind. now rewrite H. Qed.

Lemma bind_Thrown {A B} (m : M A) (f : A -> M B) h e t :
  m h = (Thrown e, t) -> bind m f h = (Thrown e, t).
Proof. intros H. unfold bind. now rewrite H. Qed.

Ltac mrun :=
  cbv beta iota zeta
    delta [bind try_catch ret throw out_of_fuel request sleep packer_build].

Ltac mnorm := repeat rewrite <- app_assoc; cbn [app].

Ltac case_request :=
  match goal with
  | |- context [request_reply ?ho ?h ?s ?a ?d] =>
      let e := fresh "e" in let res := fresh "res" in
      let Hr := fresh "Hr" in
      destruct (request_reply ho h s a d) as [e | res] eqn:Hr
  end.

Ltac case_build :=
  match goal with
  | |- context [build_reply ?ho ?h ?r ?n ?i ?p ?ty] =>
      let e := fresh "e" in let built := fresh "built" in
      let Hb := fresh "Hb" in
      destruct (build_reply ho h r n i p ty) as [e | built] eqn:Hb
  end.

(** ** getFunctionDetail *)

Section Detail.

Variable host : Host.

(** A failed VPC or subnet query is caught. *)
Lemma getFunctionDetail_absorbs funcName codeSecret h res e :
  let get := Request scf "GetFunction"
               (Some (getFunctionDetail_params host funcName codeSecret)) in
  let data := pick_validKeys res in
  request_reply host h scf "GetFunction"
    (Some (getFunctionDetail_params host funcName codeSecret)) = inr res ->
  truthy (VpcId_of data) && truthy (SubnetId_of data) = true ->
  request_reply host (h ++ [get]) vpcsvc "DescribeVpcs" None = inl e \/
  ((exists vpcs,
      request_reply host (h ++ [get]) vpcsvc "DescribeVpcs" None = inr vpcs) /\
   request_reply host (h ++ [get; Request vpcsvc "DescribeVpcs" None])
     vpcsvc "DescribeSubnets" (Some (getSubnets_data (VpcId_of data)))
   = inl e) ->
  exists t,
    getFunctionDetail host funcName codeSecret h
    = (Returned (obj_set "VPC" empty_vpc_info data), get :: t)
    /\ failures host (h ++ [get]) t = [e].
Proof.
  intros get data Hget Hids Hfail.
  unfold getFunctionDetail. fold get.
  destruct Hfail as [Hv | [[vpcs Hv] Hs]].
  - exists [Request vpcsvc "DescribeVpcs" None]. split.
    + unfold getVpcs. mrun. rewrite Hget. mrun. fold data. rewrite Hids.
      fold get. rewrite Hv. reflexivity.
    + cbn [failures]. rewrite Hv. reflexivity.
  - exists [Request vpcsvc "DescribeVpcs" None;
            Request vpcsvc "DescribeSubnets"
              (Some (getSubnets_data (VpcId_of data)))]. split.
    + unfold getVpcs, getSubnets. mrun. rewrite Hget. mrun. fold data.
      rewrite Hids. fold get. rewrite Hv. mrun. mnorm. rewrite Hs.
      reflexivity.
    + cbn [failures]. rewrite Hv. mnorm. rewrite Hs. reflexivity.
Qed.

End Detail.

Section DetailFacts.

Variable host : Host.

Lemma array_find_pure key target v h :
  exists r, array_find key target v h = (r, []) /\ r <> OutOfFuel.
Proof.
  unfold array_find. destruct v; try (eexists; split; [reflexivity | discriminate]).
  destruct (find_by key target items);
    eexists; (split; [reflexivity | discriminate]).
Qed.

(** The calls of one [getFunctionDetail]: the status query, then at most
    the VPC query and the subnet query. *)
Lemma getFunctionDetail_trace funcName codeSecret h :
  let get := Request scf "GetFunction"
               (Some (getFunctionDetail_params host funcName codeSecret)) in
  let vpcs := Request vpcsvc "DescribeVpcs" None in
  exists o, o <> OutOfFuel /\
    (getFunctionDetail host funcName codeSecret h = (o, [get]) \/
     getFunctionDetail host funcName codeSecret h = (o, [get; vpcs]) \/
     exists d,
       getFunctionDetail host funcName codeSecret h
       = (o, [get; vpcs; Request vpcsvc "DescribeSubnets" d])).
Proof.
  intros get vpcs. unfold getFunctionDetail, getVpcs, getSubnets. mrun.
  fold get vpcs.
  destruct (request_reply host h scf "GetFunction" _) as [e | res].
  { eexists. split; [|left; reflexivity]. discriminate. }
  destruct (truthy (VpcId_of (pick_validKeys res))
            && truthy (SubnetId_of (pick_validKeys res))).
  2:{ eexists. split; [|left; reflexivity]. discriminate. }
  destruct (request_reply host (h ++ [get]) vpcsvc "DescribeVpcs" None)
    as [e | r1].
  { eexists. split; [|right; left; reflexivity]. discriminate. }
  mnorm.
  match goal with
  | |- context [request_reply host ?hh vpcsvc "DescribeSubnets" ?d] =>
      destruct (request_reply host hh vpcsvc "DescribeSubnets" d) as [e | r2]
  end.
  { eexists. split; [|right; right; eexists; reflexivity]. discriminate. }
  mnorm.
  match goal with
  | |- context [array_find "VpcId" ?x ?v ?hh] =>
      destruct (array_find_pure "VpcId" x v hh) as (o1 & -> & Ho1)
  end.
  destruct o1 as [vpc | e |]; [| | contradiction].
  2:{ eexists. split; [|right; right; eexists; reflexivity]. discriminate. }
  mnorm.
  match goal with
  | |- context [array_find "SubnetId" ?x ?v ?hh] =>
      destruct (array_find_pure "SubnetId" x v hh) as (o2 & -> & Ho2)
  end.
  destruct o2 as [subnet | e |]; [| | contradiction];
    (eexists; split; [|right; right; eexists; reflexivity]; discriminate).
Qed.

Lemma getFunctionDetail_one_check funcName codeSecret h o t :
  getFunctionDetail host funcName codeSecret h = (o, t) ->
  count_action "GetFunction" t = 1 /\ sleeps t = [] /\ o <> OutOfFuel.
Proof.
  intros H.
  destruct (getFunctionDetail_trace funcName codeSecret h)
    as (o' & Ho & [E | [E | [d E]]]);
    rewrite E in H; inversion H; subst; repeat split; auto.
Qed.

(** Whatever the VPC lookup does, the detail record keeps the keys taken
    from the reply, [Status] among them. *)
Lemma getFunctionDetail_Status funcName codeSecret h detail t :
  getFunctionDetail host funcName codeSecret h = (Returned detail, t) ->
  exists res,
    request_reply host h scf "GetFunction"
      (Some (getFunctionDetail_params host funcName codeSecret)) = inr res /\
    obj_get detail "Status" = obj_get res "Status".
Proof.
  unfold getFunctionDetail, getVpcs, getSubnets. mrun.
  destruct (request_reply host h scf "GetFunction" _) as [e | res];
    [discriminate|].
  intros H. exists res. split; [reflexivity|].
  assert (Hpick : obj_get (pick_validKeys res) "Status" = obj_get res "Status")
    by (rewrite pick_validKeys_get; reflexivity).
  destruct (truthy (VpcId_of (pick_validKeys res))
            && truthy (SubnetId_of (pick_validKeys res))).
  2:{ inversion H; subst. exact Hpick. }
  revert H.
  repeat match goal with
  | |- context [request_reply host ?hh vpcsvc ?a ?d] =>
      destruct (request_reply host hh vpcsvc a d); mnorm
  | |- context [array_find ?k ?x ?v ?hh] =>
      let o := fresh "o" in let Ho := fresh "Ho" in
      destruct (array_find_pure k x v hh) as (o & -> & Ho);
      destruct o; [| | contradiction]; mnorm
  end;
  intros H; inversion H; subst;
  rewrite obj_get_set_other by discriminate; exact Hpick.
Qed.

End DetailFacts.

(** ** waitFunctionActive *)

Section Wait.

Variable host : Host.

Lemma waitFunctionActive_stop fuel funcName h detail t :
  getFunctionDetail host funcName None h = (Returned detail, t) ->
  is_transient host (obj_get detail "Status") = false ->
  waitFunctionActive host (S fuel) funcName h
  = (Returned tt, (t ++ [Sleep 1000])%list).
Proof.
  intros Hd Hs. cbn [waitFunctionActive]. mrun. rewrite Hd, Hs.
  now rewrite app_nil_r.
Qed.

Lemma waitFunctionActive_continue fuel funcName h detail t :
  getFunctionDetail host funcName None h = (Returned detail, t) ->
  is_transient host (obj_get detail "Status") = true ->
  waitFunctionActive host (S fuel) funcName h
  = (let (o, t') :=
       waitFunctionActive host fuel funcName (h ++ t ++ [Sleep 1000])%list in
     (o, (t ++ Sleep 1000 :: t')%list)).
Proof.
  intros Hd Hs. cbn [waitFunctionActive]. mrun. rewrite Hd, Hs. mnorm.
  destruct (waitFunctionActive host fuel funcName _) as [o t'].
  now cbn [app].
Qed.

Lemma polls_returns funcName h n t :
  polls host funcName h n t ->
  forall fuel, n <= fuel ->
    waitFunctionActive host fuel funcName h = (Returned tt, t).
Proof.
  induction 1 as [h detail t Hd Hs | h detail t n t' Hd Hs Hp IH];
    intros [|fuel] Hle; try lia.
  - now apply waitFunctionActive_stop with detail.
  - rewrite (waitFunctionActive_continue _ _ _ _ _ Hd Hs).
    rewrite IH by lia. reflexivity.
Qed.

Lemma polls_needs_fuel funcName h n t :
  polls host funcName h n t ->
  forall fuel, fuel < n ->
    fst (waitFunctionActive host fuel funcName h) = OutOfFuel.
Proof.
  induction 1 as [h detail t Hd Hs | h detail t n t' Hd Hs Hp IH];
    intros [|fuel] Hlt; try lia; try reflexivity.
  rewrite (waitFunctionActive_continue _ _ _ _ _ Hd Hs).
  specialize (IH fuel ltac:(lia)).
  destruct (waitFunctionActive host fuel funcName _) as [o t'']. exact IH.
Qed.

Lemma count_action_app a t1 t2 :
  count_action a (t1 ++ t2) = count_action a t1 + count_action a t2.
Proof.
  unfold count_action.
  induction t1 as [|c t1 IH]; [reflexivity|].
  destruct c; cbn [app actions filter]; try exact IH.
  destruct (action =? a); cbn [List.length]; now rewrite IH.
Qed.

Lemma sleeps_app t1 t2 : sleeps (t1 ++ t2) = (sleeps t1 ++ sleeps t2)%list.
Proof.
  induction t1 as [|c t1 IH]; [reflexivity|].
  destruct c; cbn [app sleeps]; now rewrite IH.
Qed.

Lemma polls_checks funcName h n t :
  polls host funcName h n t ->
  count_action "GetFunction" t = n /\ sleeps t = repeat 1000%Z n.
Proof.
  induction 1 as [h detail t Hd Hs | h detail t n t' Hd Hs Hp [IH1 IH2]];
    destruct (getFunctionDetail_one_check host _ _ _ _ _ Hd) as (Hc & Hz & _).
  - rewrite count_action_app, sleeps_app, Hc, Hz. split; reflexivity.
  - change (t ++ Sleep 1000 :: t')%list with (t ++ [Sleep 1000] ++ t')%list.
    rewrite !count_action_app, !sleeps_app, Hc, Hz, IH1, IH2.
    split; reflexivity.
Qed.

End Wait.

Lemma getFunctionDetail_plain host funcName codeSecret h res :
  request_reply host h scf "GetFunction"
    (Some (getFunctionDetail_params host funcName codeSecret)) = inr res ->
  truthy (VpcId_of (pick_validKeys res))
  && truthy (SubnetId_of (pick_validKeys res)) = false ->
  getFunctionDetail host funcName codeSecret h
  = (Returned (pick_validKeys res),
     [Request scf "GetFunction"
        (Some (getFunctionDetail_params host funcName codeSecret))]).
Proof.
  intros Hr Hc. unfold getFunctionDetail. mrun. rewrite Hr, Hc. reflexivity.
Qed.

Lemma requests_app h1 h2 :
  List.length (filter is_request (h1 ++ h2))
  = List.length (filter is_request h1) + List.length (filter is_request h2).
Proof. now rewrite filter_app, length_app. Qed.

Lemma nth_polling_script n k :
  nth k (repeat (status_reply "Creating") n ++ [status_reply "Active"])%list
    (inr [])
  = if (k <? n)%nat then status_reply "Creating"
    else if (k =? n)%nat then status_reply "Active" else inr [].
Proof.
  destruct (Nat.ltb_spec k n) as [Hlt | Hge].
  - rewrite app_nth1 by (now rewrite repeat_length).
    now rewrite nth_repeat_lt.
  - rewrite app_nth2 by (now rewrite repeat_length).
    rewrite repeat_length.
    destruct (Nat.eqb_spec k n) as [-> | Hne].
    + now rewrite Nat.sub_diag.
    + destruct (k - n) as [|[|j]] eqn:E; [lia | reflexivity | reflexivity].
Qed.

Lemma strict_eq_JStr status s :
  strict_eq status (JStr s) = true <-> status = JStr s.
Proof.
  destruct status; cbn [strict_eq]; split; try discriminate.
  - intros H. apply String.eqb_eq in H. now subst.
  - intros H. injection H as ->. apply String.eqb_refl.
Qed.

(** The test of the loop is true for CREATING and for UPDATING, and for
    nothing else. *)
Lemma is_transient_in_progress host status :
  is_transient host status = true <-> in_progress host status.
Proof.
  unfold is_transient, in_progress. rewrite orb_true_iff.
  now rewrite !strict_eq_JStr.
Qed.

Lemma checks_polls host funcName h statuses t :
  checks host funcName h statuses t ->
  polls host funcName h (List.length statuses) t.
Proof.
  induction 1 as [h detail t Hd Hs | h detail t statuses t' Hd Hs Hc IH].
  - apply (polls_last host funcName h detail t Hd).
    destruct (is_transient host (obj_get detail "Status")) eqn:E;
      [|reflexivity].
    apply is_transient_in_progress in E. contradiction.
  - apply (polls_next host funcName h detail t _ t' Hd); [|exact IH].
    now apply is_transient_in_progress.
Qed.

(** The statuses of a run of checks: all in progress, but the last. *)
Lemma checks_statuses host funcName h statuses t :
  checks host funcName h statuses t ->
  exists before last,
    statuses = (before ++ [last])%list
    /\ Forall (in_progress host) before
    /\ ~ in_progress host last.
Proof.
  induction 1 as [h detail t Hd Hs | h detail t statuses t' Hd Hs Hc IH].
  - exists [], (obj_get detail "Status"). now repeat split.
  - destruct IH as (before & last & -> & Hb & Hl).
    exists (obj_get detail "Status" :: before), last.
    repeat split; [now constructor | exact Hl].
Qed.

(** From a history with [k <= n] requests, the host of [polling_host n]
    makes the loop check [S (n - k)] times, the status being Creating but
    for the last check. *)
Lemma polling_host_checks n funcName : forall d h,
  d + List.length (filter is_request h) = n ->
  exists t,
    checks (polling_host n) funcName h
      (repeat (JStr "Creating") d ++ [JStr "Active"])%list t.
Proof.
  induction d as [|d IH]; intros h Hk.
  - eexists.
    apply (checks_last (polling_host n) funcName h [("Status", JStr "Active")]).
    + rewrite (getFunctionDetail_plain (polling_host n) funcName None h
                 [("Status", JStr "Active")]); [reflexivity | | reflexivity].
      cbn [polling_host scripted request_reply]. rewrite nth_polling_script.
      cbn [Nat.add] in Hk. rewrite Hk, Nat.ltb_irrefl, Nat.eqb_refl.
      reflexivity.
    + cbn. intros [H | H]; discriminate H.
  - assert (Hlt : (List.length (filter is_request h) <? n)%nat = true)
      by (apply Nat.ltb_lt; lia).
    edestruct (IH (h ++ [Request scf "GetFunction"
                          (Some (getFunctionDetail_params (polling_host n)
                                   funcName None))] ++ [Sleep 1000])%list)
      as [t' Ht'].
    { rewrite !requests_app. cbn. lia. }
    eexists.
    apply (checks_next (polling_host n) funcName h
             [("Status", JStr "Creating")]
             [Request scf "GetFunction"
                (Some (getFunctionDetail_params (polling_host n) funcName
                         None))]
             (repeat (JStr "Creating") d ++ [JStr "Active"])%list t');
      [| |exact Ht'].
    + rewrite (getFunctionDetail_plain (polling_host n) funcName None h
                 [("Status", JStr "Creating")]); [reflexivity | | reflexivity].
      cbn [polling_host scripted request_reply]. rewrite nth_polling_script.
      rewrite Hlt. reflexivity.
    + left. reflexivity.
Qed.

(** C4. The wait for activation checks the status once per iteration and
    pauses one second after each check.  It goes on exactly while the
    status is CREATING or UPDATING: when the successive checks report the
    statuses [statuses], all CREATING or UPDATING but the last, which is
    anything else (ACTIVE, a failure, no status at all), the loop makes
    exactly as many checks as there are statuses and returns normally: it
    returns as soon as that many iterations are followed, not before, and
    its trace holds that many status queries and pauses of 1000 ms.
    Nothing bounds the number of iterations: for every [m] some platform
    makes the loop check [m + 1] times. *)
Theorem C4_await_active host funcName h statuses t :
  checks host funcName h statuses t ->
  let n := List.length statuses in
  (forall fuel, n <= fuel ->
     waitFunctionActive host fuel funcName h = (Returned tt, t))
  /\ (forall fuel, fuel < n ->
        fst (waitFunctionActive host fuel funcName h) = OutOfFuel)
  /\ count_action "GetFunction" t = n
  /\ sleeps t = repeat 1000%Z n
  /\ (exists before last,
        statuses = (before ++ [last])%list
        /\ Forall (fun status =>
                     status = JStr (CREATING host)
                     \/ status = JStr (UPDATING host)) before
        /\ last <> JStr (CREATING host) /\ last <> JStr (UPDATING host))
  /\ (forall m, exists host' statuses' t',
        checks host' funcName [] statuses' t'
        /\ List.length statuses' = S m).
Proof.
  intros Hc n. pose proof (checks_polls _ _ _ _ _ Hc) as Hp. fold n in Hp.
  repeat split.
  - now apply polls_returns.
  - now apply (polls_needs_fuel host funcName h n t).
  - now apply (polls_checks host funcName h n t).
  - now apply (polls_checks host funcName h n t).
  - destruct (checks_statuses _ _ _ _ _ Hc) as (before & last & E & Hb & Hl).
    exists before, last. split; [exact E|]. split; [exact Hb|].
    split; intros ->; apply Hl; [now left | now right].
  - intros m. destruct (polling_host_checks m funcName m []) as [t' Ht'].
    { cbn. lia. }
    eexists _, _, t'. split; [exact Ht'|].
    rewrite length_app, repeat_length. cbn. lia.
Qed.

(** The status sequence Creating, Creating, Active: three checks. *)
Lemma C4_await_active_witness :
  (forall fuel, 3 <= fuel ->
     waitFunctionActive (polling_host 2) fuel "f" []
     = (Returned tt,
        [get_call "f"; Sleep 1000; get_call "f"; Sleep 1000;
         get_call "f"; Sleep 1000]))
  /\ (forall fuel, fuel < 3 ->
        fst (waitFunctionActive (polling_host 2) fuel "f" []) = OutOfFuel)
  /\ (forall fuel, 3 <= fuel ->
        waitFunctionActive updating_host fuel "f" []
        = (Returned tt,
           [get_call "f"; Sleep 1000; get_call "f"; Sleep 1000;
            get_call "f"; Sleep 1000]))
  /\ (forall fuel, 1 <= fuel ->
        waitFunctionActive failed_host fuel "f" []
        = (Returned tt, [get_call "f"; Sleep 1000])).
Proof.
  assert (Hrun : forall host', CREATING host' = "Creating" ->
            UPDATING host' = "Updating" ->
            forall s1 s2 s3,
            in_progress host' (JStr s1) -> in_progress host' (JStr s2) ->
            ~ in_progress host' (JStr s3) ->
            getFunctionDetail host' "f" None []
            = (Returned [("Status", JStr s1)], [get_call "f"]) ->
            getFunctionDetail host' "f" None [get_call "f"; Sleep 1000]
            = (Returned [("Status", JStr s2)], [get_call "f"]) ->
            getFunctionDetail host' "f" None
              [get_call "f"; Sleep 1000; get_call "f"; Sleep 1000]
            = (Returned [("Status", JStr s3)], [get_call "f"]) ->
            checks host' "f" [] [JStr s1; JStr s2; JStr s3]
              [get_call "f"; Sleep 1000; get_call "f"; Sleep 1000;
               get_call "f"; Sleep 1000]).
  { intros host' _ _ s1 s2 s3 H1 H2 H3 E1 E2 E3.
    apply (checks_next host' "f" [] [("Status", JStr s1)] [get_call "f"]
             [JStr s2; JStr s3]
             [get_call "f"; Sleep 1000; get_call "f"; Sleep 1000] E1 H1).
    apply (checks_next host' "f" _ [("Status", JStr s2)] [get_call "f"]
             [JStr s3] [get_call "f"; Sleep 1000] E2 H2).
    apply (checks_last host' "f" _ [("Status", JStr s3)] [get_call "f"]
             E3 H3). }
  assert (Hno : forall host' s, CREATING host' = "Creating" ->
            UPDATING host' = "Updating" -> s <> "Creating" ->
            s <> "Updating" -> ~ in_progress host' (JStr s)).
  { intros host' s Hc Hu H1 H2 [H | H]; injection H as ->; congruence. }
  split; [|split; [|split]].
  - apply (C4_await_active (polling_host 2) "f" []
             [JStr "Creating"; JStr "Creating"; JStr "Active"]).
    apply Hrun; try reflexivity;
      [now left | now left | apply Hno; (reflexivity || discriminate)].
  - apply (C4_await_active (polling_host 2) "f" []
             [JStr "Creating"; JStr "Creating"; JStr "Active"]
             [get_call "f"; Sleep 1000; get_call "f"; Sleep 1000;
              get_call "f"; Sleep 1000]).
    apply Hrun; try reflexivity;
      [now left | now left | apply Hno; (reflexivity || discriminate)].
  - apply (C4_await_active updating_host "f" []
             [JStr "Updating"; JStr "Creating"; JStr "Active"]).
    apply Hrun; try reflexivity;
      [now right | now left | apply Hno; (reflexivity || discriminate)].
  - apply (C4_await_active failed_host "f" [] [JStr "CreateFailed"]).
    apply (checks_last failed_host "f" [] [("Status", JStr "CreateFailed")]
             [get_call "f"]); [reflexivity|].
    apply Hno; (reflexivity || discriminate).
Defined.
(** C8. When the VPC query or the subnet query of [getFunctionDetail]
    fails, the call still returns the detail record: the failure is caught,
    the record gains [VPC = { vpc: '', subnet: '' }] where a successful
    lookup would have put the resolved vpc and subnet, and every other
    key, [VpcConfig] with the identifiers the platform reported included,
    is as the status query gave it. *)
Theorem C8_vpc_lookup_failure_absorbed host funcName codeSecret h res e :
  let get := Request scf "GetFunction"
               (Some (getFunctionDetail_params host funcName codeSecret)) in
  let data := pick_validKeys res in
  request_reply host h scf "GetFunction"
    (Some (getFunctionDetail_params host funcName codeSecret)) = inr res ->
  truthy (VpcId_of data) && truthy (SubnetId_of data) = true ->
  request_reply host (h ++ [get]) vpcsvc "DescribeVpcs" None = inl e \/
  ((exists vpcs,
      request_reply host (h ++ [get]) vpcsvc "DescribeVpcs" None = inr vpcs) /\
   request_reply host (h ++ [get; Request vpcsvc "DescribeVpcs" None])
     vpcsvc "DescribeSubnets" (Some (getSubnets_data (VpcId_of data)))
   = inl e) ->
  exists detail t,
    getFunctionDetail host funcName codeSecret h = (Returned detail, t)
    /\ obj_get detail "VPC" = JObj [("vpc", JStr ""); ("subnet", JStr "")]
    /\ obj_get detail "VpcConfig" = obj_get res "VpcConfig"
    /\ (forall k, k <> "VPC" -> obj_get detail k = obj_get data k).
Proof.
  intros get data Hget Hids Hfail.
  destruct (getFunctionDetail_absorbs host funcName codeSecret h res e
              Hget Hids Hfail) as (t & Hrun & _).
  exists (obj_set "VPC" empty_vpc_info data), (get :: t).
  split; [exact Hrun|]. split; [apply obj_get_set_same|]. split.
  - rewrite obj_get_set_other by discriminate.
    unfold data. rewrite pick_validKeys_get. reflexivity.
  - intros k Hk. apply obj_get_set_other. congruence.
Qed.

(** The function [f] lives in vpc-1/subnet-1 and the VPC query fails. *)
Lemma C8_vpc_lookup_failure_absorbed_witness :
  exists detail t,
    getFunctionDetail vpc_fail_host "f" None [] = (Returned detail, t)
    /\ obj_get detail "VPC" = JObj [("vpc", JStr ""); ("subnet", JStr "")]
    /\ obj_get detail "VpcConfig" = obj_get vpc_detail_reply "VpcConfig"
    /\ (forall k, k <> "VPC" ->
          obj_get detail k = obj_get (pick_validKeys vpc_detail_reply) k).
Proof.
  apply (C8_vpc_lookup_failure_absorbed vpc_fail_host "f" None []
           vpc_detail_reply vpc_error).
  - reflexivity.
  - reflexivity.
  - left. reflexivity.
Defined.

(** ** createFunctionTriggers *)

Lemma createFunctionTriggers_surfaces host funcName ts :
  surfaces_failures host (createFunctionTriggers host funcName ts).
Proof.
  intros h a t. unfold createFunctionTriggers.
  destruct ts as [[|item ts]|]; try (intros H; inversion H; reflexivity).
  destruct (parseTriggers (item :: ts)) as [e | parsed];
    [intros H; inversion H|].
  mrun.
  match goal with
  | |- context [request_reply host h ?s ?a ?d] =>
      destruct (request_reply host h s a d) as [e | res] eqn:Hr
  end; intros H; inversion H; subst.
  cbn [failures]. rewrite Hr. reflexivity.
Qed.

Lemma getFunctionDetail_absorbs_in_scenario :
  ~ surfaces_failures vpc_fail_host (getFunctionDetail vpc_fail_host "f" None).
Proof.
  intros H.
  specialize (H [] (obj_set "VPC" empty_vpc_info
                      (pick_validKeys vpc_detail_reply))
                [get_call "f"; Request vpcsvc "DescribeVpcs" None]
                eq_refl).
  discriminate H.
Qed.

(** C9, as amended. With an absent or empty trigger list
    [createFunctionTriggers] returns null, makes no call at all and throws
    nothing; with any list it returns normally only when no call of its own
    failed.  It is not the one place where a condition is absorbed:
    [getFunctionDetail] returns normally from a run whose VPC query
    failed. *)
Theorem C9_no_triggers_noop host funcName h :
  createFunctionTriggers host funcName None h = (Returned JNull, [])
  /\ createFunctionTriggers host funcName (Some []) h = (Returned JNull, [])
  /\ (forall ts, surfaces_failures host (createFunctionTriggers host funcName ts))
  /\ (exists host' funcName',
        ~ surfaces_failures host' (getFunctionDetail host' funcName' None)).
Proof.
  repeat split.
  - apply createFunctionTriggers_surfaces.
  - exists vpc_fail_host, "f". exact getFunctionDetail_absorbs_in_scenario.
Qed.

(** C9 as stated fails: the empty trigger list is not the only absorbed
    condition, since [getFunctionDetail] does not surface the failure of
    its VPC query. *)
Lemma C9_only_absorbed_condition_counterexample :
  ~ (forall host funcName codeSecret,
       surfaces_failures host (getFunctionDetail host funcName codeSecret)).
Proof.
  intros H. exact (getFunctionDetail_absorbs_in_scenario (H _ _ _)).
Qed.

(** ** Which calls an operation can make *)

Section Emits.

Variable host : Host.

Lemma emits_incl {A} ks ks' (m : M A) :
  incl ks ks' -> emits ks m -> emits ks' m.
Proof.
  intros Hi Hm h. eapply Forall_impl; [|apply Hm]. intros c. apply Hi.
Qed.

Lemma emits_ret {A} ks (a : A) : emits ks (ret a).
Proof. intros h. constructor. Qed.

Lemma emits_throw {A} ks e : emits ks (@throw A e).
Proof. intros h. constructor. Qed.

Lemma emits_out_of_fuel {A} ks : emits ks (@out_of_fuel A).
Proof. intros h. constructor. Qed.

Lemma emits_bind {A B} ks (m : M A) (f : A -> M B) :
  emits ks m -> (forall a, emits ks (f a)) -> emits ks (bind m f).
Proof.
  intros Hm Hf h. unfold bind. specialize (Hm h).
  destruct (m h) as [[a | e |] t]; cbn [snd] in *; try assumption.
  specialize (Hf a (h ++ t)%list).
  destruct (f a (h ++ t)%list) as [o t']. cbn [snd] in *.
  apply Forall_app. now split.
Qed.

Lemma emits_try_catch {A} ks (m : M A) k :
  emits ks m -> (forall e, emits ks (k e)) -> emits ks (try_catch m k).
Proof.
  intros Hm Hk h. unfold try_catch. specialize (Hm h).
  destruct (m h) as [[a | e |] t]; cbn [snd] in *; try assumption.
  specialize (Hk e (h ++ t)%list).
  destruct (k e (h ++ t)%list) as [o t']. cbn [snd] in *.
  apply Forall_app. now split.
Qed.

Lemma emits_request ks service action data :
  In (KAction action) ks -> emits ks (request host service action data).
Proof. intros Hin h. cbn. now repeat constructor. Qed.

Lemma emits_sleep ks ms : In KSleep ks -> emits ks (sleep ms).
Proof. intros Hin h. cbn. now repeat constructor. Qed.

Lemma emits_packer_build ks root funcName ignore path type :
  In KBuild ks -> emits ks (packer_build host root funcName ignore path type).
Proof. intros Hin h. cbn. now repeat constructor. Qed.

Lemma emits_if {A} ks (b : bool) (m1 m2 : M A) :
  emits ks m1 -> emits ks m2 -> emits ks (if b then m1 else m2).
Proof. now destruct b. Qed.

Lemma emits_array_find ks key target v : emits ks (array_find key target v).
Proof.
  unfold array_find. destruct v; try apply emits_throw.
  destruct (find_by key target items); [apply emits_throw | apply emits_ret].
Qed.

Ltac emits_tac :=
  repeat first
    [ apply emits_ret | apply emits_throw | apply emits_out_of_fuel
    | apply emits_array_find
    | apply emits_request; cbn; tauto
    | apply emits_sleep; cbn; tauto
    | apply emits_packer_build; cbn; tauto
    | apply emits_bind; [|intros ?]
    | apply emits_try_catch; [|intros ?]
    | apply emits_if
    | assumption ].

Lemma emits_validCreateParams ks func codeSecret :
  emits ks (validCreateParams func codeSecret).
Proof. unfold validCreateParams. emits_tac. Qed.

Lemma emits_createFunctionTriggers funcName ts :
  emits [KAction "BatchCreateTrigger"] (createFunctionTriggers host funcName ts).
Proof.
  unfold createFunctionTriggers.
  destruct ts as [[|item ts]|]; try apply emits_ret.
  destruct (parseTriggers (item :: ts)); emits_tac.
Qed.

Lemma emits_retryCreateTrigger_loop attempts funcName ts : forall count,
  emits [KAction "BatchCreateTrigger"; KSleep]
    (retryCreateTrigger_loop host attempts funcName ts count).
Proof.
  induction attempts as [|attempts IH]; intros count;
    cbn [retryCreateTrigger_loop]; emits_tac.
  - eapply emits_incl; [|apply emits_createFunctionTriggers].
    intros k [<- | []]. now left.
  - apply IH.
Qed.

Lemma emits_getFunctionDetail funcName codeSecret :
  emits detail_kinds (getFunctionDetail host funcName codeSecret).
Proof. unfold getFunctionDetail, getVpcs, getSubnets. emits_tac. Qed.

Lemma emits_waitFunctionActive fuel funcName :
  emits wait_kinds (waitFunctionActive host fuel funcName).
Proof.
  induction fuel as [|fuel IH]; cbn [waitFunctionActive]; emits_tac.
Qed.

Lemma emits_updateFunctionConfig func :
  emits [KAction "UpdateFunctionConfiguration"]
    (updateFunctionConfig host func).
Proof. unfold updateFunctionConfig. emits_tac. Qed.

Lemma emits_package_code root func base64Code :
  emits [KBuild] (package_code host root func base64Code).
Proof. unfold package_code. emits_tac. Qed.

End Emits.

(** ** Validation and packaging *)

Section Package.

Variable host : Host.

Lemma validCreateParams_ok func codeSecret h :
  params_ok func codeSecret = true ->
  validCreateParams func codeSecret h = (Returned tt, []).
Proof.
  unfold params_ok, validCreateParams. intros H.
  apply andb_prop in H as [H1 H2].
  apply negb_true_iff in H1, H2. now rewrite H1, H2.
Qed.

Lemma validCreateParams_rejects func codeSecret h :
  params_ok func codeSecret = false ->
  exists e, validCreateParams func codeSecret h = (Thrown e, []).
Proof.
  unfold params_ok, validCreateParams. intros H.
  destruct (truthy_s codeSecret && _); [now eexists|].
  cbn [negb andb] in H. apply negb_false_iff in H. rewrite H. now eexists.
Qed.

(** A function that passed the check with its secret passes the check
    [updateFunctionCode] makes, which looks at the runtime only. *)
Lemma params_ok_None func codeSecret :
  params_ok func codeSecret = true -> params_ok func None = true.
Proof.
  unfold params_ok. intros H. apply andb_prop in H as [_ H]. now rewrite H.
Qed.

Lemma package_code_supplied root func base64Code h :
  truthy_s base64Code = true ->
  package_code host root func base64Code h
  = (Returned (or_s base64Code ""), []).
Proof. intros H. unfold package_code. now rewrite H. Qed.

Lemma or_s_truthy s d : truthy_s s = true -> truthy_s (Some (or_s s d)) = true.
Proof.
  unfold truthy_s, or_s. destruct s as [s|]; [|discriminate].
  destruct (s =? "") eqn:E; [discriminate|]. now rewrite E.
Qed.

(** What packaging returns is never the empty string. *)
Lemma package_code_truthy root func base64Code h base64 tp :
  package_code host root func base64Code h = (Returned base64, tp) ->
  truthy_s (Some base64) = true.
Proof.
  unfold package_code.
  destruct (truthy_s base64Code) eqn:E; cbn [negb].
  - intros H. inversion H. now apply or_s_truthy.
  - mrun. case_build; [discriminate|].
    match goal with |- context [JStr ?x] => rename x into b end.
    cbn [truthy]. destruct (b =? "") eqn:Eb; cbn [negb]; [discriminate|].
    intros H. inversion H; subst. cbn. now rewrite Eb.
Qed.

Lemma or_s_Some s d : truthy_s (Some s) = true -> or_s (Some s) d = s.
Proof. unfold truthy_s, or_s. now destruct (s =? ""). Qed.

End Package.

(** ** Counting the calls of a trace *)

Lemma count_action_none a ks t :
  Forall (fun c => In (call_kind c) ks) t -> ~ In (KAction a) ks ->
  count_action a t = 0.
Proof.
  intros Hall Hnot. unfold count_action.
  induction Hall as [|c t Hc _ IH]; [reflexivity|].
  destruct c; cbn [actions filter]; try exact IH.
  destruct (String.eqb_spec action a) as [-> | Hne]; [|exact IH].
  now elim Hnot.
Qed.

Lemma no_build ks t :
  Forall (fun c => In (call_kind c) ks) t -> ~ In KBuild ks ->
  Forall (fun c => is_build c = false) t.
Proof.
  intros Hall Hnot. eapply Forall_impl; [|exact Hall].
  intros [| |] Hc; try reflexivity. now elim Hnot.
Qed.

(** ** The retry helpers *)

Section Retry.

Context {A : Type} (m : M A).

Lemma retry_loop_returned attempts count h a t :
  m h = (Returned a, t) ->
  retry_loop m (S attempts) count h = (Returned a, t).
Proof. intros H. cbn [retry_loop]. unfold try_catch. now rewrite H. Qed.

Lemma retry_loop_again attempts count h e t :
  m h = (Thrown e, t) -> count < 3 ->
  retry_loop m (S attempts) count h
  = (let (o, t') :=
       retry_loop m attempts (S count) (h ++ t ++ [Sleep 500])%list in
     (o, (t ++ Sleep 500 :: t')%list)).
Proof.
  intros H Hc. cbn [retry_loop]. mrun. rewrite H.
  apply Nat.ltb_lt in Hc. rewrite Hc. mnorm. rewrite Nat.add_1_r.
  now destruct (retry_loop m attempts (S count) _).
Qed.

Lemma retry_loop_exhausted attempts count h e t :
  m h = (Thrown e, t) -> 3 <= count ->
  retry_loop m (S attempts) count h = (Thrown e, t).
Proof.
  intros H Hc. cbn [retry_loop]. mrun. rewrite H.
  apply Nat.ltb_ge in Hc. rewrite Hc. now rewrite app_nil_r.
Qed.

Lemma retry_loop_out_of_fuel attempts count h t :
  m h = (OutOfFuel, t) ->
  retry_loop m (S attempts) count h = (OutOfFuel, t).
Proof. intros H. cbn [retry_loop]. unfold try_catch. now rewrite H. Qed.



(** With the attempts the helpers start from, the loop never runs out of
    attempts: it stops by itself. *)
Lemma retry_loop_total : forall attempts count h,
  0 < attempts -> 3 < attempts + count ->
  (forall h', fst (m h') <> OutOfFuel) ->
  fst (retry_loop m attempts count h) <> OutOfFuel.
Proof.
  induction attempts as [|attempts IH]; intros count h Hpos Hc Hm; [lia|].
  specialize (Hm h) as Hmh.
  destruct (m h) as [[a | e |] t] eqn:E; cbn [fst] in Hmh;
    [| |contradiction].
  - rewrite (retry_loop_returned _ _ _ _ _ E). discriminate.
  - destruct (Nat.lt_ge_cases count 3) as [Hlt | Hge].
    + rewrite (retry_loop_again _ _ _ _ _ E Hlt).
      specialize (IH (S count) (h ++ t ++ [Sleep 500])%list
                    ltac:(lia) ltac:(lia) Hm).
      now destruct (retry_loop m attempts (S count) _).
    + rewrite (retry_loop_exhausted _ _ _ _ _ E Hge). discriminate.
Qed.

(** When every attempt is one request followed by the calls of a wait,
    the loop makes between one and [attempts] attempts. *)
Lemma retry_loop_attempts req :
  (forall h, exists o w,
      m h = (o, req :: w) /\
      Forall (fun c => In (call_kind c) wait_kinds) w) ->
  forall attempts count h,
    0 < attempts ->
    exists o k t,
      retry_loop m attempts count h = (o, t)
      /\ 1 <= k <= attempts /\ attempts_trace req k t.
Proof.
  intros Hm. induction attempts as [|attempts IH]; intros count h Hpos;
    [lia|].
  destruct (Hm h) as (o & w & E & Hw).
  destruct o as [a | e |].
  - rewrite (retry_loop_returned _ _ _ _ _ E).
    exists (Returned a), 1, (req :: w). repeat split; try lia.
    now constructor.
  - destruct (Nat.lt_ge_cases count 3) as [Hlt | Hge].
    + rewrite (retry_loop_again _ _ _ _ _ E Hlt).
      destruct attempts as [|attempts].
      * exists OutOfFuel, 1, ((req :: w) ++ [Sleep 500])%list.
        split; [reflexivity|]. split; [lia|].
        apply attempts_one. apply Forall_app. split; [assumption|].
        repeat constructor.
      * destruct (IH (S count) (h ++ (req :: w) ++ [Sleep 500])%list
                    ltac:(lia)) as (o' & k & t' & -> & Hk & Ht').
        exists o', (S k), (req :: w ++ Sleep 500 :: t')%list.
        split; [reflexivity|]. split; [lia|]. now constructor.
    + rewrite (retry_loop_exhausted _ _ _ _ _ E Hge).
      exists (Thrown e), 1, (req :: w). repeat split; try lia.
      now constructor.
  - rewrite (retry_loop_out_of_fuel _ _ _ _ E).
    exists OutOfFuel, 1, (req :: w). repeat split; try lia.
    now constructor.
Qed.

End Retry.

Section RetryHelpers.

Variable host : Host.


Lemma retryUpdateFunctionCode_loop_eq fuel param : forall attempts count h,
  retryUpdateFunctionCode_loop host attempts fuel param count h
  = retry_loop (updateFunctionCode host fuel param) attempts count h.
Proof.
  induction attempts as [|attempts IH]; intros count h; [reflexivity|].
  cbn [retryUpdateFunctionCode_loop retry_loop]. unfold try_catch.
  destruct (updateFunctionCode host fuel param h)
    as [[a | e |] t]; try reflexivity.
  destruct (count <? 3)%nat; [|reflexivity].
  unfold bind. destruct (sleep 500 (h ++ t)%list) as [[[] | e' |] t'];
    try reflexivity.
  now rewrite IH.
Qed.


Lemma retryUpdateFunctionCode_eq fuel param h :
  retryUpdateFunctionCode host fuel param 0 h
  = retry_loop (updateFunctionCode host fuel param) 4 0 h.
Proof. apply retryUpdateFunctionCode_loop_eq. Qed.




(** So does the recursion of [retryUpdateFunctionCode], as soon as the
    wait for activation inside each attempt ends. *)
Lemma retryUpdateFunctionCode_total fuel param count h :
  (forall h', fst (updateFunctionCode host fuel param h') <> OutOfFuel) ->
  fst (retryUpdateFunctionCode host fuel param count h) <> OutOfFuel.
Proof.
  intros H. unfold retryUpdateFunctionCode.
  rewrite retryUpdateFunctionCode_loop_eq.
  apply retry_loop_total; [lia | lia | exact H].
Qed.

End RetryHelpers.

(** ** updateFunctionCode *)

Section UpdateCode.

Variable host : Host.

(** With the code supplied, an attempt is the code-update request, carrying
    that code, followed at most by a wait for activation: nothing is
    packaged. *)
Lemma updateFunctionCode_supplied fuel param h base64 :
  params_ok (uc_func param) None = true ->
  uc_base64Code param = Some base64 ->
  truthy_s (Some base64) = true ->
  exists o w,
    updateFunctionCode host fuel param h
    = (o, Request scf "UpdateFunctionCode"
            (Some (updateFunctionCode_params host (uc_func param) base64
                     (uc_codeSecret param))) :: w)
    /\ Forall (fun c => In (call_kind c) wait_kinds) w.
Proof.
  intros Hok Hcode Htruthy. unfold updateFunctionCode.
  unfold bind at 1. rewrite (validCreateParams_ok _ _ _ Hok).
  unfold bind at 1. rewrite Hcode.
  rewrite (package_code_supplied host _ _ _ _ Htruthy).
  rewrite (or_s_Some _ _ Htruthy). cbn [app].
  unfold try_catch. unfold bind at 1.
  unfold request at 1. case_request.
  - mrun. eexists _, _. split; [reflexivity|]. constructor.
  - match goal with
    | |- context [bind ?m ?f ?hh] =>
        assert (Hw : Forall (fun c => In (call_kind c) wait_kinds)
                       (snd (bind m f hh)))
          by (apply emits_bind;
              [apply emits_if;
               [apply emits_waitFunctionActive | apply emits_ret]
              | intros; apply emits_ret]);
        destruct (bind m f hh) as [[a | e' |] w]
    end; cbn [snd] in Hw; mrun; cbn [app]; rewrite ?app_nil_r;
      (eexists _, _; split; [reflexivity | assumption]).
Qed.

End UpdateCode.

(** ** createFunction *)

Section Create.

Variable host : Host.

Lemma createFunction_create_failed fuel fp h base64 tp e :
  create_answered host fp h base64 tp (inl e) ->
  createFunction host fuel fp h
  = (let (o, t) := on_create_failure host fuel fp base64 e
                     (h ++ tp ++ [create_call host fp base64]) in
     (o, tp ++ create_call host fp base64 :: t))%list.
Proof.
  intros (Hok & Hpack & Hreply).
  unfold createFunction, create_call.
  unfold bind at 1. rewrite (validCreateParams_ok _ _ _ Hok).
  unfold bind at 1. rewrite app_nil_r, Hpack.
  unfold try_catch. unfold bind at 1. unfold request at 1.
  rewrite Hreply. cbn [app]. mnorm.
  unfold on_create_failure, reconcile, reconcile_param.
  destruct (is_conflict e && force_of fp).
  - match goal with
    | |- _ = (let (o, t) := ?m ?hh in _) => destruct (m hh) as [o t]
    end.
    reflexivity.
  - destruct (negb (message e =? "") && negb (force_of fp)); reflexivity.
Qed.

End Create.

Lemma package_code_no_request host root func base64Code h o tp a :
  package_code host root func base64Code h = (o, tp) ->
  count_action a tp = 0.
Proof.
  intros H. apply count_action_none with (ks := [KBuild]).
  - pose proof (emits_package_code host root func base64Code h) as E.
    now rewrite H in E.
  - intros [E | []]. discriminate.
Qed.

(** C3, as amended. When the create request fails with a ResourceConflict
    and [force] is false, [createFunction] throws at once: the trace ends
    with the create request, so the trigger, configuration and code
    endpoints are never called, and the error thrown carries the code and
    the request id of the platform's error.  It is the deployment failure
    annotated with the function name when the platform's error has a
    message; the platform's error itself when its message is empty. *)
Theorem C3_conflict_without_force host fuel fp h base64 tp e :
  create_answered host fp h base64 tp (inl e) ->
  code e = Some "ResourceInUse.FunctionName" ->
  force_of fp = false ->
  exists thrown,
    createFunction host fuel fp h
    = (Thrown thrown, tp ++ [create_call host fp base64])%list
    /\ code thrown = code e
    /\ requestId thrown = requestId e
    /\ (message e <> "" ->
        thrown = deploy_error (name (cf_func fp)) e
        /\ annotated (name (cf_func fp)) thrown)
    /\ (message e = "" -> thrown = e)
    /\ count_action "BatchCreateTrigger"
         (tp ++ [create_call host fp base64]) = 0
    /\ count_action "UpdateFunctionConfiguration"
         (tp ++ [create_call host fp base64]) = 0
    /\ count_action "UpdateFunctionCode"
         (tp ++ [create_call host fp base64]) = 0.
Proof.
  intros Hcreate Hcode Hforce.
  rewrite (createFunction_create_failed host fuel fp h base64 tp e Hcreate).
  destruct Hcreate as (Hok & Hpack & Hreply).
  unfold on_create_failure. rewrite Hforce, andb_false_r. cbn [negb].
  rewrite andb_true_r.
  assert (Hcount : forall a, a <> "CreateFunction" ->
                     count_action a (tp ++ [create_call host fp base64]) = 0).
  { intros a Ha. rewrite count_action_app.
    rewrite (package_code_no_request _ _ _ _ _ _ _ a Hpack).
    unfold count_action, create_call. cbn [actions filter].
    destruct (String.eqb_spec "CreateFunction" a); [congruence | reflexivity]. }
  destruct (String.eqb_spec (message e) "") as [Hm | Hm]; cbn [negb].
  - exists e. repeat split; try (apply Hcount; discriminate).
    + contradiction.
    + contradiction.
  - exists (deploy_error (name (cf_func fp)) e).
    repeat split; try (apply Hcount; discriminate).
    + now exists (message e).
    + contradiction.
Qed.

(** The name [f] is taken and [force] is false. *)
Lemma C3_conflict_without_force_witness :
  exists thrown,
    createFunction refusing_host 0 (deploy (plain_function "f") false) []
    = (Thrown thrown,
       [create_call refusing_host (deploy (plain_function "f") false)
          "UEsDBAoAAAAAAA=="])
    /\ code thrown = Some "ResourceInUse.FunctionName"
    /\ requestId thrown = Some "req-1"
    /\ ("f already exists" <> "" ->
        thrown = deploy_error "f" (conflict_error "f already exists")
        /\ annotated "f" thrown)
    /\ ("f already exists" = "" -> thrown = conflict_error "f already exists")
    /\ count_action "BatchCreateTrigger"
         [create_call refusing_host (deploy (plain_function "f") false)
            "UEsDBAoAAAAAAA=="] = 0
    /\ count_action "UpdateFunctionConfiguration"
         [create_call refusing_host (deploy (plain_function "f") false)
            "UEsDBAoAAAAAAA=="] = 0
    /\ count_action "UpdateFunctionCode"
         [create_call refusing_host (deploy (plain_function "f") false)
            "UEsDBAoAAAAAAA=="] = 0.
Proof.
  apply (C3_conflict_without_force refusing_host 0
           (deploy (plain_function "f") false) [] "UEsDBAoAAAAAAA==" []
           (conflict_error "f already exists")).
  - repeat split.
  - reflexivity.
  - reflexivity.
Defined.

(** C3 as stated fails: a ResourceConflict whose message is empty is
    rethrown as it is, without the function name. *)
Lemma C3_annotated_counterexample :
  ~ (exists thrown,
       fst (createFunction (scripted [inl (conflict_error "")] (inr ""))
              0 (deploy (plain_function "f") false) [])
       = Thrown thrown
       /\ annotated "f" thrown).
Proof.
  intros (thrown & Hrun & detail & Hmsg).
  vm_compute in Hrun. inversion Hrun; subst thrown.
  cbn in Hmsg. discriminate Hmsg.
Qed.

(** ** The traces of the Reconcile sequence *)

Lemma actions_app t1 t2 : actions (t1 ++ t2) = (actions t1 ++ actions t2)%list.
Proof.
  induction t1 as [|c t1 IH]; [reflexivity|].
  destruct c; cbn [app actions]; now rewrite IH.
Qed.

Lemma main_actions_app t1 t2 :
  main_actions (t1 ++ t2) = (main_actions t1 ++ main_actions t2)%list.
Proof. unfold main_actions. now rewrite actions_app, filter_app. Qed.

Lemma main_actions_wait w :
  Forall (fun c => In (call_kind c) wait_kinds) w -> main_actions w = [].
Proof.
  unfold main_actions.
  induction 1 as [|c w Hc _ IH]; [reflexivity|].
  destruct c; cbn [actions filter]; try exact IH.
  cbn in Hc.
  destruct Hc as [Hc | [Hc | [Hc | [Hc | []]]]]; inversion Hc; subst;
    exact IH.
Qed.

Lemma attempts_trace_main service action data k t :
  includes reconcile_actions action = true ->
  attempts_trace (Request service action data) k t ->
  main_actions t = repeat action k.
Proof.
  intros Hin. induction 1 as [w Hw | w k t Hw _ IH].
  - change (Request service action data :: w)
      with ([Request service action data] ++ w)%list.
    rewrite main_actions_app, (main_actions_wait _ Hw).
    unfold main_actions. cbn [actions filter]. now rewrite Hin.
  - change (Request service action data :: w ++ Sleep 500 :: t)%list
      with ([Request service action data] ++ w ++ [Sleep 500] ++ t)%list.
    rewrite !main_actions_app, (main_actions_wait _ Hw), IH.
    unfold main_actions. cbn [actions filter]. now rewrite Hin.
Qed.

Lemma wait_no_build w :
  Forall (fun c => In (call_kind c) wait_kinds) w ->
  Forall (fun c => is_build c = false) w.
Proof.
  intros H. apply (no_build wait_kinds); [exact H|].
  cbn. intros [E | [E | [E | [E | []]]]]; discriminate.
Qed.

Lemma attempts_trace_no_build service action data k t :
  attempts_trace (Request service action data) k t ->
  Forall (fun c => is_build c = false) t.
Proof.
  induction 1 as [w Hw | w k t Hw _ IH].
  - constructor; [reflexivity | now apply wait_no_build].
  - constructor; [reflexivity|]. apply Forall_app. split.
    + now apply wait_no_build.
    + now constructor.
Qed.

(** In the trace of the attempts, every request to the action of the
    attempted request is that request. *)
Lemma attempts_trace_same service action data k t :
  ~ In (KAction action) wait_kinds ->
  attempts_trace (Request service action data) k t ->
  forall service' data',
    In (Request service' action data') t ->
    Request service' action data' = Request service action data.
Proof.
  intros Hnot. induction 1 as [w Hw | w k t Hw _ IH];
    intros service' data' Hin.
  - destruct Hin as [<- | Hin]; [reflexivity|].
    rewrite Forall_forall in Hw. now elim Hnot; apply (Hw _ Hin).
  - destruct Hin as [<- | Hin]; [reflexivity|].
    apply in_app_or in Hin as [Hin | [Hin | Hin]].
    + rewrite Forall_forall in Hw. now elim Hnot; apply (Hw _ Hin).
    + discriminate.
    + now apply IH.
Qed.

Section Reconcile.

Variable host : Host.

Lemma createFunctionTriggers_cases funcName ts h :
  (no_triggers ts = true /\
   createFunctionTriggers host funcName ts h = (Returned JNull, []))
  \/ (no_triggers ts = false /\
      exists e, createFunctionTriggers host funcName ts h = (Thrown e, []))
  \/ (no_triggers ts = false /\
      exists o data,
        createFunctionTriggers host funcName ts h
        = (o, [Request scf "BatchCreateTrigger" data])
        /\ o <> OutOfFuel).
Proof.
  unfold createFunctionTriggers.
  destruct ts as [[|item ts]|]; try (left; split; reflexivity).
  right. destruct (parseTriggers (item :: ts)) as [e | parsed].
  - left. split; [reflexivity|]. now exists e.
  - right. split; [reflexivity|]. mrun.
    case_request; eexists _, _; (split; [reflexivity | discriminate]).
Qed.

(** The attempts of the code update of the Reconcile sequence. *)
Lemma reconcile_code_attempts fuel fp base64 h :
  let func := cf_func fp in
  let param := {| uc_func := func;
                  uc_functionRootPath := Some (cf_functionRootPath fp);
                  uc_base64Code := Some base64;
                  uc_codeSecret := cf_codeSecret fp |} in
  params_ok func None = true ->
  truthy_s (Some base64) = true ->
  exists o k t,
    retryUpdateFunctionCode host fuel param 0 h = (o, t)
    /\ 1 <= k <= 4
    /\ attempts_trace
         (Request scf "UpdateFunctionCode"
            (Some (updateFunctionCode_params host func base64
                     (cf_codeSecret fp)))) k t.
Proof.
  intros func param Hok Htruthy.
  rewrite retryUpdateFunctionCode_eq.
  apply retry_loop_attempts; [|lia].
  intros h'.
  apply (updateFunctionCode_supplied host fuel param h' base64 Hok eq_refl
           Htruthy).
Qed.

Section Steps.

Variables (fuel : nat) (fp : ICreateFunctionParam) (base64 : string).

Let func := cf_func fp.

Let update :=
  Request scf "UpdateFunctionCode"
    (Some (updateFunctionCode_params host func base64 (cf_codeSecret fp))).

Let param :=
  {| uc_func := func;
     uc_functionRootPath := Some (cf_functionRootPath fp);
     uc_base64Code := Some base64;
     uc_codeSecret := cf_codeSecret fp |}.

Hypothesis Hok : params_ok func None = true.
Hypothesis Htruthy : truthy_s (Some base64) = true.

(** The last step: the code update and the return of the composite. *)
Lemma reconcile_code_step triggerRes configRes h o t :
  (codeRes <- retryUpdateFunctionCode host fuel param 0 ;;
   ret (Composite triggerRes configRes codeRes)) h = (o, t) ->
  Forall (fun c => is_build c = false) t
  /\ (forall service data,
        In (Request service "UpdateFunctionCode" data) t ->
        Request service "UpdateFunctionCode" data = update)
  /\ (forall res, o = Returned res ->
        exists codeRes k,
          res = Composite triggerRes configRes codeRes
          /\ 1 <= k <= 4
          /\ main_actions t = repeat "UpdateFunctionCode" k).
Proof.
  unfold bind.
  destruct (reconcile_code_attempts fuel fp base64 h Hok Htruthy)
    as (o3 & k & t3 & E3 & Hk & Ht3).
  fold func param in E3. rewrite E3.
  pose proof (attempts_trace_no_build _ _ _ _ _ Ht3) as Hnb.
  pose proof (attempts_trace_main scf "UpdateFunctionCode" _ _ _ eq_refl Ht3)
    as Hmain.
  assert (Hsame : forall service data,
             In (Request service "UpdateFunctionCode" data) t3 ->
             Request service "UpdateFunctionCode" data = update).
  { apply (attempts_trace_same _ _ _ _ _) with (2 := Ht3).
    cbn. intros [E | [E | [E | [E | []]]]]; discriminate. }
  destruct o3 as [codeRes | e3 |]; cbn [ret]; rewrite ?app_nil_r;
    intros H; inversion H; subst; clear H;
    (split; [exact Hnb|]); (split; [exact Hsame|]);
    intros res Hres; inversion Hres; subst.
  exists codeRes, k. now repeat split.
Qed.

(** The configuration update, then the last step. *)
Lemma reconcile_config_step triggerRes h o t :
  (configRes <- updateFunctionConfig host func ;;
   codeRes <- retryUpdateFunctionCode host fuel param 0 ;;
   ret (Composite triggerRes configRes codeRes)) h = (o, t) ->
  Forall (fun c => is_build c = false) t
  /\ (forall service data,
        In (Request service "UpdateFunctionCode" data) t ->
        Request service "UpdateFunctionCode" data = update)
  /\ (forall res, o = Returned res ->
        exists configRes codeRes k,
          res = Composite triggerRes configRes codeRes
          /\ 1 <= k <= 4
          /\ main_actions t
             = "UpdateFunctionConfiguration" :: repeat "UpdateFunctionCode" k).
Proof.
  unfold bind at 1. unfold updateFunctionConfig, request. case_request.
  - intros H; inversion H; subst. split; [repeat constructor|]. split.
    + intros service data [E | []]. discriminate E.
    + discriminate.
  - destruct (bind _ _ _) as [o' t'] eqn:E. intros H; inversion H; subst.
    destruct (reconcile_code_step _ _ _ _ _ E) as (Hnb & Hsame & Hres).
    split; [constructor; [reflexivity | exact Hnb]|]. split.
    + intros service data [E' | Hin]; [discriminate E' | now apply Hsame].
    + intros r Hret. destruct (Hres r Hret) as (codeRes & k & -> & Hk & Hmain).
      exists res, codeRes, k. repeat split; try lia.
      change (main_actions
                ([Request scf "UpdateFunctionConfiguration"
                    (Some (updateFunctionConfig_params host func))] ++ t')
              = "UpdateFunctionConfiguration"
                  :: repeat "UpdateFunctionCode" k).
      rewrite main_actions_app, Hmain. reflexivity.
Qed.

Lemma reconcile_run h o t :
  reconcile host fuel fp base64 h = (o, t) ->
  Forall (fun c => is_build c = false) t
  /\ (forall service data,
        In (Request service "UpdateFunctionCode" data) t ->
        Request service "UpdateFunctionCode" data = update)
  /\ (forall res, o = Returned res ->
        exists triggerRes configRes codeRes k,
          res = Composite triggerRes configRes codeRes
          /\ 1 <= k <= 4
          /\ main_actions t
             = ((if no_triggers (triggers func) then []
                 else ["BatchCreateTrigger"])
                ++ "UpdateFunctionConfiguration"
                   :: repeat "UpdateFunctionCode" k)%list).
Proof.
  unfold reconcile, reconcile_param. fold func param. unfold bind at 1.
  destruct (createFunctionTriggers_cases (name func) (triggers func) h)
    as [[Hno ->] | [[Hno [e ->]] | [Hno (o1 & d1 & -> & Ho1)]]];
    rewrite Hno.
  - destruct (bind _ _ _) as [o' t'] eqn:E. intros H; inversion H; subst.
    destruct (reconcile_config_step _ _ _ _ E) as (Hnb & Hsame & Hres).
    repeat split; try assumption.
    intros r Hret.
    destruct (Hres r Hret) as (configRes & codeRes & k & -> & Hk & Hmain).
    exists JNull, configRes, codeRes, k. now repeat split.
  - intros H; inversion H; subst. repeat split; try constructor.
    + intros ? ? [].
    + discriminate.
  - destruct o1 as [triggerRes | e1 |]; [| | contradiction].
    + destruct (bind _ _ _) as [o' t'] eqn:E. intros H; inversion H; subst.
      destruct (reconcile_config_step _ _ _ _ E) as (Hnb & Hsame & Hres).
      split; [constructor; [reflexivity | exact Hnb]|]. split.
      * intros service data [E' | Hin]; [discriminate E' | now apply Hsame].
      * intros r Hret.
        destruct (Hres r Hret) as (configRes & codeRes & k & -> & Hk & Hmain).
        exists triggerRes, configRes, codeRes, k. repeat split; try lia.
        change (main_actions ([Request scf "BatchCreateTrigger" d1] ++ t')
                = "BatchCreateTrigger" :: "UpdateFunctionConfiguration"
                    :: repeat "UpdateFunctionCode" k).
        rewrite main_actions_app, Hmain. reflexivity.
    + intros H; inversion H; subst. split; [repeat constructor|]. split.
      * intros service data [E' | []]. discriminate E'.
      * discriminate.
Qed.

End Steps.

End Reconcile.

Lemma updateFunctionCode_params_ZipFile host func base64 codeSecret :
  obj_get (updateFunctionCode_params host func base64 codeSecret) "ZipFile"
  = JStr base64.
Proof.
  unfold updateFunctionCode_params, obj_set_if.
  destruct (truthy_s codeSecret); [|reflexivity].
  now rewrite obj_get_set_other by discriminate.
Qed.

(** Deploying [timed_function] over a function of the same name, with
    [force]: the four requests and the composite. *)
Example reconcile_taken_host :
  createFunction taken_host 0 (deploy timed_function true) []
  = (Returned (Composite (JObj [("RequestId", JStr "req-2")])
                 [("RequestId", JStr "req-3")]
                 [("RequestId", JStr "req-4")]),
     [create_call taken_host (deploy timed_function true) "UEsDBAoAAAAAAA==";
      batch_call; config_call taken_host; code_call taken_host]).
Proof. reflexivity. Qed.

(** ** The create request is made once *)

Section OneCreate.

Variable host : Host.

Ltac incl_tac := intros k Hk; cbn in *; tauto.

Lemma emits_updateFunctionCode fuel param :
  emits after_create_kinds (updateFunctionCode host fuel param).
Proof.
  unfold updateFunctionCode.
  apply emits_bind; [apply emits_validCreateParams | intros _].
  apply emits_bind; [|intros base64].
  { eapply emits_incl; [|apply emits_package_code]. incl_tac. }
  apply emits_try_catch; [|intros e; apply emits_throw].
  apply emits_bind; [apply emits_request; cbn; tauto | intros res].
  apply emits_bind; [|intros _; apply emits_ret].
  apply emits_if; [|apply emits_ret].
  eapply emits_incl; [|apply emits_waitFunctionActive]. incl_tac.
Qed.

Lemma emits_retry_loop {A} ks (m : M A) :
  emits ks m -> In KSleep ks ->
  forall attempts count, emits ks (retry_loop m attempts count).
Proof.
  intros Hm Hs. induction attempts as [|attempts IH]; intros count;
    cbn [retry_loop]; [apply emits_out_of_fuel|].
  apply emits_try_catch; [exact Hm | intros e].
  apply emits_if; [|apply emits_throw].
  apply emits_bind; [now apply emits_sleep | intros _; apply IH].
Qed.

Lemma emits_retryUpdateFunctionCode fuel param count :
  emits after_create_kinds (retryUpdateFunctionCode host fuel param count).
Proof.
  intros h. unfold retryUpdateFunctionCode.
  rewrite retryUpdateFunctionCode_loop_eq.
  apply emits_retry_loop; [apply emits_updateFunctionCode | cbn; tauto].
Qed.

Lemma emits_retryCreateTrigger funcName ts count :
  emits after_create_kinds (retryCreateTrigger host funcName ts count).
Proof.
  eapply emits_incl; [|apply emits_retryCreateTrigger_loop]. incl_tac.
Qed.

Lemma emits_reconcile fuel fp base64 :
  emits after_create_kinds (reconcile host fuel fp base64).
Proof.
  unfold reconcile.
  apply emits_bind; [|intros triggerRes].
  { eapply emits_incl; [|apply emits_createFunctionTriggers]. incl_tac. }
  apply emits_bind; [|intros configRes].
  { eapply emits_incl; [|apply emits_updateFunctionConfig]. incl_tac. }
  apply emits_bind; [|intros codeRes; apply emits_ret].
  apply emits_retryUpdateFunctionCode.
Qed.

Lemma emits_on_create_failure fuel fp base64 e :
  emits after_create_kinds (on_create_failure host fuel fp base64 e).
Proof.
  unfold on_create_failure.
  apply emits_if; [apply emits_reconcile|].
  apply emits_if; apply emits_throw.
Qed.



End OneCreate.

Section CreatePaths.

Variable host : Host.

Lemma createFunction_created fuel fp h base64 tp res :
  create_answered host fp h base64 tp (inr res) ->
  createFunction host fuel fp h
  = (let (o, t) := after_created host fuel fp base64 res
                     (h ++ tp ++ [create_call host fp base64]) in
     match o with
     | Thrown e =>
         let (o', t') := on_create_failure host fuel fp base64 e
                           (h ++ tp ++ [create_call host fp base64] ++ t) in
         (o', tp ++ create_call host fp base64 :: t ++ t')
     | _ => (o, tp ++ create_call host fp base64 :: t)
     end)%list.
Proof.
  intros (Hok & Hpack & Hreply).
  unfold createFunction, create_call.
  unfold bind at 1. rewrite (validCreateParams_ok _ _ _ Hok).
  unfold bind at 1. rewrite app_nil_r, Hpack.
  unfold try_catch. unfold bind at 1. unfold request at 1.
  rewrite Hreply. cbn [app]. mnorm.
  unfold after_created.
  destruct (bind _ _ (h ++ tp ++ [_])%list) as [[r | e |] t];
    try reflexivity.
  mnorm.
  unfold on_create_failure, reconcile, reconcile_param.
  destruct (if is_conflict e && force_of fp then _ else _) as [o' t'].
  reflexivity.
Qed.

(** The Reconcile sequence, step by step. *)
Lemma reconcile_triggers_failed fuel fp base64 h e t1 :
  createFunctionTriggers host (name (cf_func fp)) (triggers (cf_func fp)) h
  = (Thrown e, t1) ->
  reconcile host fuel fp base64 h = (Thrown e, t1).
Proof. intros H. unfold reconcile. now apply bind_Thrown. Qed.

Lemma reconcile_config_failed fuel fp base64 h triggerRes t1 e t2 :
  createFunctionTriggers host (name (cf_func fp)) (triggers (cf_func fp)) h
  = (Returned triggerRes, t1) ->
  updateFunctionConfig host (cf_func fp) (h ++ t1)%list = (Thrown e, t2) ->
  reconcile host fuel fp base64 h = (Thrown e, (t1 ++ t2)%list).
Proof.
  intros H1 H2. unfold reconcile.
  rewrite (bind_Returned _ _ _ _ _ H1).
  now rewrite (bind_Thrown _ _ _ _ _ H2).
Qed.


End CreatePaths.

(** ** The retry policy *)

Section RetryPolicy.

Variable host : Host.










End RetryPolicy.

Section CreateRetry.

Variable host : Host.



End CreateRetry.



(** ** The wait for readiness *)

Lemma obj_get_set_if_other c k k' v o :
  k <> k' -> obj_get (obj_set_if c k v o) k' = obj_get o k'.
Proof.
  intros H. unfold obj_set_if. destruct c; [|reflexivity].
  now apply obj_get_set_other.
Qed.

Lemma createFunction_params_InstallDependency host func base64 codeSecret :
  obj_get (createFunction_params host func base64 codeSecret)
    "InstallDependency" = JStr (installDependency_of func).
Proof.
  unfold createFunction_params.
  rewrite obj_get_set_if_other by discriminate.
  match goal with
  | |- context [if ?c then _ else _] => destruct c
  end;
    rewrite obj_get_set_other by discriminate;
    rewrite obj_get_set_if_other by discriminate;
    apply obj_get_set_same.
Qed.

Lemma installDependency_of_truthy func :
  truthy (JStr (installDependency_of func)) = true.
Proof.
  unfold installDependency_of.
  destruct (installDependency func) as [[|]|]; try reflexivity.
  now destruct (or_s (runtime func) "" =? "Nodejs8.9").
Qed.

(** C5, on the code: the condition under which [createFunction] and
    [updateFunctionCode] wait for readiness is [isWaitInstall === true]
    alone, because the flag it tests is the string 'TRUE' or 'FALSE', and
    both are truthy.  So a function deployed with [installDependency:
    false] and [isWaitInstall: true] is polled all the same, after the
    create and after the code update. *)
Theorem C5_waits_without_install :
  (forall host func base64 codeSecret,
     truthy (obj_get (createFunction_params host func base64 codeSecret)
               "InstallDependency")
     && isWaitInstall_true func = isWaitInstall_true func)
  /\ (forall func,
        truthy (JStr (installDependency_of func)) && isWaitInstall_true func
        = isWaitInstall_true func)
  /\ installDependency_of waiting_function = "FALSE"
  /\ createFunction waiting_host 1 (deploy waiting_function false) []
     = (Returned (Single [("RequestId", JStr "req-1")]),
        [create_call waiting_host (deploy waiting_function false)
           "UEsDBAoAAAAAAA==";
         get_call "f"; Sleep 1000])
  /\ updateFunctionCode waiting_host 1 (update_of waiting_function None) []
     = (Returned [("RequestId", JStr "req-1")],
        [Request scf "UpdateFunctionCode"
           (Some (updateFunctionCode_params waiting_host waiting_function
                    "UEsDBAoAAAAAAA==" None));
         get_call "f"; Sleep 1000]).
Proof.
  split; [|split; [|repeat split]].
  - intros host func base64 codeSecret.
    now rewrite createFunction_params_InstallDependency,
      installDependency_of_truthy.
  - intros func. now rewrite installDependency_of_truthy.
Qed.

(** ** Validation comes first *)

Section Rejects.

Variable host : Host.

Lemma createFunction_rejects fuel fp h :
  params_ok (cf_func fp) (cf_codeSecret fp) = false ->
  exists e, createFunction host fuel fp h = (Thrown e, []).
Proof.
  intros H. unfold createFunction.
  destruct (validCreateParams_rejects (cf_func fp) (cf_codeSecret fp) h H)
    as [e He].
  exists e. now rewrite (bind_Thrown _ _ _ _ _ He).
Qed.

Lemma updateFunctionCode_rejects fuel param h :
  params_ok (uc_func param) None = false ->
  exists e, updateFunctionCode host fuel param h = (Thrown e, []).
Proof.
  intros H. unfold updateFunctionCode.
  destruct (validCreateParams_rejects (uc_func param) None h H) as [e He].
  exists e. now rewrite (bind_Thrown _ _ _ _ _ He).
Qed.

Lemma updateFunctionIncrementalCode_rejects param h :
  params_ok (ui_func param) None = false ->
  exists e, updateFunctionIncrementalCode host param h = (Thrown e, []).
Proof.
  intros H. unfold updateFunctionIncrementalCode.
  destruct (validCreateParams_rejects (ui_func param) None h H) as [e He].
  exists e. now rewrite (bind_Thrown _ _ _ _ _ He).
Qed.

Lemma includes_false xs x : ~ In x xs -> includes xs x = false.
Proof.
  unfold includes. induction xs as [|y xs IH]; [reflexivity|].
  intros H. cbn [existsb].
  destruct (String.eqb_spec y x) as [-> | Hne].
  - elim H. now left.
  - apply IH. intros Hin. apply H. now right.
Qed.

Lemma params_ok_bad_runtime func codeSecret r :
  runtime func = Some r -> r <> "" -> ~ In r validRuntime ->
  params_ok func codeSecret = false.
Proof.
  intros Hr Hne Hnot. unfold params_ok. rewrite Hr.
  unfold truthy_s, or_s.
  destruct (String.eqb_spec r "") as [-> | _]; [contradiction|].
  rewrite (includes_false _ _ Hnot). apply andb_false_r.
Qed.

Lemma params_ok_bad_secret func s :
  s <> "" -> codeSecret_test s = false ->
  params_ok func (Some s) = false.
Proof.
  intros Hne Htest. unfold params_ok, truthy_s, or_s.
  destruct (String.eqb_spec s "") as [-> | _]; [contradiction|].
  now rewrite Htest.
Qed.

End Rejects.

(** C6, on the code.  [createFunction] checks the runtime and the secret
    before any call, and [updateFunctionCode] and
    [updateFunctionIncrementalCode] check the runtime before any call: a
    rejected call has an empty trace.  But [updateFunctionCode] hands no
    secret to the check: with the malformed secret "not a secret!", which
    [createFunction] rejects, it sends the code-update request, the
    secret in it. *)
Theorem C6_updateFunctionCode_skips_secret_check :
  (forall host fuel fp h r,
     runtime (cf_func fp) = Some r -> r <> "" ->
     ~ In r ["Nodejs8.9"; "Php7"; "Java8"] ->
     exists e, createFunction host fuel fp h = (Thrown e, []))
  /\ (forall host fuel fp h s,
        cf_codeSecret fp = Some s -> s <> "" -> codeSecret_test s = false ->
        exists e, createFunction host fuel fp h = (Thrown e, []))
  /\ (forall host fuel param h r,
        runtime (uc_func param) = Some r -> r <> "" ->
        ~ In r ["Nodejs8.9"; "Php7"; "Java8"] ->
        exists e, updateFunctionCode host fuel param h = (Thrown e, []))
  /\ (forall host param h r,
        runtime (ui_func param) = Some r -> r <> "" ->
        ~ In r ["Nodejs8.9"; "Php7"; "Java8"] ->
        exists e, updateFunctionIncrementalCode host param h = (Thrown e, []))
  /\ codeSecret_test "not a secret!" = false
  /\ createFunction (scripted [] (inr "")) 0
       {| cf_func := plain_function "f";
          cf_functionRootPath := "./functions";
          cf_force := Some false;
          cf_base64Code := Some "UEsDBAoAAAAAAA==";
          cf_codeSecret := Some "not a secret!" |} []
     = (Thrown codeSecret_error, [])
  /\ updateFunctionCode (scripted [reply_id "req-1"] (inr "")) 0
       (update_of (plain_function "f") (Some "not a secret!")) []
     = (Returned [("RequestId", JStr "req-1")],
        [Request scf "UpdateFunctionCode"
           (Some [("FunctionName", JStr "f"); ("Namespace", JStr "env-1");
                  ("ZipFile", JStr "UEsDBAoAAAAAAA==");
                  ("Handler", JStr "index.main");
                  ("InstallDependency", JStr "FALSE");
                  ("CodeSecret", JStr "not a secret!")])]).
Proof.
  split.
  { intros host fuel fp h r Hr Hne Hnot. apply createFunction_rejects.
    now apply params_ok_bad_runtime with r. }
  split.
  { intros host fuel fp h s Hs Hne Htest. apply createFunction_rejects.
    rewrite Hs. now apply params_ok_bad_secret. }
  split.
  { intros host fuel param h r Hr Hne Hnot. apply updateFunctionCode_rejects.
    now apply params_ok_bad_runtime with r. }
  split.
  { intros host param h r Hr Hne Hnot.
    apply updateFunctionIncrementalCode_rejects.
    now apply params_ok_bad_runtime with r. }
  repeat split.
Qed.

(** ** Environment variables *)

Lemma obj_has_set_if_other c k k' v o :
  k <> k' -> obj_has (obj_set_if c k v o) k' = obj_has o k'.
Proof.
  intros H. unfold obj_set_if. destruct c; [|reflexivity].
  rewrite obj_has_set.
  destruct (String.eqb_spec k k'); [contradiction | reflexivity].
Qed.

Lemma obj_has_set_other k k' v o :
  k <> k' -> obj_has (obj_set k v o) k' = obj_has o k'.
Proof.
  intros H. rewrite obj_has_set.
  destruct (String.eqb_spec k k'); [contradiction | reflexivity].
Qed.

Section Environment.

Variable host : Host.

(** The [Environment] parameter of the two requests: set when, and only
    when, there is a variable. *)
Lemma updateFunctionConfig_params_Environment func :
  (envVariables_of func <> [] ->
   obj_get (updateFunctionConfig_params host func) "Environment"
   = Environment_of func)
  /\ (envVariables_of func = [] ->
      obj_has (updateFunctionConfig_params host func) "Environment" = false).
Proof.
  unfold updateFunctionConfig_params, Environment_of.
  split; intros Hvars.
  - rewrite obj_get_set_if_other by discriminate.
    destruct (installDependency func);
      [rewrite obj_get_set_other by discriminate|];
      rewrite obj_get_set_if_other by discriminate;
      rewrite obj_get_set_other by discriminate;
      rewrite obj_get_set_if_other by discriminate;
      (destruct (timeout func);
       [rewrite obj_get_set_if_other by discriminate|]);
      (destruct (envVariables_of func); [contradiction|]);
      reflexivity.
  - rewrite obj_has_set_if_other by discriminate.
    rewrite Hvars.
    destruct (installDependency func);
      [rewrite obj_has_set_other by discriminate|];
      rewrite obj_has_set_if_other by discriminate;
      rewrite obj_has_set_other by discriminate;
      rewrite obj_has_set_if_other by discriminate;
      (destruct (timeout func);
       [rewrite obj_has_set_if_other by discriminate|]);
      reflexivity.
Qed.

Lemma createFunction_params_Environment func base64 codeSecret :
  (envVariables_of func <> [] ->
   obj_get (createFunction_params host func base64 codeSecret) "Environment"
   = Environment_of func)
  /\ (envVariables_of func = [] ->
      obj_has (createFunction_params host func base64 codeSecret)
        "Environment" = false).
Proof.
  unfold createFunction_params, Environment_of.
  split; intros Hvars.
  - rewrite obj_get_set_if_other by discriminate.
    match goal with
    | |- context [if ?c then obj_set "EipConfig" _ _ else _] => destruct c
    end;
      rewrite obj_get_set_other by discriminate;
      rewrite obj_get_set_if_other by discriminate;
      rewrite !obj_get_set_other by discriminate;
      (destruct (envVariables_of func); [contradiction|]);
      reflexivity.
  - rewrite obj_has_set_if_other by discriminate.
    rewrite Hvars.
    match goal with
    | |- context [if ?c then obj_set "EipConfig" _ _ else _] => destruct c
    end;
      rewrite obj_has_set_other by discriminate;
      rewrite obj_has_set_if_other by discriminate;
      rewrite !obj_has_set_other by discriminate;
      reflexivity.
Qed.

End Environment.

Lemma obj_get_head k v rest : obj_get ((k, v) :: rest) k = v.
Proof. cbn. now rewrite String.eqb_refl. Qed.

(** The derived set is the whole desired set, one entry per variable. *)
Lemma envVariables_of_complete func desired :
  envVariables func = Some desired ->
  NoDup (map fst desired) ->
  Permutation (envVariables_of func) (map variable_entry desired).
Proof.
  intros Henv Hnodup. unfold envVariables_of. rewrite Henv. clear Henv.
  assert (H : forall prefix suffix,
             desired = (prefix ++ suffix)%list ->
             map (fun key => JObj [("Key", JStr key);
                                   ("Value", obj_get desired key)])
               (map fst suffix)
             = map variable_entry suffix).
  { intros prefix suffix. revert prefix.
    induction suffix as [|[k v] suffix IH]; intros prefix E; [reflexivity|].
    cbn [map fst]. f_equal.
    - unfold variable_entry. cbn [fst snd]. do 4 f_equal.
      subst desired. clear IH.
      rewrite map_app in Hnodup. cbn [map fst] in Hnodup.
      apply NoDup_remove_2 in Hnodup.
      induction prefix as [|[k' v'] prefix IHp].
      + apply obj_get_head.
      + cbn [app obj_get].
        destruct (String.eqb_spec k' k) as [-> | Hne].
        * elim Hnodup. cbn. now left.
        * apply IHp. intros Hin. apply Hnodup. cbn [map app fst].
          now right.
    - apply (IH (prefix ++ [(k, v)])%list). now rewrite <- app_assoc. }
  rewrite <- (H [] desired eq_refl).
  apply Permutation_map, Object_keys_Permutation.
Qed.

(** C7, as amended.  [updateFunctionConfig] makes one request.  When
    the function has at least one environment variable, that request and
    the create request of [createFunction] carry, under [Environment], the
    whole desired set: the entries sent are the variables of the function,
    each with its value, none missing, none added and none twice (their
    order is left open).  When the desired set is empty or absent they
    carry no [Environment] at all. *)
Theorem C7_environment_sent_whole host func h :
  snd (updateFunctionConfig host func h)
  = [Request scf "UpdateFunctionConfiguration"
       (Some (updateFunctionConfig_params host func))]
  /\ (envVariables_of func <> [] ->
      obj_get (updateFunctionConfig_params host func) "Environment"
      = JObj [("Variables", JArr (envVariables_of func))]
      /\ forall base64 codeSecret,
           obj_get (createFunction_params host func base64 codeSecret)
             "Environment"
           = JObj [("Variables", JArr (envVariables_of func))])
  /\ (envVariables_of func = [] ->
      obj_has (updateFunctionConfig_params host func) "Environment" = false
      /\ forall base64 codeSecret,
           obj_has (createFunction_params host func base64 codeSecret)
             "Environment" = false)
  /\ (forall desired,
        envVariables func = Some desired ->
        NoDup (map fst desired) ->
        Permutation (envVariables_of func) (map variable_entry desired))
  /\ (envVariables func = None -> envVariables_of func = []).
Proof.
  split; [reflexivity|].
  split.
  { intros Hvars. split.
    - now apply updateFunctionConfig_params_Environment.
    - intros base64 codeSecret.
      now apply createFunction_params_Environment. }
  split.
  { intros Hvars. split.
    - now apply updateFunctionConfig_params_Environment.
    - intros base64 codeSecret.
      now apply createFunction_params_Environment. }
  split.
  - apply envVariables_of_complete.
  - intros H. unfold envVariables_of. now rewrite H.
Qed.

(** A function with two variables: both are sent. *)
Lemma C7_environment_sent_whole_witness :
  snd (updateFunctionConfig (scripted [] (inr "")) configured_function [])
  = [Request scf "UpdateFunctionConfiguration"
       (Some (updateFunctionConfig_params (scripted [] (inr ""))
                configured_function))]
  /\ obj_get (updateFunctionConfig_params (scripted [] (inr ""))
                configured_function) "Environment"
     = JObj [("Variables",
              JArr [JObj [("Key", JStr "STAGE"); ("Value", JStr "prod")];
                    JObj [("Key", JStr "RETRIES"); ("Value", JNum 3)]])]
  /\ Permutation (envVariables_of configured_function)
       (map variable_entry [("STAGE", JStr "prod"); ("RETRIES", JNum 3)]).
Proof.
  destruct (C7_environment_sent_whole (scripted [] (inr ""))
              configured_function []) as (H1 & H2 & _ & H4 & _).
  split; [exact H1|]. split.
  - apply H2. discriminate.
  - apply H4; [reflexivity|].
    repeat constructor; cbn; intuition discriminate.
Defined.

(** C7 as stated fails on the empty set: the request of
    [updateFunctionConfig] for a function whose desired set is empty does
    not carry that empty set; it has no [Environment]. *)
Lemma C7_empty_set_counterexample :
  ~ (forall data,
       In (Request scf "UpdateFunctionConfiguration" (Some data))
         (snd (updateFunctionConfig (scripted [] (inr "")) bare_function []))
       -> obj_get data "Environment"
          = JObj [("Variables", JArr (envVariables_of bare_function))]).
Proof.
  intros H.
  specialize (H (updateFunctionConfig_params (scripted [] (inr ""))
                   bare_function) (or_introl eq_refl)).
  discriminate H.
Qed.

(** ** The ignore list of the packer *)

Lemma installDependency_of_wants func :
  installDependency_of func = bool_flag (wants_install func).
Proof.
  unfold installDependency_of, wants_install, or_s.
  destruct (installDependency func) as [b|]; [reflexivity|].
  destruct (runtime func) as [r|]; [|reflexivity].
  destruct (String.eqb_spec r "") as [-> | _]; [reflexivity|].
  now destruct (r =? "Nodejs8.9").
Qed.

Lemma ignore_of_expected func :
  ignore_of func (installDependency_of func) = expected_ignore func.
Proof.
  unfold ignore_of, expected_ignore. rewrite installDependency_of_wants.
  now destruct (wants_install func).
Qed.

Lemma wants_install_iff func :
  wants_install func = true <->
  installDependency func = Some true
  \/ (installDependency func = None /\ runtime func = Some "Nodejs8.9").
Proof.
  unfold wants_install.
  destruct (installDependency func) as [[|]|].
  - split; [now left | reflexivity].
  - split; [discriminate | intros [H | [H _]]; discriminate H].
  - destruct (runtime func) as [r|].
    + destruct (String.eqb_spec r "Nodejs8.9") as [-> | Hne].
      * split; [now right | reflexivity].
      * split; [discriminate|].
        intros [H | [_ H]]; [discriminate H | congruence].
    + split; [discriminate | intros [H | [_ H]]; discriminate H].
Qed.

Section Ignore.

Variable host : Host.

Lemma package_code_local_run root func base64Code h :
  truthy_s base64Code = false ->
  exists o,
    package_code host root func base64Code h
    = (o, [Build root (name func) (expected_ignore func) None
             (codeType_of func)]).
Proof.
  intros H. unfold package_code. rewrite H. cbn [negb]. mrun.
  rewrite ignore_of_expected. case_build; [now eexists|].
  destruct (negb (truthy (JStr built))); now eexists.
Qed.

Lemma createFunction_packs fuel fp h :
  params_ok (cf_func fp) (cf_codeSecret fp) = true ->
  truthy_s (cf_base64Code fp) = false ->
  exists o t,
    createFunction host fuel fp h
    = (o, Build (Some (cf_functionRootPath fp)) (name (cf_func fp))
            (expected_ignore (cf_func fp)) None (codeType_of (cf_func fp))
          :: t).
Proof.
  intros Hok Hlocal. unfold createFunction.
  unfold bind at 1. rewrite (validCreateParams_ok _ _ _ Hok).
  unfold bind at 1. rewrite app_nil_r.
  destruct (package_code_local_run (Some (cf_functionRootPath fp))
              (cf_func fp) (cf_base64Code fp) h Hlocal) as [o ->].
  destruct o as [base64 | e |]; try (now eexists _, _).
  destruct (try_catch _ _ _) as [o' t']. now eexists _, _.
Qed.

Lemma updateFunctionCode_packs fuel param h :
  params_ok (uc_func param) None = true ->
  truthy_s (uc_base64Code param) = false ->
  exists o t,
    updateFunctionCode host fuel param h
    = (o, Build (uc_functionRootPath param) (name (uc_func param))
            (expected_ignore (uc_func param)) None
            (codeType_of (uc_func param))
          :: t).
Proof.
  intros Hok Hlocal. unfold updateFunctionCode.
  unfold bind at 1. rewrite (validCreateParams_ok _ _ _ Hok).
  unfold bind at 1. rewrite app_nil_r.
  destruct (package_code_local_run (uc_functionRootPath param)
              (uc_func param) (uc_base64Code param) h Hlocal) as [o ->].
  destruct o as [base64 | e |]; try (now eexists _, _).
  destruct (try_catch _ _ _) as [o' t']. now eexists _, _.
Qed.

End Ignore.

(** With "node_modules" in the ignore list, the packer of the
    specification leaves out every path of the node_modules tree. *)
Lemma packed_files_no_node_modules glob_match ignore files rest :
  glob_match "node_modules" "node_modules" = true ->
  In "node_modules" ignore ->
  ~ In ("node_modules" :: rest) (packed_files glob_match ignore files).
Proof.
  intros Hglob Hin. unfold packed_files. intros H.
  apply filter_In in H as [_ H]. apply negb_true_iff in H.
  assert (E : packer_excludes glob_match ignore ("node_modules" :: rest)
              = true); [|congruence].
  unfold packer_excludes. apply existsb_exists.
  exists "node_modules". split; [assumption|].
  cbn [self_and_ancestors existsb join]. now rewrite Hglob.
Qed.

(** C10. When the code is packaged from the local root and dependencies
    are to be installed in the cloud (asked for, or left unsaid for a
    Nodejs8.9 function), the first call of [createFunction] and of
    [updateFunctionCode] is the packer build with 'node_modules/**/*' and
    'node_modules' put before the caller's ignore list; otherwise the
    build gets the caller's list alone.  The caller's list is the array
    [func.ignore], or nothing when it is absent.  For the packer the
    specification describes, a list that holds 'node_modules' keeps every
    path of the node_modules tree out of the artifact. *)
Theorem C10_node_modules_ignored host fuel func :
  (forall fp h,
     cf_func fp = func ->
     params_ok func (cf_codeSecret fp) = true ->
     truthy_s (cf_base64Code fp) = false ->
     exists o t,
       createFunction host fuel fp h
       = (o, Build (Some (cf_functionRootPath fp)) (name func)
               (expected_ignore func) None (codeType_of func) :: t))
  /\ (forall param h,
        uc_func param = func ->
        params_ok func None = true ->
        truthy_s (uc_base64Code param) = false ->
        exists o t,
          updateFunctionCode host fuel param h
          = (o, Build (uc_functionRootPath param) (name func)
                  (expected_ignore func) None (codeType_of func) :: t))
  /\ (wants_install func = true ->
      expected_ignore func
      = "node_modules/**/*" :: "node_modules" :: spread_ignore func)
  /\ (wants_install func = false -> expected_ignore func = spread_ignore func)
  /\ (wants_install func = true <->
      installDependency func = Some true
      \/ (installDependency func = None /\ runtime func = Some "Nodejs8.9"))
  /\ (forall globs, ignore func = Some (inr globs) ->
                    spread_ignore func = globs)
  /\ (ignore func = None -> spread_ignore func = [])
  /\ (forall glob_match files rest,
        glob_match "node_modules" "node_modules" = true ->
        wants_install func = true ->
        ~ In ("node_modules" :: rest)
            (packed_files glob_match (expected_ignore func) files)).
Proof.
  split.
  { intros fp h <- Hok Hlocal. now apply createFunction_packs. }
  split.
  { intros param h <- Hok Hlocal. now apply updateFunctionCode_packs. }
  split; [unfold expected_ignore; now intros ->|].
  split; [unfold expected_ignore; now intros ->|].
  split; [apply wants_install_iff|].
  split; [unfold spread_ignore; now intros globs ->|].
  split; [unfold spread_ignore; now intros ->|].
  intros glob_match files rest Hglob Hwants.
  apply packed_files_no_node_modules; [assumption|].
  unfold expected_ignore. rewrite Hwants. cbn. tauto.
Qed.

(** A Nodejs8.9 function that ignores '*.log', created and updated from
    its local directory; globs that match only themselves. *)
Lemma C10_node_modules_ignored_witness :
  (exists o t,
     createFunction (scripted [] (inr "UEsDBAoAAAAAAA==")) 0
       (local_deploy node_function) []
     = (o, Build (Some "./functions") "f"
             ["node_modules/**/*"; "node_modules"; "*.log"] None File :: t))
  /\ (exists o t,
        updateFunctionCode (scripted [] (inr "UEsDBAoAAAAAAA==")) 0
          (local_update node_function) []
        = (o, Build (Some "./functions") "f"
                ["node_modules/**/*"; "node_modules"; "*.log"] None File :: t))
  /\ ~ In ["node_modules"; "left-pad"; "index.js"]
        (packed_files String.eqb
           ["node_modules/**/*"; "node_modules"; "*.log"]
           [["index.js"]; ["node_modules"; "left-pad"; "index.js"]]).
Proof.
  destruct (C10_node_modules_ignored (scripted [] (inr "UEsDBAoAAAAAAA=="))
              0 node_function) as (H1 & H2 & _ & _ & _ & _ & _ & H8).
  split; [|split].
  - apply (H1 (local_deploy node_function) []); reflexivity.
  - apply (H2 (local_update node_function) []); reflexivity.
  - apply (H8 String.eqb
             [["index.js"]; ["node_modules"; "left-pad"; "index.js"]]
             ["left-pad"; "index.js"]); reflexivity.
Defined.

(** * Further properties *)

(** ** listFunctions *)

Lemma listFunctions_record_summary func :
  nullish func = false -> listFunctions_record func = inr (summary func).
Proof. now destruct func. Qed.

Lemma listFunctions_forEach_map items : forall data,
  forallb (fun func => negb (nullish func)) items = true ->
  listFunctions_forEach items data = inr (data ++ map summary items)%list.
Proof.
  induction items as [|func items IH]; intros data Hall;
    cbn [listFunctions_forEach map].
  - now rewrite app_nil_r.
  - cbn [forallb] in Hall. apply andb_prop in Hall as [Hf Hall].
    apply negb_true_iff in Hf.
    rewrite (listFunctions_record_summary _ Hf), IH by assumption.
    now rewrite <- app_assoc.
Qed.

Lemma listFunctions_forEach_nullish items : forall data,
  existsb nullish items = true ->
  exists e, listFunctions_forEach items data = inl e.
Proof.
  induction items as [|func items IH]; intros data Hex; [discriminate|].
  cbn [listFunctions_forEach].
  destruct (nullish func) eqn:Hf.
  - destruct func; try discriminate; now eexists.
  - rewrite (listFunctions_record_summary _ Hf).
    cbn [existsb] in Hex. rewrite Hf in Hex. now apply IH.
Qed.

Lemma summary_get func key :
  js_get (summary func) key
  = if includes function_keys key then js_get func key else JUndefined.
Proof.
  unfold summary, function_keys. cbn [map js_get obj_get includes existsb].
  repeat match goal with
  | |- context [?k =? key] =>
      destruct (String.eqb_spec k key) as [<- | _]; [reflexivity|]
  end.
  reflexivity.
Qed.

(** X1. A listing has one record per function of the reply, in the order of
    the reply, and a record keeps the six listed properties of its
    function and nothing else. *)
Theorem X1_listFunctions_projects host limit offset h res items :
  request_reply host h scf "ListFunctions"
    (Some (listFunctions_params host limit offset)) = inr res ->
  obj_get res "Functions" = JArr items ->
  forallb (fun func => negb (nullish func)) items = true ->
  listFunctions host limit offset h
  = (Returned (map summary items), [list_call host limit offset])
  /\ (forall func key,
        js_get (summary func) key
        = if includes function_keys key then js_get func key
          else JUndefined).
Proof.
  intros Hres Hf Hall. split; [|apply summary_get].
  unfold listFunctions. mrun. rewrite Hres, Hf. cbn [with_default].
  rewrite (listFunctions_forEach_map items [] Hall). reflexivity.
Qed.

Lemma X1_listFunctions_projects_witness :
  listFunctions
    (listing_host (JArr [listed "f" "Active"; listed "g" "Creating"]))
    None None []
  = (Returned [summary (listed "f" "Active"); summary (listed "g" "Creating")],
     [Request scf "ListFunctions"
        (Some [("Namespace", JStr "env-1"); ("Limit", JNum 20);
               ("Offset", JNum 0)])])
  /\ js_get (summary (listed "f" "Active")) "Namespace" = JUndefined
  /\ js_get (summary (listed "f" "Active")) "Status" = JStr "Active".
Proof.
  destruct (X1_listFunctions_projects
              (listing_host (JArr [listed "f" "Active"; listed "g" "Creating"]))
              None None []
              [("Functions", JArr [listed "f" "Active"; listed "g" "Creating"]);
               ("TotalCount", JNum 2); ("RequestId", JStr "req-1")]
              [listed "f" "Active"; listed "g" "Creating"])
    as [Hrun Hget]; try reflexivity.
  split; [exact Hrun|].
  split; [exact (Hget (listed "f" "Active") "Namespace")
         | exact (Hget (listed "f" "Active") "Status")].
Defined.

(** X2. A reply without the list of functions is an empty listing; a reply
    whose list is [null], or is no array, makes the call throw, after its
    one request. *)
Theorem X2_listFunctions_without_list host limit offset h res :
  request_reply host h scf "ListFunctions"
    (Some (listFunctions_params host limit offset)) = inr res ->
  (obj_get res "Functions" = JUndefined ->
   listFunctions host limit offset h
   = (Returned [], [list_call host limit offset]))
  /\ ((forall items, obj_get res "Functions" <> JArr items) ->
      obj_get res "Functions" <> JUndefined ->
      exists e,
        listFunctions host limit offset h
        = (Thrown e, [list_call host limit offset])).
Proof.
  intros Hres. split.
  - intros Hf. unfold listFunctions. mrun. now rewrite Hres, Hf.
  - intros Hna Hdef. unfold listFunctions. mrun. rewrite Hres.
    destruct (obj_get res "Functions") eqn:Hf; cbn [with_default].
    1: congruence.
    5: now elim (Hna items).
    all: eexists; reflexivity.
Qed.

Lemma X2_listFunctions_without_list_witness :
  listFunctions (scripted [inr [("RequestId", JStr "req-1")]] (inr ""))
    (Some 5%Z) (Some 10%Z) []
  = (Returned [],
     [Request scf "ListFunctions"
        (Some [("Namespace", JStr "env-1"); ("Limit", JNum 5);
               ("Offset", JNum 10)])])
  /\ exists e,
       listFunctions (listing_host JNull) None None []
       = (Thrown e, [list_call (listing_host JNull) None None]).
Proof.
  split.
  - apply (X2_listFunctions_without_list
             (scripted [inr [("RequestId", JStr "req-1")]] (inr ""))
             (Some 5%Z) (Some 10%Z) [] [("RequestId", JStr "req-1")]);
      reflexivity.
  - apply (X2_listFunctions_without_list (listing_host JNull) None None []
             [("Functions", JNull); ("TotalCount", JNum 2);
              ("RequestId", JStr "req-1")]).
    + reflexivity.
    + intros items. cbn. discriminate.
    + cbn. discriminate.
Defined.

(** X3. One entry of the list that is [null] or [undefined] fails the
    whole listing: the call throws, and gives none of the other
    functions. *)
Theorem X3_listFunctions_bad_entry host limit offset h res items :
  request_reply host h scf "ListFunctions"
    (Some (listFunctions_params host limit offset)) = inr res ->
  obj_get res "Functions" = JArr items ->
  existsb nullish items = true ->
  exists e,
    listFunctions host limit offset h
    = (Thrown e, [list_call host limit offset]).
Proof.
  intros Hres Hf Hbad. unfold listFunctions. mrun. rewrite Hres, Hf.
  cbn [with_default].
  destruct (listFunctions_forEach_nullish items [] Hbad) as [e ->].
  now exists e.
Qed.

Lemma X3_listFunctions_bad_entry_witness :
  exists e,
    listFunctions (listing_host (JArr [listed "f" "Active"; JNull]))
      None None []
    = (Thrown e,
       [list_call (listing_host (JArr [listed "f" "Active"; JNull]))
          None None]).
Proof.
  apply (X3_listFunctions_bad_entry
           (listing_host (JArr [listed "f" "Active"; JNull])) None None []
           [("Functions", JArr [listed "f" "Active"; JNull]);
            ("TotalCount", JNum 2); ("RequestId", JStr "req-1")]
           [listed "f" "Active"; JNull]); reflexivity.
Defined.

(** ** copyFunction *)

(** X4. [copyFunction] sends nothing when the namespace, the name or the
    new name is empty, and throws the missing-parameter error; otherwise
    it makes one request, in which the four names are never empty: the
    target namespace is the target environment when one was given and the
    current namespace when none, or an empty one, was, and [Override] is a
    boolean. *)
Theorem X4_copyFunction_complete_request host funcName newFunctionName
  targetEnvId force h :
  (copyFunction host funcName newFunctionName targetEnvId force h
   = (Thrown missing_error, [])
   /\ (namespace host = "" \/ funcName = "" \/ newFunctionName = ""))
  \/ (exists params target override,
        snd (copyFunction host funcName newFunctionName targetEnvId force h)
        = [Request scf "CopyFunction" (Some params)]
        /\ namespace host <> "" /\ funcName <> "" /\ newFunctionName <> ""
        /\ target <> ""
        /\ (targetEnvId = Some target
            \/ (target = namespace host
                /\ (targetEnvId = None \/ targetEnvId = Some "")))
        /\ (override = true <-> force = Some true)
        /\ params
           = [("FunctionName", JStr funcName);
              ("NewFunctionName", JStr newFunctionName);
              ("Namespace", JStr (namespace host));
              ("TargetNamespace", JStr target);
              ("Override", JBool override)]).
Proof.
  unfold copyFunction. cbn [truthy].
  destruct (String.eqb_spec (namespace host) "") as [Hn | Hn]; cbn [negb orb].
  { left. split; [reflexivity | now left]. }
  destruct (String.eqb_spec funcName "") as [Hf | Hf]; cbn [negb orb].
  { left. split; [reflexivity | now right; left]. }
  destruct (String.eqb_spec newFunctionName "") as [Hg | Hg]; cbn [negb orb].
  { left. split; [reflexivity | now right; right]. }
  right. unfold copyFunction_params.
  exists (copyFunction_params host funcName newFunctionName targetEnvId force),
    (or_s targetEnvId (namespace host)),
    (match force with Some b => b | None => false end).
  split; [reflexivity|]. repeat (split; [assumption|]).
  split; [|split; [|split]].
  - unfold or_s. destruct targetEnvId as [t|]; [|assumption].
    now destruct (String.eqb_spec t "").
  - unfold or_s. destruct targetEnvId as [t|]; [|right; split; auto].
    destruct (String.eqb_spec t "") as [-> | Ht];
      [right; split; auto | now left].
  - destruct force as [[|]|]; split; congruence.
  - unfold copyFunction_params. now destruct force as [[|]|].
Qed.

(** ** invokeFunction and getFunctionDownloadUrl *)

Lemma spread_fold_get fields keys : forall acc key,
  obj_get
    (fold_left (fun acc key => obj_set key (obj_get fields key) acc) keys acc)
    key
  = if includes keys key then obj_get fields key else obj_get acc key.
Proof.
  induction keys as [|k keys IH]; intros acc key; cbn [fold_left].
  - reflexivity.
  - rewrite IH, includes_cons.
    destruct (includes keys key); [now rewrite orb_true_r|].
    rewrite orb_false_r.
    destruct (String.eqb_spec k key) as [-> | Hne].
    + apply obj_get_set_same.
    + now apply obj_get_set_other.
Qed.

(** X5. [invokeFunction] throws in two ways.  When [JSON.stringify]
    refuses the parameters, its error is thrown as it is and nothing is
    asked of the platform.  Otherwise the cause is the failure of the one
    request, and the error thrown in its place has the function name and
    the platform's message but neither its code nor its request id. *)
Theorem X5_invokeFunction_error_loses_code host funcName params h e t :
  invokeFunction host funcName params h = (Thrown e, t) ->
  (t = [] /\ params = Refused true e)
  \/ (exists v e0,
        (params = Data v
         \/ (v = JUndefined /\ exists refusal, params = Refused false refusal))
        /\ t = [invoke_call host funcName v]
        /\ request_reply host h scf "Invoke"
             (Some (invokeFunction_params host funcName v)) = inl e0
        /\ message e
           = "[" ++ funcName ++ "] 调用失败：" ++ nl ++ message e0
        /\ code e = None /\ requestId e = None).
Proof.
  unfold invokeFunction. unfold bind at 1.
  destruct params as [v | [|] refusal]; mrun.
  - rewrite app_nil_r. case_request; intros H; inversion H; subst.
    right. exists v, e0. repeat split; auto.
  - intros H. inversion H; subst. now left.
  - rewrite app_nil_r. case_request; intros H; inversion H; subst.
    right. exists JUndefined, e0. repeat split; auto.
    right. split; [reflexivity | now exists refusal].
Qed.

(** A platform in trouble; and an object that holds itself. *)
Lemma X5_invokeFunction_error_loses_code_witness :
  invokeFunction (scripted [busy "req-1"] (inr "")) "f" (Data JUndefined) []
  = (Thrown (invoke_error "f" (busy_error "req-1")),
     [invoke_call (scripted [busy "req-1"] (inr "")) "f" JUndefined])
  /\ code (busy_error "req-1") = Some "InternalError"
  /\ code (invoke_error "f" (busy_error "req-1")) = None
  /\ requestId (invoke_error "f" (busy_error "req-1")) = None
  /\ invokeFunction (scripted [busy "req-1"] (inr "")) "f"
       (Refused true circular) []
     = (Thrown circular, []).
Proof.
  split; [reflexivity|]. split; [reflexivity|].
  destruct (X5_invokeFunction_error_loses_code
              (scripted [busy "req-1"] (inr "")) "f" (Data JUndefined) []
              (invoke_error "f" (busy_error "req-1"))
              [invoke_call (scripted [busy "req-1"] (inr "")) "f"
                 JUndefined]
              eq_refl)
    as [[Hnil _] | (v & e0 & _ & _ & _ & _ & Hc & Hi)];
    [discriminate Hnil|].
  split; [exact Hc|]. split; [exact Hi|].
  destruct (X5_invokeFunction_error_loses_code
              (scripted [busy "req-1"] (inr "")) "f" (Refused true circular)
              [] circular [] eq_refl)
    as [[_ _] | (v' & e1 & _ & Ht & _)]; [reflexivity | discriminate Ht].
Defined.

(** X6. What [invokeFunction] returns is the result of the invocation,
    property by property, with the request id of the reply added; a
    [RequestId] of the result's own hides the one of the reply.  Without a
    result, the request id is all there is. *)
Theorem X6_invokeFunction_merges_result host funcName params h res :
  request_reply host h scf "Invoke"
    (Some (invokeFunction_params host funcName params)) = inr res ->
  let r := spread (obj_get res "Result")
             [("RequestId", obj_get res "RequestId")] in
  invokeFunction host funcName (Data params) h
  = (Returned r, [invoke_call host funcName params])
  /\ (forall fields,
        obj_get res "Result" = JObj fields ->
        forall key,
          obj_get r key
          = if obj_has fields key then obj_get fields key
            else if key =? "RequestId" then obj_get res "RequestId"
                 else JUndefined)
  /\ (nullish (obj_get res "Result") = true ->
      r = [("RequestId", obj_get res "RequestId")]).
Proof.
  intros Hres r. unfold invokeFunction. mrun. rewrite app_nil_r, Hres.
  split; [reflexivity|]. split.
  - intros fields Hf key. unfold r. rewrite Hf. cbn [spread].
    rewrite spread_fold_get, <- obj_has_keys.
    destruct (obj_has fields key); [reflexivity|].
    cbn [obj_get]. rewrite String.eqb_sym.
    now destruct (key =? "RequestId").
  - intros Hn. unfold r. now destruct (obj_get res "Result").
Qed.

Lemma X6_invokeFunction_merges_result_witness :
  invokeFunction (scripted [inr invoke_reply] (inr "")) "f"
    (Data (JObj [("n", JNum 1)])) []
  = (Returned [("RequestId", JStr "req-1");
               ("FunctionRequestId", JStr "run-1"); ("RetMsg", JStr "42");
               ("Duration", JNum 3)],
     [Request scf "Invoke"
        (Some [("FunctionName", JStr "f"); ("Namespace", JStr "env-1");
               ("LogType", JStr "Tail"); ("ClientContext", JStr "[...]")])]).
Proof.
  destruct (X6_invokeFunction_merges_result
              (scripted [inr invoke_reply] (inr "")) "f"
              (JObj [("n", JNum 1)]) [] invoke_reply eq_refl)
    as (Hrun & _).
  rewrite Hrun. reflexivity.
Defined.

(** X7. [getFunctionDownloadUrl] makes one request, which carries the
    secret exactly when one was given, unchecked.  What it returns has the
    three properties [Url], [RequestId] and [CodeSha256] of the reply and
    no other; what it throws has the platform's message but neither its
    code nor its request id. *)
Theorem X7_getFunctionDownloadUrl_outcome host functionName codeSecret h :
  let params := getFunctionDownloadUrl_params host functionName codeSecret in
  let run := getFunctionDownloadUrl host functionName codeSecret h in
  snd run = [Request scf "GetFunctionAddress" (Some params)]
  /\ obj_has params "CodeSecret" = truthy_s codeSecret
  /\ (truthy_s codeSecret = true ->
      obj_get params "CodeSecret" = opt_JStr codeSecret)
  /\ match request_reply host h scf "GetFunctionAddress" (Some params) with
     | inr res =>
         fst run
         = Returned [("Url", obj_get res "Url");
                     ("RequestId", obj_get res "RequestId");
                     ("CodeSha256", obj_get res "CodeSha256")]
     | inl e0 =>
         exists e,
           fst run = Thrown e /\ code e = None /\ requestId e = None
           /\ message e
              = "[" ++ functionName ++ "] 获取函数代码下载链接失败：" ++ nl
                  ++ message e0
     end.
Proof.
  intros params run. unfold run, getFunctionDownloadUrl. mrun. fold params.
  split; [now destruct (request_reply host h scf _ _)|].
  split; [|split].
  - unfold params, getFunctionDownloadUrl_params.
    now destruct (truthy_s codeSecret).
  - intros Hs. unfold params, getFunctionDownloadUrl_params. rewrite Hs.
    cbn [obj_set_if]. rewrite obj_get_set_same.
    destruct codeSecret as [s|]; [|discriminate].
    cbn in Hs |- *. now destruct (s =? "").
  - destruct (request_reply host h scf _ _) as [e0 | res]; [|reflexivity].
    eexists. repeat split.
Qed.

(** ** createFunctionTriggers *)

Lemma parseTriggers_timers ts :
  forallb is_timer ts = true -> parseTriggers ts = inr (map parsed_trigger ts).
Proof.
  induction ts as [|item ts IH]; [reflexivity|].
  cbn [forallb]. intros H. apply andb_prop in H as [Hi Hts].
  cbn [parseTriggers map]. unfold is_timer in Hi. rewrite Hi. cbn [negb].
  now rewrite IH.
Qed.

Lemma parseTriggers_first_bad good : forall bad rest,
  forallb is_timer good = true -> is_timer bad = false ->
  parseTriggers (good ++ bad :: rest)%list = inl (trigger_type_error bad).
Proof.
  induction good as [|item good IH]; intros bad rest Hgood Hbad.
  - cbn [app parseTriggers]. unfold is_timer in Hbad. now rewrite Hbad.
  - cbn [forallb] in Hgood. apply andb_prop in Hgood as [Hi Hgood].
    cbn [app parseTriggers]. unfold is_timer in Hi. rewrite Hi. cbn [negb].
    now rewrite IH.
Qed.

Lemma createFunctionTriggers_all_timers host funcName h item ts :
  forallb is_timer (item :: ts) = true ->
  createFunctionTriggers host funcName (Some (item :: ts)) h
  = (match request_reply host h scf "BatchCreateTrigger"
             (Some (triggers_params host funcName (item :: ts))) with
     | inl e => Thrown e
     | inr res => Returned (JObj res)
     end,
     [Request scf "BatchCreateTrigger"
        (Some (triggers_params host funcName (item :: ts)))]).
Proof.
  intros Hall. unfold createFunctionTriggers.
  rewrite (parseTriggers_timers _ Hall). mrun.
  match goal with
  | |- context [request_reply host h scf "BatchCreateTrigger" (Some ?d)] =>
      replace d with (triggers_params host funcName (item :: ts))
        by (unfold triggers_params; now rewrite length_map)
  end.
  now destruct (request_reply host h scf "BatchCreateTrigger" _).
Qed.

(** X8. Trigger creation is all or nothing.  If one trigger of the list is
    not a timer, nothing is sent, whatever the other triggers are, and the
    error names the type of the first such trigger.  If all are timers,
    one request carries them all, in order, with their count, and its
    outcome is the outcome of the call. *)
Theorem X8_createFunctionTriggers_all_or_nothing host funcName h :
  (forall good bad rest,
     forallb is_timer good = true -> is_timer bad = false ->
     createFunctionTriggers host funcName (Some (good ++ bad :: rest)%list) h
     = (Thrown (trigger_type_error bad), []))
  /\ (forall item ts,
        forallb is_timer (item :: ts) = true ->
        createFunctionTriggers host funcName (Some (item :: ts)) h
        = (match request_reply host h scf "BatchCreateTrigger"
                   (Some (triggers_params host funcName (item :: ts))) with
           | inl e => Thrown e
           | inr res => Returned (JObj res)
           end,
           [Request scf "BatchCreateTrigger"
              (Some (triggers_params host funcName (item :: ts)))])).
Proof.
  split.
  - intros good bad rest Hgood Hbad.
    pose proof (parseTriggers_first_bad good bad rest Hgood Hbad) as Hp.
    unfold createFunctionTriggers.
    destruct good as [|item good]; cbn [app] in Hp |- *;
      rewrite Hp; reflexivity.
  - intros item ts Hall.
    now apply createFunctionTriggers_all_timers.
Qed.

Lemma X8_createFunctionTriggers_all_or_nothing_witness :
  createFunctionTriggers (scripted [reply_id "req-1"] (inr "")) "f"
    (Some [timer; webhook; timer]) []
  = (Thrown (trigger_type_error webhook), [])
  /\ createFunctionTriggers (scripted [reply_id "req-1"] (inr "")) "f"
       (Some [timer; timer]) []
     = (Returned (JObj [("RequestId", JStr "req-1")]),
        [Request scf "BatchCreateTrigger"
           (Some [("FunctionName", JStr "f"); ("Namespace", JStr "env-1");
                  ("Triggers", JStr "[...]"); ("Count", JNum 2)])]).
Proof.
  destruct (X8_createFunctionTriggers_all_or_nothing
              (scripted [reply_id "req-1"] (inr "")) "f" []) as [Hbad Hgood].
  split.
  - apply (Hbad [timer] webhook [timer]); reflexivity.
  - apply (Hgood timer [timer]). reflexivity.
Defined.

(** ** getFunctionDetail *)

Lemma includes_In xs key : includes xs key = true -> In key xs.
Proof.
  unfold includes. intros H. apply existsb_exists in H as (y & Hy & E).
  apply String.eqb_eq in E. now subst.
Qed.

Lemma pick_validKeys_has res key :
  obj_has (pick_validKeys res) key
  = includes detail_validKeys key && obj_has res key.
Proof.
  unfold pick_validKeys.
  change (fun data key => if negb (includes detail_validKeys key) then data
                          else obj_set key (obj_get res key) data)
    with (pick_step res).
  rewrite pick_fold_has. cbn [obj_has orb]. now rewrite <- obj_has_keys.
Qed.

Lemma find_by_first_match key target items :
  forallb (fun item => negb (nullish item)) items = true ->
  find_by key target items = inr (first_match key target items).
Proof.
  unfold first_match.
  induction items as [|item items IH]; [reflexivity|].
  cbn [forallb find_by find]. intros H. apply andb_prop in H as [Hi Hall].
  destruct (strict_eq (js_get item key) target) eqn:E.
  - now destruct item.
  - rewrite <- (IH Hall). now destruct item.
Qed.

Section DetailShape.

Variable host : Host.

(** What [getFunctionDetail] returns is the filtered reply, with at most
    one property replaced or added. *)
Lemma getFunctionDetail_shape funcName codeSecret h detail t :
  getFunctionDetail host funcName codeSecret h = (Returned detail, t) ->
  exists res,
    request_reply host h scf "GetFunction"
      (Some (getFunctionDetail_params host funcName codeSecret)) = inr res
    /\ (detail = pick_validKeys res
        \/ (exists v, detail = obj_set "VpcConfig" v (pick_validKeys res))
        \/ detail = obj_set "VPC" empty_vpc_info (pick_validKeys res)).
Proof.
  unfold getFunctionDetail, getVpcs, getSubnets. mrun.
  destruct (request_reply host h scf "GetFunction" _) as [e | res];
    [discriminate|].
  intros H. exists res. split; [reflexivity|].
  destruct (truthy (VpcId_of (pick_validKeys res))
            && truthy (SubnetId_of (pick_validKeys res))).
  2:{ inversion H; subst. now left. }
  revert H.
  repeat match goal with
  | |- context [request_reply host ?hh vpcsvc ?a ?d] =>
      destruct (request_reply host hh vpcsvc a d); mnorm
  | |- context [array_find ?k ?x ?v ?hh] =>
      let o := fresh "o" in let Ho := fresh "Ho" in
      destruct (array_find_pure k x v hh) as (o & -> & Ho);
      destruct o; [| | contradiction]; mnorm
  end;
  intros H; inversion H; subst; try (now right; right).
  right. left. now eexists.
Qed.

End DetailShape.

(** X9. The record [getFunctionDetail] returns has no property besides the
    thirteen listed ones and [VPC]: everything else of the reply, its
    request id included, is dropped; and but for [VpcConfig] the listed
    properties have the values of the reply. *)
Theorem X9_getFunctionDetail_keeps_listed_keys host funcName codeSecret h
  detail t :
  getFunctionDetail host funcName codeSecret h = (Returned detail, t) ->
  exists res,
    request_reply host h scf "GetFunction"
      (Some (getFunctionDetail_params host funcName codeSecret)) = inr res
    /\ (forall key,
          obj_has detail key = true ->
          In key detail_validKeys \/ key = "VPC")
    /\ (forall key,
          key <> "VpcConfig" -> key <> "VPC" ->
          obj_get detail key
          = if includes detail_validKeys key then obj_get res key
            else JUndefined).
Proof.
  intros H.
  destruct (getFunctionDetail_shape host _ _ _ _ _ H)
    as (res & Hres & [-> | [[v ->] | ->]]);
    exists res; (split; [exact Hres|]); split; intros key.
  - rewrite pick_validKeys_has. intros Hk. apply andb_prop in Hk as [Hk _].
    left. now apply includes_In.
  - intros _ _. apply pick_validKeys_get.
  - rewrite obj_has_set, pick_validKeys_has. intros Hk. left.
    apply orb_prop in Hk as [Hk | Hk].
    + apply String.eqb_eq in Hk. subst key. cbn. tauto.
    + apply andb_prop in Hk as [Hk _]. now apply includes_In.
  - intros Hv _. rewrite obj_get_set_other by congruence.
    apply pick_validKeys_get.
  - rewrite obj_has_set, pick_validKeys_has. intros Hk.
    apply orb_prop in Hk as [Hk | Hk].
    + apply String.eqb_eq in Hk. now right.
    + apply andb_prop in Hk as [Hk _]. left. now apply includes_In.
  - intros _ Hv. rewrite obj_get_set_other by congruence.
    apply pick_validKeys_get.
Qed.

Lemma X9_getFunctionDetail_keeps_listed_keys_witness :
  exists detail t,
    getFunctionDetail vpc_host "f" None [] = (Returned detail, t)
    /\ obj_get full_detail_reply "RequestId" = JStr "req-1"
    /\ obj_get detail "RequestId" = JUndefined
    /\ obj_get detail "FunctionName" = JStr "f".
Proof.
  destruct (getFunctionDetail vpc_host "f" None []) as [o t] eqn:E.
  destruct o as [detail | e |]; try (vm_compute in E; discriminate).
  exists detail, t. split; [reflexivity|]. split; [reflexivity|].
  destruct (X9_getFunctionDetail_keeps_listed_keys vpc_host "f" None []
              detail t E) as (res & Hres & _ & Hget).
  vm_compute in Hres. inversion Hres; subst res.
  split; [apply (Hget "RequestId") | apply (Hget "FunctionName")];
    discriminate.
Defined.

(** X10. The two VPC queries are made only for a function that has both a
    VPC id and a subnet id: for any other function [getFunctionDetail] is
    the one status request, and returns the filtered reply as it is. *)
Theorem X10_getFunctionDetail_outside_vpc host funcName codeSecret h res :
  request_reply host h scf "GetFunction"
    (Some (getFunctionDetail_params host funcName codeSecret)) = inr res ->
  let data := pick_validKeys res in
  (truthy (VpcId_of data) && truthy (SubnetId_of data) = false ->
   getFunctionDetail host funcName codeSecret h
   = (Returned data, [detail_call host funcName codeSecret]))
  /\ (truthy (VpcId_of data) && truthy (SubnetId_of data) = true ->
      exists t,
        snd (getFunctionDetail host funcName codeSecret h)
        = (detail_call host funcName codeSecret
             :: Request vpcsvc "DescribeVpcs" None :: t)%list
        /\ (t = []
            \/ t = [Request vpcsvc "DescribeSubnets"
                      (Some (getSubnets_data (VpcId_of data)))])).
Proof.
  intros Hres data. split; intros Hids.
  - unfold getFunctionDetail. mrun. rewrite Hres. fold data.
    now rewrite Hids.
  - unfold getFunctionDetail, getVpcs, getSubnets. mrun. rewrite Hres.
    fold data. rewrite Hids. unfold detail_call.
    destruct (request_reply host _ vpcsvc "DescribeVpcs" None).
    { exists []. split; [reflexivity | now left]. }
    mnorm.
    destruct (request_reply host _ vpcsvc "DescribeSubnets" _).
    { eexists. split; [reflexivity | now right]. }
    mnorm.
    repeat match goal with
    | |- context [array_find ?k ?x ?v ?hh] =>
        let o := fresh "o" in let Ho := fresh "Ho" in
        destruct (array_find_pure k x v hh) as (o & -> & Ho);
        destruct o; [| | contradiction]; mnorm
    end; (eexists; split; [reflexivity | now right]).
Qed.

Lemma X10_getFunctionDetail_outside_vpc_witness :
  getFunctionDetail (scripted [status_reply "Active"] (inr "")) "f" None []
  = (Returned [("Status", JStr "Active")], [get_call "f"]).
Proof.
  destruct (X10_getFunctionDetail_outside_vpc
              (scripted [status_reply "Active"] (inr "")) "f" None []
              [("Status", JStr "Active")] eq_refl) as [H _].
  apply H. reflexivity.
Defined.

(** X11. When both VPC queries answer with their lists,
    [getFunctionDetail] replaces the two ids of [VpcConfig] by what the
    lists say of them: the first VPC with the function's VPC id, the first
    subnet with its subnet id, and [undefined] for one that is not in its
    list, which is no error.  It adds no [VPC] property. *)
Theorem X11_getFunctionDetail_resolves_vpc host funcName codeSecret h res
  vpcsRes vpcs subnetsRes subnets :
  let get := detail_call host funcName codeSecret in
  let data := pick_validKeys res in
  let describeVpcs := Request vpcsvc "DescribeVpcs" None in
  let describeSubnets :=
    Request vpcsvc "DescribeSubnets"
      (Some (getSubnets_data (VpcId_of data))) in
  request_reply host h scf "GetFunction"
    (Some (getFunctionDetail_params host funcName codeSecret)) = inr res ->
  truthy (VpcId_of data) && truthy (SubnetId_of data) = true ->
  request_reply host (h ++ [get]) vpcsvc "DescribeVpcs" None = inr vpcsRes ->
  request_reply host (h ++ [get; describeVpcs]) vpcsvc "DescribeSubnets"
    (Some (getSubnets_data (VpcId_of data))) = inr subnetsRes ->
  obj_get vpcsRes "VpcSet" = JArr vpcs ->
  obj_get subnetsRes "SubnetSet" = JArr subnets ->
  forallb (fun item => negb (nullish item)) vpcs = true ->
  forallb (fun item => negb (nullish item)) subnets = true ->
  exists detail,
    getFunctionDetail host funcName codeSecret h
    = (Returned detail, [get; describeVpcs; describeSubnets])
    /\ obj_get detail "VpcConfig"
       = JObj [("vpc", first_match "VpcId" (VpcId_of data) vpcs);
               ("subnet", first_match "SubnetId" (SubnetId_of data) subnets)]
    /\ obj_has detail "VPC" = false
    /\ (forall key,
          key <> "VpcConfig" -> obj_get detail key = obj_get data key).
Proof.
  intros get data describeVpcs describeSubnets Hres Hids Hv Hs Hvs Hss Hnv Hns.
  subst get describeVpcs describeSubnets. unfold detail_call in *.
  unfold getFunctionDetail, getVpcs, getSubnets. mrun. rewrite Hres.
  fold data. rewrite Hids, Hv. mnorm. rewrite Hs. mnorm. rewrite Hvs, Hss.
  unfold array_find.
  rewrite (find_by_first_match _ _ _ Hnv). mrun.
  rewrite (find_by_first_match _ _ _ Hns). mrun.
  eexists. split; [reflexivity|]. split; [apply obj_get_set_same|]. split.
  - rewrite obj_has_set. unfold data. now rewrite pick_validKeys_has.
  - intros key Hk. apply obj_get_set_other. congruence.
Qed.

Lemma X11_getFunctionDetail_resolves_vpc_witness :
  exists detail,
    getFunctionDetail vpc_host "f" None [] 
    = (Returned detail,
       [get_call "f"; Request vpcsvc "DescribeVpcs" None;
        Request vpcsvc "DescribeSubnets"
          (Some (getSubnets_data (JStr "vpc-1")))])
    /\ obj_get detail "VpcConfig"
       = JObj [("vpc", vpc_item "vpc-1" "main");
               ("subnet", subnet_item "subnet-1" "a")].
Proof.
  destruct (X11_getFunctionDetail_resolves_vpc vpc_host "f" None []
              full_detail_reply vpcs_reply
              [vpc_item "vpc-0" "old"; vpc_item "vpc-1" "main"]
              subnets_reply [subnet_item "subnet-1" "a"])
    as (detail & Hrun & Hvpc & _); try reflexivity.
  exists detail. split; [exact Hrun | exact Hvpc].
Defined.

(** ** What the create request carries *)

Ltac through_sets :=
  repeat first
    [ rewrite obj_get_set_same
    | rewrite obj_get_set_other by discriminate
    | rewrite obj_get_set_if_other by discriminate
    | rewrite obj_has_set_other by discriminate
    | rewrite obj_has_set_if_other by discriminate ].

Section CreateParams.

Variable host : Host.

Lemma createFunction_params_tail func base64 codeSecret key :
  key <> "Layers" -> key <> "EipConfig" -> key <> "CodeSecret" ->
  obj_get (createFunction_params host func base64 codeSecret) key
  = obj_get
      (obj_set "InstallDependency" (JStr (installDependency_of func))
         (obj_set "VpcConfig" (JObj (VpcConfig_of func))
            (obj_set "Runtime" (JStr (or_s (runtime func) "Nodejs8.9"))
               (obj_set "Timeout"
                  (JNum (match timeout func with
                         | Some t => if (t =? 0)%Z then 20%Z else t
                         | None => 20%Z
                         end))
                  (obj_set "Handler"
                     (JStr (or_s (handler func) "index.main"))
                     (obj_set_if
                        (negb (List.length (envVariables_of func) =? 0)%nat)
                        "Environment"
                        (JObj [("Variables", JArr (envVariables_of func))])
                        [("FunctionName", JStr (name func));
                         ("Namespace", JStr (namespace host));
                         ("Code", JObj [("ZipFile", JStr base64)]);
                         ("MemorySize", JNum 256);
                         ("Role", JStr "TCB_QcsRole");
                         ("Stamp", JStr "MINI_QCBASE");
                         ("L5Enable", l5Enable_of func)]))))))
      key.
Proof.
  intros Hl He Hc. unfold createFunction_params.
  rewrite obj_get_set_if_other by congruence.
  match goal with
  | |- context [if ?c then _ else _] => destruct c
  end; rewrite obj_get_set_other by congruence;
    now rewrite obj_get_set_if_other by congruence.
Qed.

Lemma or_s_nonempty s d : d <> "" -> or_s s d <> "".
Proof.
  intros Hd. unfold or_s. destruct s as [t|]; [|assumption].
  now destruct (String.eqb_spec t "").
Qed.

Lemma or_s_cases s d : s = Some (or_s s d) \/ or_s s d = d.
Proof.
  unfold or_s. destruct s as [t|]; [|now right].
  destruct (t =? ""); [now right | now left].
Qed.

End CreateParams.

(** X12. No create request carries an empty handler, an empty runtime or a
    zero timeout: what the function leaves unsaid, or says empty, is
    written ['index.main'], ['Nodejs8.9'] and [20]; and the memory size,
    the role and the stamp are the same for every function. *)
Theorem X12_createFunction_params_defaults host func base64 codeSecret :
  let params := createFunction_params host func base64 codeSecret in
  (exists entry,
     obj_get params "Handler" = JStr entry /\ entry <> ""
     /\ (handler func = Some entry \/ entry = "index.main"))
  /\ (exists rt,
        obj_get params "Runtime" = JStr rt /\ rt <> ""
        /\ (runtime func = Some rt \/ rt = "Nodejs8.9"))
  /\ (exists seconds,
        obj_get params "Timeout" = JNum seconds /\ seconds <> 0%Z
        /\ (timeout func = Some seconds \/ seconds = 20%Z))
  /\ obj_get params "MemorySize" = JNum 256
  /\ obj_get params "Role" = JStr "TCB_QcsRole"
  /\ obj_get params "Stamp" = JStr "MINI_QCBASE"
  /\ obj_get params "Code" = JObj [("ZipFile", JStr base64)].
Proof.
  intros params. unfold params.
  repeat split; try (rewrite createFunction_params_tail by discriminate;
                     through_sets; reflexivity).
  - exists (or_s (handler func) "index.main").
    rewrite createFunction_params_tail by discriminate. through_sets.
    split; [reflexivity|]. split; [now apply or_s_nonempty | apply or_s_cases].
  - exists (or_s (runtime func) "Nodejs8.9").
    rewrite createFunction_params_tail by discriminate. through_sets.
    split; [reflexivity|]. split; [now apply or_s_nonempty | apply or_s_cases].
  - eexists.
    rewrite createFunction_params_tail by discriminate. through_sets.
    split; [reflexivity|].
    destruct (timeout func) as [t|]; [|split; [discriminate | now right]].
    destruct (Z.eqb_spec t 0); [split; [discriminate | now right]|].
    split; [assumption | now left].
Qed.

(** X13. The create request asks for a fixed public address exactly for a
    function that names both a VPC and a subnet; the request always says
    one or the other. *)
Theorem X13_createFunction_params_EipConfig host func base64 codeSecret :
  let params := createFunction_params host func base64 codeSecret in
  obj_get params "EipConfig"
  = JObj [("EipFixed", JStr (if in_vpc func then "TRUE" else "FALSE"))]
  /\ obj_get params "VpcConfig"
     = JObj [("SubnetId",
              JStr (match vpc func with Some v => subnetId v | None => "" end));
             ("VpcId",
              JStr (match vpc func with Some v => vpcId v | None => "" end))].
Proof.
  intros params. unfold params. split.
  - unfold createFunction_params.
    rewrite obj_get_set_if_other by discriminate.
    rewrite (obj_get_set_if_other _ "CodeSecret" "VpcConfig") by discriminate.
    rewrite (obj_get_set_other "InstallDependency" "VpcConfig")
      by discriminate.
    rewrite obj_get_set_same. unfold VpcConfig_of, in_vpc.
    cbn [js_get obj_get String.eqb Ascii.eqb Bool.eqb truthy].
    destruct (vpc func) as [v|]; cbn [negb andb];
      [|apply obj_get_set_same].
    destruct (negb (subnetId v =? "") && negb (vpcId v =? ""));
      apply obj_get_set_same.
  - rewrite createFunction_params_tail by discriminate. now through_sets.
Qed.

(** X14. A function that names no runtime is created as a Nodejs8.9
    function, but is not treated as one: unless it asks for it, its
    dependencies are not installed and its [node_modules] directory is
    packaged with it, when those of a function that names Nodejs8.9 are
    installed, and left out. *)
Theorem X14_createFunction_default_runtime_not_installed host func base64
  codeSecret :
  truthy_s (runtime func) = false ->
  installDependency func = None ->
  let params := createFunction_params host func base64 codeSecret in
  obj_get params "Runtime" = JStr "Nodejs8.9"
  /\ obj_get params "InstallDependency" = JStr "FALSE"
  /\ ignore_of func (installDependency_of func) = spread_ignore func
  /\ (forall named,
        runtime named = Some "Nodejs8.9" ->
        installDependency named = None ->
        obj_get (createFunction_params host named base64 codeSecret)
          "InstallDependency" = JStr "TRUE"
        /\ ignore_of named (installDependency_of named)
           = "node_modules/**/*" :: "node_modules" :: spread_ignore named).
Proof.
  intros Hrt Hinst params. unfold params.
  assert (Hor : forall d, or_s (runtime func) d = d).
  { intros d. unfold truthy_s, or_s in *. destruct (runtime func) as [r|];
      [|reflexivity]. now destruct (r =? ""). }
  assert (Hi : installDependency_of func = "FALSE").
  { unfold installDependency_of. now rewrite Hinst, Hor. }
  split; [|split; [|split]].
  - rewrite createFunction_params_tail by discriminate. through_sets.
    now rewrite Hor.
  - now rewrite createFunction_params_InstallDependency, Hi.
  - now rewrite Hi.
  - intros named Hn Hni.
    assert (Hj : installDependency_of named = "TRUE").
    { unfold installDependency_of. now rewrite Hni, Hn. }
    rewrite createFunction_params_InstallDependency, Hj. now split.
Qed.

Lemma X14_createFunction_default_runtime_not_installed_witness :
  obj_get (createFunction_params (scripted [] (inr "")) (plain_function "f")
             "UEsDBAoAAAAAAA==" None) "Runtime" = JStr "Nodejs8.9"
  /\ obj_get (createFunction_params (scripted [] (inr "")) (plain_function "f")
                "UEsDBAoAAAAAAA==" None) "InstallDependency" = JStr "FALSE".
Proof.
  destruct (X14_createFunction_default_runtime_not_installed
              (scripted [] (inr "")) (plain_function "f")
              "UEsDBAoAAAAAAA==" None eq_refl eq_refl) as (H1 & H2 & _).
  split; assumption.
Defined.

(** ** What the configuration update carries *)

(** X15. A configuration update leaves unsaid what the function leaves
    unsaid: no timeout for a function without one (or with a timeout of
    0), no runtime for a function without one, no layers for a function
    with none, and no word on the installation of dependencies unless the
    function says one or is a Nodejs8.9 function.  The VPC is the
    exception: the update always carries [VpcConfig], with empty ids for a
    function that names no VPC. *)
Theorem X15_updateFunctionConfig_params_unsaid host func :
  let params := updateFunctionConfig_params host func in
  obj_has params "Timeout"
  = match timeout func with
    | Some t => negb (t =? 0)%Z
    | None => false
    end
  /\ obj_has params "Runtime" = truthy_s (runtime func)
  /\ obj_has params "Layers" = has_layers func
  /\ obj_has params "InstallDependency"
     = match installDependency func with
       | Some _ => true
       | None => or_s (runtime func) "" =? "Nodejs8.9"
       end
  /\ obj_get params "VpcConfig" = JObj (VpcConfig_of func)
  /\ (vpc func = None ->
      obj_get params "VpcConfig"
      = JObj [("SubnetId", JStr ""); ("VpcId", JStr "")]).
Proof.
  intros params. unfold params, updateFunctionConfig_params.
  assert (Hbase : forall key c v,
            key <> "Environment" ->
            obj_has
              (obj_set_if c "Environment" v
                 [("FunctionName", JStr (name func));
                  ("Namespace", JStr (namespace host));
                  ("L5Enable", l5Enable_of func)]) key
            = (("FunctionName" =? key) || (("Namespace" =? key)
               || (("L5Enable" =? key) || false)))).
  { intros key c v Hk. rewrite obj_has_set_if_other by congruence.
    reflexivity. }
  split; [|split; [|split; [|split; [|split]]]].
  - rewrite obj_has_set_if_other by discriminate.
    destruct (installDependency func);
      rewrite ?obj_has_set_other by discriminate;
      rewrite obj_has_set_if_other by discriminate;
      rewrite obj_has_set_other by discriminate;
      rewrite obj_has_set_if_other by discriminate;
      (destruct (timeout func) as [t|];
       [unfold obj_set_if at 1; destruct (negb (t =? 0)%Z);
        [rewrite obj_has_set, String.eqb_refl; reflexivity|]|]);
      now rewrite Hbase by discriminate.
  - rewrite obj_has_set_if_other by discriminate.
    destruct (installDependency func);
      rewrite ?obj_has_set_other by discriminate;
      rewrite obj_has_set_if_other by discriminate;
      rewrite obj_has_set_other by discriminate;
      (unfold obj_set_if at 1; destruct (truthy_s (runtime func));
       [rewrite obj_has_set, String.eqb_refl; reflexivity|]);
      (destruct (timeout func) as [t|];
       [rewrite obj_has_set_if_other by discriminate|]);
      now rewrite Hbase by discriminate.
  - unfold obj_set_if at 1. destruct (has_layers func).
    { now rewrite obj_has_set, String.eqb_refl. }
    destruct (installDependency func);
      rewrite ?obj_has_set_other by discriminate;
      rewrite obj_has_set_if_other by discriminate;
      rewrite obj_has_set_other by discriminate;
      rewrite obj_has_set_if_other by discriminate;
      (destruct (timeout func) as [t|];
       [rewrite obj_has_set_if_other by discriminate|]);
      now rewrite Hbase by discriminate.
  - rewrite obj_has_set_if_other by discriminate.
    destruct (installDependency func).
    { now rewrite obj_has_set, String.eqb_refl. }
    unfold obj_set_if at 1.
    destruct (or_s (runtime func) "" =? "Nodejs8.9").
    { now rewrite obj_has_set, String.eqb_refl. }
    rewrite obj_has_set_other by discriminate;
      rewrite obj_has_set_if_other by discriminate;
      (destruct (timeout func) as [t|];
       [rewrite obj_has_set_if_other by discriminate|]);
      now rewrite Hbase by discriminate.
  - rewrite obj_get_set_if_other by discriminate.
    destruct (installDependency func);
      rewrite ?obj_get_set_other by discriminate;
      rewrite obj_get_set_if_other by discriminate;
      apply obj_get_set_same.
  - intros Hv. rewrite obj_get_set_if_other by discriminate.
    destruct (installDependency func);
      rewrite ?obj_get_set_other by discriminate;
      rewrite obj_get_set_if_other by discriminate;
      rewrite obj_get_set_same; unfold VpcConfig_of; now rewrite Hv.
Qed.

(** ** The calls of createFunction *)

Section DeployCalls.

Variable host : Host.

Lemma emits_after_created fuel fp base64 res :
  emits after_create_kinds (after_created host fuel fp base64 res).
Proof.
  unfold after_created.
  apply emits_bind; [apply emits_retryCreateTrigger | intros _].
  apply emits_bind; [|intros _; apply emits_ret].
  apply emits_if; [|apply emits_ret].
  eapply emits_incl; [|apply emits_waitFunctionActive].
  intros k Hk. cbn in *. tauto.
Qed.

Lemma builds_only root func base64Code h :
  Forall (fun c => call_kind c = KBuild)
    (snd (package_code host root func base64Code h)).
Proof.
  eapply Forall_impl; [|apply (emits_package_code host root func base64Code h)].
  intros c [Hc | []]. now symmetry.
Qed.

(** A run of [createFunction] stops before its create request, having at
    most packaged the code, or makes it with the artifact of the
    packaging and goes on with calls that are no create requests. *)
Lemma createFunction_run fuel fp h :
  (Forall (fun c => call_kind c = KBuild) (snd (createFunction host fuel fp h)))
  \/ (exists base64 tp t,
        package_code host (Some (cf_functionRootPath fp)) (cf_func fp)
          (cf_base64Code fp) h = (Returned base64, tp)
        /\ snd (createFunction host fuel fp h)
           = (tp ++ create_call host fp base64 :: t)%list
        /\ Forall (fun c => In (call_kind c) after_create_kinds) t).
Proof.
  destruct (params_ok (cf_func fp) (cf_codeSecret fp)) eqn:Hok.
  2:{ left. unfold createFunction. unfold bind at 1.
      destruct (validCreateParams_rejects (cf_func fp) (cf_codeSecret fp) h
                  Hok) as [e ->]. constructor. }
  pose proof (builds_only (Some (cf_functionRootPath fp)) (cf_func fp)
                (cf_base64Code fp) h) as Htp.
  destruct (package_code host (Some (cf_functionRootPath fp)) (cf_func fp)
              (cf_base64Code fp) h) as [[base64 | e |] tp] eqn:Hpack;
    cbn [snd] in Htp.
  2,3: left; unfold createFunction; unfold bind at 1;
       rewrite (validCreateParams_ok _ _ _ Hok); unfold bind at 1;
       rewrite app_nil_r, Hpack; exact Htp.
  right. exists base64, tp.
  destruct (request_reply host (h ++ tp)%list scf "CreateFunction"
              (Some (createFunction_params host (cf_func fp) base64
                       (cf_codeSecret fp)))) as [e | res] eqn:Hreply.
  - rewrite (createFunction_create_failed host fuel fp h base64 tp e)
      by (repeat split; assumption).
    pose proof (emits_on_create_failure host fuel fp base64 e
                  (h ++ tp ++ [create_call host fp base64])%list) as He.
    destruct (on_create_failure host fuel fp base64 e _) as [o t].
    exists t. now repeat split.
  - rewrite (createFunction_created host fuel fp h base64 tp res)
      by (repeat split; assumption).
    pose proof (emits_after_created fuel fp base64 res
                  (h ++ tp ++ [create_call host fp base64])%list) as Ha.
    destruct (after_created host fuel fp base64 res _) as [[r | e |] t];
      cbn [snd] in Ha.
    + exists t. now repeat split.
    + pose proof (emits_on_create_failure host fuel fp base64 e
                    (h ++ tp ++ [create_call host fp base64] ++ t)%list)
        as He.
      destruct (on_create_failure host fuel fp base64 e _) as [o' t'].
      exists (t ++ t')%list. split; [reflexivity|].
      split; [reflexivity|].
      apply Forall_app. now split.
    + exists t. now repeat split.
Qed.

End DeployCalls.

(** X16. [createFunction] asks the platform for nothing besides the seven
    actions of a deployment: it deletes nothing, so that a deployment that
    fails after its create request leaves the function created. *)
Theorem X16_createFunction_never_rolls_back host fuel fp h :
  (forall service action data,
     In (Request service action data) (snd (createFunction host fuel fp h)) ->
     In action deploy_actions)
  /\ count_action "DeleteFunction" (snd (createFunction host fuel fp h)) = 0
  /\ count_action "DeleteTrigger" (snd (createFunction host fuel fp h)) = 0.
Proof.
  assert (Hall : Forall (fun c => In (call_kind c)
                                    (KAction "CreateFunction"
                                       :: after_create_kinds))
                   (snd (createFunction host fuel fp h))).
  { destruct (createFunction_run host fuel fp h)
      as [Hb | (base64 & tp & t & Hpack & -> & Ht)].
    - eapply Forall_impl; [|exact Hb]. intros c ->. cbn. tauto.
    - apply Forall_app. split.
      + pose proof (builds_only host (Some (cf_functionRootPath fp))
                      (cf_func fp) (cf_base64Code fp) h) as Hb.
        rewrite Hpack in Hb. eapply Forall_impl; [|exact Hb].
        intros c ->. cbn. tauto.
      + constructor; [now left|].
        eapply Forall_impl; [|exact Ht]. intros c Hc. now right. }
  split; [|split].
  - intros service action data Hin.
    rewrite Forall_forall in Hall. specialize (Hall _ Hin).
    cbn in Hall. unfold deploy_actions. cbn.
    decompose [or] Hall; try discriminate; try contradiction;
      match goal with
      | H : KAction _ = KAction _ |- _ => injection H as <-; tauto
      end.
  - apply (count_action_none _ _ _ Hall). cbn. intros H.
    repeat (destruct H as [H | H]; [discriminate H|]). exact H.
  - apply (count_action_none _ _ _ Hall). cbn. intros H.
    repeat (destruct H as [H | H]; [discriminate H|]). exact H.
Qed.

(** X17. No create request carries an empty archive: the code of every
    create request is what the packaging returned, or the code the caller
    supplied, and is not the empty string. *)
Theorem X17_createFunction_never_sends_empty_code host fuel fp h service
  data :
  In (Request service "CreateFunction" data)
    (snd (createFunction host fuel fp h)) ->
  exists base64 tp,
    package_code host (Some (cf_functionRootPath fp)) (cf_func fp)
      (cf_base64Code fp) h = (Returned base64, tp)
    /\ base64 <> ""
    /\ service = scf
    /\ data = Some (createFunction_params host (cf_func fp) base64
                      (cf_codeSecret fp))
    /\ obj_get (createFunction_params host (cf_func fp) base64
                  (cf_codeSecret fp)) "Code"
       = JObj [("ZipFile", JStr base64)].
Proof.
  intros Hin.
  destruct (createFunction_run host fuel fp h)
    as [Hb | (base64 & tp & t & Hpack & Hrun & Ht)].
  { rewrite Forall_forall in Hb. specialize (Hb _ Hin). discriminate Hb. }
  rewrite Hrun in Hin. exists base64, tp. split; [exact Hpack|].
  split.
  { pose proof (package_code_truthy host _ _ _ _ _ _ Hpack) as Htr.
    cbn in Htr. intros ->. discriminate Htr. }
  apply in_app_or in Hin as [Hin | [Hin | Hin]].
  - pose proof (builds_only host (Some (cf_functionRootPath fp))
                  (cf_func fp) (cf_base64Code fp) h) as Hb.
    rewrite Hpack in Hb. rewrite Forall_forall in Hb.
    specialize (Hb _ Hin). discriminate Hb.
  - unfold create_call in Hin. injection Hin as <- <-.
    repeat split. rewrite createFunction_params_tail by discriminate.
    now through_sets.
  - rewrite Forall_forall in Ht. specialize (Ht _ Hin). cbn in Ht.
    repeat (destruct Ht as [Ht | Ht]; [discriminate Ht|]). contradiction.
Qed.

Lemma X17_createFunction_never_sends_empty_code_witness :
  exists base64 tp,
    package_code refusing_host (Some "./functions") timed_function
      (Some "UEsDBAoAAAAAAA==") [] = (Returned base64, tp)
    /\ base64 <> "".
Proof.
  destruct (X17_createFunction_never_sends_empty_code refusing_host 0
              (deploy timed_function false) [] scf
              (Some (createFunction_params refusing_host timed_function
                       "UEsDBAoAAAAAAA==" None)))
    as (base64 & tp & Hpack & Hne & _).
  - vm_compute. now left.
  - exists base64, tp. split; assumption.
Defined.

(** ** updateFunctionIncrementalCode *)

(** X18. An incremental update packages only when files are added, and
    then the added path alone, with an empty ignore list; a build that
    fails, or yields nothing, ends the call before any request.  Otherwise
    the call is one request, whose outcome is its own: it carries the
    files to delete when a list was given, and the added files when there
    are some. *)
Theorem X18_updateFunctionIncrementalCode_paths host param h :
  params_ok (ui_func param) None = true ->
  let base := incremental_base host param in
  let build := incremental_build param in
  (truthy_s (ui_addFiles param) = false ->
   updateFunctionIncrementalCode host param h
   = (match request_reply host h scf "UpdateFunctionIncrementalCode"
              (Some base) with
      | inl e => Thrown e
      | inr res => Returned res
      end,
      [Request scf "UpdateFunctionIncrementalCode" (Some base)])
   /\ obj_has base "AddFiles" = false)
  /\ (truthy_s (ui_addFiles param) = true ->
      match build_reply host h (Some (ui_functionRootPath param))
              (name (ui_func param)) [] (ui_addFiles param)
              (codeType_of (ui_func param)) with
      | inl e =>
          updateFunctionIncrementalCode host param h = (Thrown e, [build])
      | inr base64 =>
          if base64 =? "" then
            updateFunctionIncrementalCode host param h
            = (Thrown not_exist_error, [build])
          else
            updateFunctionIncrementalCode host param h
            = (match request_reply host (h ++ [build])
                       scf "UpdateFunctionIncrementalCode"
                       (Some (obj_set "AddFiles" (JStr base64) base)) with
               | inl e => Thrown e
               | inr res => Returned res
               end,
               [build;
                Request scf "UpdateFunctionIncrementalCode"
                  (Some (obj_set "AddFiles" (JStr base64) base))])
      end).
Proof.
  intros Hok base build.
  assert (Hrun : updateFunctionIncrementalCode host param h
                 = bind
                     (if truthy_s (ui_addFiles param) then
                        base64 <- packer_build host
                                    (Some (ui_functionRootPath param))
                                    (name (ui_func param)) []
                                    (ui_addFiles param)
                                    (codeType_of (ui_func param)) ;;
                        if negb (truthy (JStr base64))
                        then throw not_exist_error
                        else ret (obj_set "AddFiles" (JStr base64) base)
                      else ret base)
                     (fun params =>
                        request host scf "UpdateFunctionIncrementalCode"
                          (Some params)) h).
  { unfold updateFunctionIncrementalCode. unfold bind at 1.
    rewrite (validCreateParams_ok _ _ _ Hok). cbn [app].
    fold (incremental_base host param). fold base.
    destruct (bind _ _ (h ++ [])%list) as [o t] eqn:E.
    rewrite app_nil_r in E. now rewrite E. }
  split; intros Hadd.
  - split.
    + rewrite Hrun, Hadd. mrun. rewrite !app_nil_r. reflexivity.
    + unfold base, incremental_base.
      destruct (ui_deleteFiles param); [|reflexivity].
      now rewrite obj_has_set_other by discriminate.
  - destruct (build_reply host h _ _ _ _ _) as [e | base64] eqn:Hb.
    + rewrite Hrun, Hadd. mrun. now rewrite Hb.
    + destruct (base64 =? "") eqn:He; rewrite Hrun, Hadd; mrun;
        rewrite Hb; cbn [truthy]; rewrite He; cbn [negb]; mnorm;
        reflexivity.
Qed.

Lemma X18_updateFunctionIncrementalCode_paths_witness :
  updateFunctionIncrementalCode (scripted [reply_id "req-1"] (inr ""))
    patch []
  = (Thrown not_exist_error,
     [Build (Some "./functions") "f" [] (Some "lib") File])
  /\ updateFunctionIncrementalCode
       (scripted [reply_id "req-1"] (inr "UEsDBAoAAAAAAA==")) patch []
     = (Returned [("RequestId", JStr "req-1")],
        [Build (Some "./functions") "f" [] (Some "lib") File;
         Request scf "UpdateFunctionIncrementalCode"
           (Some [("FunctionName", JStr "f"); ("Namespace", JStr "env-1");
                  ("DeleteFiles", JArr [JStr "old.js"]);
                  ("AddFiles", JStr "UEsDBAoAAAAAAA==")])]).
Proof.
  split.
  - destruct (X18_updateFunctionIncrementalCode_paths
                (scripted [reply_id "req-1"] (inr "")) patch [] eq_refl)
      as [_ H].
    exact (H eq_refl).
  - destruct (X18_updateFunctionIncrementalCode_paths
                (scripted [reply_id "req-1"] (inr "UEsDBAoAAAAAAA=="))
                patch [] eq_refl) as [_ H].
    exact (H eq_refl).
Defined.

(** ** The layers *)

Lemma some_invalid_In runtimes :
  some_invalid runtimes = true ->
  exists r, In r runtimes /\ ~ In r validRuntime.
Proof.
  unfold some_invalid. intros H. apply existsb_exists in H as (r & Hr & Hn).
  exists r. split; [assumption|]. intros Hin.
  apply negb_true_iff in Hn. unfold includes in Hn.
  assert (existsb (fun y => y =? r) validRuntime = true)
    by (apply existsb_exists; exists r;
        split; [assumption | apply String.eqb_refl]).
  congruence.
Qed.

Lemma some_invalid_Forall runtimes :
  some_invalid runtimes = false -> Forall (fun r => In r validRuntime) runtimes.
Proof.
  unfold some_invalid. induction runtimes as [|r rs IH]; [constructor|].
  cbn [existsb]. intros H. apply orb_false_elim in H as [Hr Hrs].
  constructor; [|now apply IH].
  apply negb_false_iff in Hr. now apply includes_In.
Qed.

(** X20. The two listings of layers check the runtimes they are given
    before they ask anything: one runtime outside Nodejs8.9, Php7 and
    Java8 and nothing is sent.  Otherwise they make one request, which
    filters on runtimes exactly when some were given. *)
Theorem X20_layer_listings_check_runtimes host :
  (forall options h,
     (exists r,
        In r (runtimes_of (vl_runtimes options))
        /\ ~ In r ["Nodejs8.9"; "Php7"; "Java8"]
        /\ listLayerVersions host options h = (Thrown layer_runtime_error, []))
     \/ (Forall (fun r => In r ["Nodejs8.9"; "Php7"; "Java8"])
           (runtimes_of (vl_runtimes options))
         /\ exists param,
              snd (listLayerVersions host options h)
              = [Request scf "ListLayerVersions" (Some param)]
              /\ obj_get param "LayerName" = JStr (vl_name options)
              /\ obj_has param "CompatibleRuntime"
                 = has_runtimes (vl_runtimes options)
              /\ (has_runtimes (vl_runtimes options) = true ->
                  obj_get param "CompatibleRuntime"
                  = JArr (map JStr (runtimes_of (vl_runtimes options))))))
  /\ (forall options h,
        (exists r,
           ll_runtime options = Some r /\ r <> ""
           /\ ~ In r ["Nodejs8.9"; "Php7"; "Java8"]
           /\ listLayers host options h = (Thrown layer_runtime_error, []))
        \/ (exists param,
              snd (listLayers host options h)
              = [Request scf "ListLayers" (Some param)]
              /\ obj_has param "CompatibleRuntime"
                 = truthy_s (ll_runtime options)
              /\ (forall r,
                    ll_runtime options = Some r -> r <> "" ->
                    In r ["Nodejs8.9"; "Php7"; "Java8"]
                    /\ obj_get param "CompatibleRuntime" = JStr r))).
Proof.
  split; intros options h.
  - unfold listLayerVersions.
    destruct (vl_runtimes options) as [[|r0 rs]|] eqn:Hrs;
      cbn [has_runtimes runtimes_of].
    1,3: right; split; [constructor|]; eexists; split; [reflexivity|];
         repeat split; discriminate.
    destruct (some_invalid (r0 :: rs)) eqn:Hinv.
    + left. destruct (some_invalid_In _ Hinv) as (r & Hr & Hn).
      exists r. repeat split; assumption.
    + right. split; [now apply some_invalid_Forall|].
      eexists. split; [mrun; reflexivity|]. split; [|split].
      * now rewrite obj_get_set_other by discriminate.
      * now rewrite obj_has_set, String.eqb_refl.
      * intros _. apply obj_get_set_same.
  - unfold listLayers.
    destruct (ll_runtime options) as [r|] eqn:Hr; cbn [truthy_s or_s].
    2:{ right. eexists. split; [mrun; reflexivity|].
        split; [reflexivity | discriminate]. }
    destruct (String.eqb_spec r "") as [-> | Hne]; cbn [negb].
    { right. eexists. split; [mrun; reflexivity|].
      split; [reflexivity|]. intros r Hr' Hn. now injection Hr' as <-. }
    destruct (includes validRuntime r) eqn:Hin; cbn [negb].
    + right. eexists. split; [mrun; reflexivity|]. split.
      * now rewrite obj_has_set, String.eqb_refl.
      * intros r' Hr' _. injection Hr' as <-.
        split; [now apply includes_In | apply obj_get_set_same].
    + left. exists r. repeat split; try assumption.
      intros Hi. unfold includes in Hin.
      assert (existsb (fun y => y =? r) validRuntime = true)
        by (apply existsb_exists; exists r;
            split; [assumption | apply String.eqb_refl]).
      congruence.
Qed.

(** ** createLayer *)

Ltac lrun :=
  cbv beta iota zeta
    delta [bindL retL throwL local remote isDirectory checkPathExist delSync
           zipDir readFile request].

(** X21. [createLayer] checks the runtimes before anything else: with one
    runtime outside Nodejs8.9, Php7 and Java8 it touches neither the disk
    nor the platform.  With the content given in base64 it does not touch
    the disk either, whatever the content path says: it is the one request
    that publishes that content. *)
Theorem X21_createLayer_without_disk host machine options h :
  (some_invalid (runtimes_of (fl_runtimes options)) = true ->
   createLayer host machine options h = (Thrown layer_runtime_error, []))
  /\ (some_invalid (runtimes_of (fl_runtimes options)) = false ->
      forall base64,
        fl_base64Content options = Some base64 -> base64 <> "" ->
        createLayer host machine options h
        = (match request_reply host (remote_calls h) scf "PublishLayerVersion"
                   (Some (createLayer_params options base64)) with
           | inl e => Thrown e
           | inr res => Returned res
           end,
           [publish_call options base64])).
Proof.
  split.
  - intros Hinv. unfold createLayer. now rewrite Hinv.
  - intros Hok base64 Hb Hne. unfold createLayer. rewrite Hok, Hb.
    cbn [default_s truthy].
    destruct (String.eqb_spec base64 "") as [-> | _]; [contradiction|].
    cbn [negb]. lrun. rewrite app_nil_r.
    now destruct (request_reply host (remote_calls h) scf _ _).
Qed.

Lemma X21_createLayer_without_disk_witness :
  createLayer (scripted [] (inr "")) posix_machine
    (layer_of "./layer" ["Nodejs8.9"; "Python3.6"]) []
  = (Thrown layer_runtime_error, [])
  /\ createLayer (scripted [reply_id "req-1"] (inr "")) posix_machine
       inline_layer []
     = (Returned [("RequestId", JStr "req-1")],
        [Remote
           (Request scf "PublishLayerVersion"
              (Some [("LayerName", JStr "deps");
                     ("CompatibleRuntimes", JArr [JStr "Nodejs8.9"]);
                     ("Content", JObj [("ZipFile", JStr "UEsDBAoAAAAAAA==")]);
                     ("Description", JStr ""); ("LicenseInfo", JStr "")]))]).
Proof.
  split.
  - apply (X21_createLayer_without_disk (scripted [] (inr "")) posix_machine
             (layer_of "./layer" ["Nodejs8.9"; "Python3.6"]) []).
    reflexivity.
  - destruct (X21_createLayer_without_disk
                (scripted [reply_id "req-1"] (inr "")) posix_machine
                inline_layer []) as [_ H].
    apply (H eq_refl "UEsDBAoAAAAAAA==" eq_refl). discriminate.
Defined.

(** X22. When the runtimes are valid and no content is given in base64,
    a content path that is neither a directory nor a file whose extension
    is [.zip] is refused: [createLayer] has asked whether it is a
    directory, and does nothing more; the file is not read and nothing is
    published. *)
Theorem X22_createLayer_refuses_other_files host machine options h :
  let contentPath := default_s (fl_contentPath options) "" in
  some_invalid (runtimes_of (fl_runtimes options)) = false ->
  default_s (fl_base64Content options) "" = "" ->
  isDirectory_reply machine h contentPath = inr false ->
  path_extname machine contentPath <> ".zip" ->
  createLayer host machine options h
  = (Thrown zip_type_error, [Local (IsDirectory contentPath)]).
Proof.
  intros contentPath Hok Hb Hdir Hext. unfold createLayer.
  rewrite Hok, Hb. cbn [truthy String.eqb negb]. fold contentPath. lrun.
  rewrite Hdir.
  destruct (String.eqb_spec (path_extname machine contentPath) ".zip");
    [contradiction|].
  reflexivity.
Qed.

Lemma X22_createLayer_refuses_other_files_witness :
  createLayer (scripted [reply_id "req-1"] (inr "")) posix_machine
    (layer_of "./layer.tgz" ["Nodejs8.9"]) []
  = (Thrown zip_type_error, [Local (IsDirectory "./layer.tgz")]).
Proof.
  apply (X22_createLayer_refuses_other_files
           (scripted [reply_id "req-1"] (inr "")) posix_machine
           (layer_of "./layer.tgz" ["Nodejs8.9"]) []);
    try reflexivity.
  discriminate.
Defined.

Section Publish.

Variable host : Host.
Variable machine : Machine.

(** The request of [createLayer], when it makes one, and the calls on the
    disk before it. *)
Lemma createLayer_publishes options h c :
  let contentPath := default_s (fl_contentPath options) "" in
  In (Remote c) (snd (createLayer host machine options h)) ->
  exists way base64,
    In way (ways_to_publish contentPath (temp_zip machine contentPath))
    /\ snd (createLayer host machine options h)
       = (map Local way ++ [publish_call options base64])%list
    /\ Remote c = publish_call options base64.
Proof.
  intros contentPath. unfold createLayer, ways_to_publish, publish_call.
  fold contentPath.
  set (dest := temp_zip machine contentPath).
  destruct (some_invalid _); [intros []|].
  destruct (truthy (JStr (default_s (fl_base64Content options) ""))).
  { lrun. rewrite app_nil_r.
    destruct (request_reply host _ _ _ _); cbn [snd map app];
      (intros [Hc | []]; exists [], (default_s (fl_base64Content options) "");
       split; [now left | split; [reflexivity | now rewrite Hc]]). }
  lrun.
  destruct (isDirectory_reply machine h contentPath) as [e | [|]];
    [intros [Hc | []]; discriminate Hc| |].
  - (* a directory *)
    destruct (checkPathExist_reply machine _ dest) as [e | exist];
      [cbn; intros Hc; decompose [or] Hc; try discriminate; contradiction|].
    destruct exist.
    + destruct (delSync_reply machine _ dest) as [e | []];
        [cbn; intros Hc; decompose [or] Hc; try discriminate; contradiction|].
      mnorm.
      destruct (zipDir_reply machine _ contentPath dest) as [e | []];
        [cbn; intros Hc; decompose [or] Hc; try discriminate; contradiction|].
      mnorm.
      destruct (readFile_reply machine _ dest) as [e | base64];
        [cbn; intros Hc; decompose [or] Hc; try discriminate; contradiction|].
      mnorm.
      destruct (delSync_reply machine _ dest) as [e | []];
        [cbn; intros Hc; decompose [or] Hc; try discriminate; contradiction|].
      mnorm.
      destruct (request_reply host _ _ _ _); cbn [snd map app];
        (intros Hc; cbn [snd In app] in Hc; decompose [or] Hc;
         try discriminate; try contradiction;
         eexists _, base64; split; [do 3 right; left; reflexivity|];
         split; [reflexivity | congruence]).
    + mnorm.
      destruct (zipDir_reply machine _ contentPath dest) as [e | []];
        [cbn; intros Hc; decompose [or] Hc; try discriminate; contradiction|].
      mnorm.
      destruct (readFile_reply machine _ dest) as [e | base64];
        [cbn; intros Hc; decompose [or] Hc; try discriminate; contradiction|].
      mnorm.
      destruct (delSync_reply machine _ dest) as [e | []];
        [cbn; intros Hc; decompose [or] Hc; try discriminate; contradiction|].
      mnorm.
      destruct (request_reply host _ _ _ _); cbn [snd map app];
        (intros Hc; cbn [snd In app] in Hc; decompose [or] Hc;
         try discriminate; try contradiction;
         eexists _, base64; split; [do 2 right; left; reflexivity|];
         split; [reflexivity | congruence]).
  - (* a file *)
    destruct (negb (path_extname machine contentPath =? ".zip"));
      [cbn; intros Hc; decompose [or] Hc; try discriminate; contradiction|].
    destruct (readFile_reply machine _ contentPath) as [e | base64];
      [cbn; intros Hc; decompose [or] Hc; try discriminate; contradiction|].
    mnorm.
    destruct (request_reply host _ _ _ _); cbn [snd map app];
      (intros Hc; cbn [snd In app] in Hc; decompose [or] Hc;
         try discriminate; try contradiction;
       eexists _, base64; split; [right; left; reflexivity|];
       split; [reflexivity | congruence]).
Qed.

End Publish.

(** X23. [createLayer] makes at most one request, the last thing it does,
    and there are four ways to it.  Before the request the disk has seen
    nothing (content given), or the reading of the file, or the archiving
    of the directory into the temporary file of the working directory,
    which has been read and deleted again: no request is made while the
    temporary file is there. *)
Theorem X23_createLayer_ways_to_publish host machine options h c :
  let contentPath := default_s (fl_contentPath options) "" in
  In (Remote c) (snd (createLayer host machine options h)) ->
  exists way base64,
    In way (ways_to_publish contentPath (temp_zip machine contentPath))
    /\ snd (createLayer host machine options h)
       = (map Local way ++ [publish_call options base64])%list
    /\ Remote c = publish_call options base64.
Proof.
  intros contentPath Hin.
  destruct (createLayer_publishes host machine options h c Hin)
    as (way & base64 & Hway & Hrun & Hc).
  exists way, base64. repeat split; assumption.
Qed.

Lemma X23_createLayer_ways_to_publish_witness :
  exists way base64,
    In way (ways_to_publish "./layer" "/work/temp-layer.zip")
    /\ snd (createLayer (scripted [reply_id "req-1"] (inr "")) posix_machine
              (layer_of "./layer" ["Nodejs8.9"]) [])
       = (map Local way
            ++ [publish_call (layer_of "./layer" ["Nodejs8.9"]) base64])%list
    /\ way = [IsDirectory "./layer"; CheckPathExist "/work/temp-layer.zip";
              DelSync "/work/temp-layer.zip";
              ZipDir "./layer" "/work/temp-layer.zip";
              ReadFile "/work/temp-layer.zip";
              DelSync "/work/temp-layer.zip"].
Proof.
  destruct (X23_createLayer_ways_to_publish
              (scripted [reply_id "req-1"] (inr "")) posix_machine
              (layer_of "./layer" ["Nodejs8.9"]) []
              (Request scf "PublishLayerVersion"
                 (Some (createLayer_params (layer_of "./layer" ["Nodejs8.9"])
                          "UEsDBAoAAAAAAA=="))))
    as (way & base64 & Hin & Hrun & _).
  - vm_compute. tauto.
  - exists way, base64. split; [exact Hin|]. split; [exact Hrun|].
    vm_compute in Hrun.
    cbn [ways_to_publish In] in Hin.
    decompose [or] Hin; try contradiction; subst way;
      try (vm_compute in Hrun; discriminate Hrun).
    reflexivity.
Defined.

(** X24. [createLayer] has no clean-up of its own when it fails.  When
    the runtimes are valid, no content is given in base64 and the content
    path is a directory: if the archive of the directory was written (a
    temporary file left from before, if there was one, having been deleted
    first) and cannot be read back, the call throws the error of the
    reading, and the writing of the archive and its reading are the last
    things it does: the file it wrote stays where it was written. *)
Theorem X24_createLayer_leaves_archive host machine options h e exist :
  let contentPath := default_s (fl_contentPath options) "" in
  let dest := temp_zip machine contentPath in
  let looked := [Local (IsDirectory contentPath);
                 Local (CheckPathExist dest)] in
  let cleared := if exist : bool then [Local (DelSync dest)] else [] in
  some_invalid (runtimes_of (fl_runtimes options)) = false ->
  default_s (fl_base64Content options) "" = "" ->
  isDirectory_reply machine h contentPath = inr true ->
  checkPathExist_reply machine
    (h ++ [Local (IsDirectory contentPath)]) dest = inr exist ->
  (exist = true -> delSync_reply machine (h ++ looked) dest = inr tt) ->
  zipDir_reply machine (h ++ looked ++ cleared) contentPath dest = inr tt ->
  readFile_reply machine
    (h ++ looked ++ cleared ++ [Local (ZipDir contentPath dest)]) dest
  = inl e ->
  createLayer host machine options h
  = (Thrown e,
     (looked ++ cleared
        ++ [Local (ZipDir contentPath dest); Local (ReadFile dest)])%list)
  /\ (forall before after,
        snd (createLayer host machine options h)
        = (before ++ Local (ZipDir contentPath dest) :: after)%list ->
        after = [Local (ReadFile dest)]).
Proof.
  intros contentPath dest looked cleared Hok Hb Hdir Hex Hdel Hzip Hread.
  assert (Hrun : createLayer host machine options h
                 = (Thrown e,
                    (looked ++ cleared
                       ++ [Local (ZipDir contentPath dest);
                           Local (ReadFile dest)])%list)).
  { unfold createLayer. rewrite Hok, Hb. cbn [truthy String.eqb negb].
    fold contentPath. fold dest. lrun. rewrite Hdir, Hex. mnorm.
    unfold looked, cleared in *. destruct exist; cbn [app] in *.
    - rewrite (Hdel eq_refl). mnorm. rewrite Hzip. mnorm.
      now rewrite Hread.
    - mnorm. rewrite Hzip. mnorm. now rewrite Hread. }
  split; [exact Hrun|]. rewrite Hrun. cbn [snd].
  intros before after E. unfold looked, cleared in E.
  assert (Hone : forall l pre post x,
             (l ++ [Local (ZipDir contentPath dest); x])%list
             = (pre ++ Local (ZipDir contentPath dest) :: post)%list ->
             ~ In (Local (ZipDir contentPath dest)) l ->
             x <> Local (ZipDir contentPath dest) ->
             post = [x]).
  { induction l as [|c l IH]; intros pre post x El Hn Hx.
    - destruct pre as [|c0 pre]; cbn [app] in El.
      + now injection El as <-.
      + injection El as <- El. destruct pre as [|c1 pre]; cbn [app] in El.
        * injection El as El _. now elim Hx.
        * injection El as _ El. now destruct pre.
    - destruct pre as [|c0 pre]; cbn [app] in El.
      + injection El as -> _. elim Hn. now left.
      + injection El as _ El. apply (IH pre post x El); [|exact Hx].
        intros Hin. apply Hn. now right. }
  destruct exist; cbn [app] in E.
  - apply (Hone [Local (IsDirectory contentPath);
                 Local (CheckPathExist dest); Local (DelSync dest)]
             before after (Local (ReadFile dest)) E); [|discriminate].
    cbn. intros H. decompose [or] H; try discriminate; contradiction.
  - apply (Hone [Local (IsDirectory contentPath);
                 Local (CheckPathExist dest)]
             before after (Local (ReadFile dest)) E); [|discriminate].
    cbn. intros H. decompose [or] H; try discriminate; contradiction.
Qed.

(** With no temporary file left from before, and with one. *)
Lemma X24_createLayer_leaves_archive_witness :
  createLayer (scripted [reply_id "req-1"] (inr "")) locked_machine
    (layer_of "./layer" ["Nodejs8.9"]) []
  = (Thrown unreadable,
     [Local (IsDirectory "./layer");
      Local (CheckPathExist "/work/temp-layer.zip");
      Local (ZipDir "./layer" "/work/temp-layer.zip");
      Local (ReadFile "/work/temp-layer.zip")])
  /\ createLayer (scripted [reply_id "req-1"] (inr "")) stale_machine
       (layer_of "./layer" ["Nodejs8.9"]) []
     = (Thrown unreadable,
        [Local (IsDirectory "./layer");
         Local (CheckPathExist "/work/temp-layer.zip");
         Local (DelSync "/work/temp-layer.zip");
         Local (ZipDir "./layer" "/work/temp-layer.zip");
         Local (ReadFile "/work/temp-layer.zip")]).
Proof.
  split.
  - exact (proj1 (X24_createLayer_leaves_archive
                    (scripted [reply_id "req-1"] (inr "")) locked_machine
                    (layer_of "./layer" ["Nodejs8.9"]) [] unreadable false
                    eq_refl eq_refl eq_refl eq_refl (fun _ => eq_refl)
                    eq_refl eq_refl)).
  - exact (proj1 (X24_createLayer_leaves_archive
                    (scripted [reply_id "req-1"] (inr "")) stale_machine
                    (layer_of "./layer" ["Nodejs8.9"]) [] unreadable true
                    eq_refl eq_refl eq_refl eq_refl (fun _ => eq_refl)
                    eq_refl eq_refl)).
Defined.

(** ** class CloudBase *)

(** X25. [CloudBase.init] keeps the first instance it could build: every
    later call returns that instance, whatever configuration it is given,
    be it one the constructor refuses.  An [init] that fails keeps
    nothing, and the credentials it is given are looked at before the
    manager is built: one of [secretId] and [secretKey] without the
    other is refused whatever the manager would say. *)
Theorem X25_init_keeps_first_instance (Manager : Type)
  (new_manager : CloudBaseConfig -> string -> JsError + Manager) :
  (forall config app slot other,
     init Manager new_manager config None = (inr app, slot) ->
     slot = Some app
     /\ getManagerConfig Manager app = config
     /\ truthy_s (secretId config) = truthy_s (secretKey config)
     /\ init Manager new_manager other slot = (inr app, slot))
  /\ (forall config e slot,
        init Manager new_manager config None = (inl e, slot) -> slot = None)
  /\ (forall config,
        truthy_s (secretId config) <> truthy_s (secretKey config) ->
        init Manager new_manager config None = (inl pair_error, None)).
Proof.
  split; [|split].
  - intros config app slot other. unfold init, new_CloudBase.
    destruct (truthy_s (secretId config)), (truthy_s (secretKey config));
      cbn [andb orb negb]; try discriminate;
      (destruct (new_manager _ _) as [e | m]; [discriminate|]);
      intros H; inversion H; subst; cbn;
      (repeat split; now destruct config).
  - intros config e slot. unfold init.
    destruct (new_CloudBase _ _ _); intros H; now inversion H.
  - intros config Hne. unfold init, new_CloudBase.
    destruct (truthy_s (secretId config)), (truthy_s (secretKey config));
      cbn [andb orb negb]; congruence.
Qed.

Lemma X25_init_keeps_first_instance_witness :
  let app := {| cloudBaseConfig := credentials (Some "id") (Some "key");
                environmentManager := ["env-1"] |} in
  init (list string) list_manager (credentials (Some "id") None) (Some app)
  = (inr app, Some app)
  /\ init (list string) list_manager (credentials (Some "id") (Some ""))
       None
     = (inl pair_error, None).
Proof.
  intros app.
  destruct (X25_init_keeps_first_instance (list string) list_manager)
    as (Hfirst & _ & Hpair).
  split.
  - apply (Hfirst (credentials (Some "id") (Some "key")) app (Some app)
             (credentials (Some "id") None)).
    reflexivity.
  - apply Hpair. discriminate.
Defined.

(** ** The failures of a status check *)

Section StatusFailures.

Variable host : Host.

Lemma getFunctionDetail_thrown funcName codeSecret h e t :
  getFunctionDetail host funcName codeSecret h = (Thrown e, t) ->
  request_reply host h scf "GetFunction"
    (Some (getFunctionDetail_params host funcName codeSecret)) = inl e
  /\ t = [detail_call host funcName codeSecret].
Proof.
  unfold getFunctionDetail, getVpcs, getSubnets, detail_call. mrun.
  destruct (request_reply host h scf "GetFunction" _) as [e0 | res].
  { intros H. inversion H; subst. now split. }
  destruct (truthy (VpcId_of (pick_validKeys res))
            && truthy (SubnetId_of (pick_validKeys res))); [|discriminate].
  repeat match goal with
  | |- context [request_reply host ?hh vpcsvc ?a ?d] =>
      destruct (request_reply host hh vpcsvc a d); mnorm
  | |- context [array_find ?k ?x ?v ?hh] =>
      let o := fresh "o" in let Ho := fresh "Ho" in
      destruct (array_find_pure k x v hh) as (o & -> & Ho);
      destruct o; [| | contradiction]; mnorm
  end; discriminate.
Qed.

End StatusFailures.

(** X26. [getFunctionDetail] throws for one reason only, the failure of
    its status request, whose error it throws as it is.  Nothing that
    goes wrong in the VPC lookup comes out of it: neither a query that
    fails, nor a reply whose list is missing or holds a [null]. *)
Theorem X26_getFunctionDetail_throws_status_error_only host funcName
  codeSecret h :
  let params := getFunctionDetail_params host funcName codeSecret in
  match request_reply host h scf "GetFunction" (Some params) with
  | inl e =>
      getFunctionDetail host funcName codeSecret h
      = (Thrown e, [Request scf "GetFunction" (Some params)])
  | inr res =>
      exists detail t,
        getFunctionDetail host funcName codeSecret h = (Returned detail, t)
  end.
Proof.
  intros params.
  destruct (request_reply host h scf "GetFunction" (Some params))
    as [e | res] eqn:Hres.
  - unfold getFunctionDetail. mrun. fold params. now rewrite Hres.
  - destruct (getFunctionDetail host funcName codeSecret h) as [[d | e |] t]
      eqn:Hrun.
    + now exists d, t.
    + destruct (getFunctionDetail_thrown host _ _ _ _ _ Hrun) as [Hr _].
      fold params in Hr. congruence.
    + destruct (getFunctionDetail_one_check host _ _ _ _ _ Hrun)
        as (_ & _ & Ho). now elim Ho.
Qed.

(** X27. The wait for activation throws for that reason only: a status
    request that fails.  The failed request is the last call of the wait,
    which does not pause after it, and what is thrown is the error of the
    platform as it is. *)
Theorem X27_waitFunctionActive_fails_on_status_request host fuel funcName
  h e t :
  waitFunctionActive host fuel funcName h = (Thrown e, t) ->
  exists before,
    t = (before ++ [detail_call host funcName None])%list
    /\ request_reply host (h ++ before)%list scf "GetFunction"
         (Some (getFunctionDetail_params host funcName None)) = inl e.
Proof.
  revert h e t.
  induction fuel as [|fuel IH]; intros h e t; [discriminate|].
  cbn [waitFunctionActive]. unfold bind at 1.
  destruct (getFunctionDetail host funcName None h) as [[detail | e0 |] t0]
    eqn:Hd; try discriminate.
  2:{ intros H. inversion H; subst.
      destruct (getFunctionDetail_thrown host _ _ _ _ _ Hd) as [Hr ->].
      exists []. now rewrite app_nil_r. }
  unfold bind at 1. unfold sleep at 1.
  destruct (is_transient host (obj_get detail "Status")); [|discriminate].
  destruct (waitFunctionActive host fuel funcName _) as [[[] | e1 |] t1]
    eqn:Hw; try discriminate.
  intros H. inversion H; subst.
  destruct (IH _ _ _ Hw) as (before & -> & Hr).
  exists (t0 ++ Sleep 1000 :: before)%list. split.
  - now rewrite <- !app_assoc.
  - rewrite <- Hr. f_equal. now rewrite <- !app_assoc.
Qed.

Lemma X27_waitFunctionActive_fails_on_status_request_witness :
  exists before,
    [get_call "f"; Sleep 1000; get_call "f"]
    = (before ++ [get_call "f"])%list
    /\ request_reply
         (scripted [status_reply "Creating"; busy "req-2"] (inr ""))
         before scf "GetFunction"
         (Some [("FunctionName", JStr "f"); ("Namespace", JStr "env-1");
                ("ShowCode", JStr "TRUE")])
       = inl (busy_error "req-2").
Proof.
  apply (X27_waitFunctionActive_fails_on_status_request
           (scripted [status_reply "Creating"; busy "req-2"] (inr ""))
           5 "f" [] (busy_error "req-2")
           [get_call "f"; Sleep 1000; get_call "f"]).
  reflexivity.
Defined.

(** ** Creating and deleting triggers *)

(** X28. What [deleteFunctionTrigger] asks to delete is a trigger as
    [createFunctionTriggers] creates them: for every trigger of a list the
    platform was asked to create, the deletion by its name names the same
    function, namespace, trigger and type. *)
Theorem X28_triggers_created_are_deletable host funcName ts h h' o data
  item :
  createFunctionTriggers host funcName (Some ts) h
  = (o, [Request scf "BatchCreateTrigger" data]) ->
  In item ts ->
  exists created removal,
    data = Some created
    /\ snd (deleteFunctionTrigger host funcName (trigger_name item) h')
       = [Request scf "DeleteTrigger" (Some removal)]
    /\ obj_get removal "FunctionName" = obj_get created "FunctionName"
    /\ obj_get removal "Namespace" = obj_get created "Namespace"
    /\ obj_get removal "TriggerName"
       = js_get (parsed_trigger item) "TriggerName"
    /\ obj_get removal "Type" = js_get (parsed_trigger item) "Type"
    /\ obj_get created "Triggers"
       = JStr (JSON_stringify host (JArr (map parsed_trigger ts))).
Proof.
  intros Hrun Hin.
  destruct (forallb is_timer ts) eqn:Htimers.
  - destruct ts as [|t0 ts']; [contradiction|].
    rewrite (createFunctionTriggers_all_timers host funcName h t0 ts'
               Htimers) in Hrun. injection Hrun as _ <-.
    eexists _, _. split; [reflexivity|]. split; [reflexivity|].
    rewrite forallb_forall in Htimers. specialize (Htimers _ Hin).
    unfold is_timer in Htimers. apply String.eqb_eq in Htimers.
    cbn. now rewrite Htimers.
  - exfalso. revert Hrun. unfold createFunctionTriggers.
    destruct ts as [|t0 ts']; [contradiction|].
    destruct (parseTriggers (t0 :: ts')) as [e | parsed] eqn:Hp;
      [discriminate|].
    assert (Hall : forallb is_timer (t0 :: ts') = true).
    { clear -Hp. revert parsed Hp.
      generalize (t0 :: ts') as l. induction l as [|a l IH]; [reflexivity|].
      cbn [parseTriggers forallb]. unfold is_timer at 1.
      destruct (trigger_type a =? "timer"); cbn [negb]; [|discriminate].
      destruct (parseTriggers l) as [e | p]; [discriminate|].
      intros parsed _. now rewrite (IH p). }
    congruence.
Qed.

Lemma X28_triggers_created_are_deletable_witness :
  exists created removal,
    Some [("FunctionName", JStr "f"); ("Namespace", JStr "env-1");
          ("Triggers", JStr "[...]"); ("Count", JNum 1)] = Some created
    /\ snd (deleteFunctionTrigger (scripted [reply_id "req-1"] (inr "")) "f"
              "tick" [])
       = [Request scf "DeleteTrigger" (Some removal)]
    /\ obj_get removal "TriggerName" = JStr "tick"
    /\ obj_get removal "Type" = JStr "timer".
Proof.
  destruct (X28_triggers_created_are_deletable
              (scripted [reply_id "req-1"] (inr "")) "f" [timer] [] []
              (Returned (JObj [("RequestId", JStr "req-1")]))
              (Some [("FunctionName", JStr "f"); ("Namespace", JStr "env-1");
                     ("Triggers", JStr "[...]"); ("Count", JNum 1)])
              timer eq_refl (or_introl eq_refl))
    as (created & removal & Hc & Hd & _ & _ & Hn & Ht & _).
  exists created, removal. repeat split; assumption.
Defined.

(** ** The namespace of a request *)

Lemma namespaced_one host action params :
  obj_get params "Namespace" = JStr (namespace host) ->
  namespaced host [Request scf action (Some params)].
Proof.
  intros Hn a d [H | []]. injection H as _ <-. now exists params.
Qed.

Lemma namespaced_nil host : namespaced host [].
Proof. intros a d []. Qed.

Lemma unscoped_one service action params :
  obj_has params "Namespace" = false ->
  unscoped [Request service action (Some params)].
Proof.
  intros Hn s a d [H | []]. injection H as _ _ <-. now exists params.
Qed.

Lemma unscoped_nil : unscoped [].
Proof. intros s a d []. Qed.

Ltac one_call :=
  match goal with
  | |- namespaced _ (snd (match ?r with _ => _ end, _)) => cbn [snd]
  | |- unscoped (snd (match ?r with _ => _ end, _)) => cbn [snd]
  | |- context [request_reply ?ho ?h ?s ?a ?d] =>
      destruct (request_reply ho h s a d); cbn [snd app]
  end.

(** X29. Functions live in the namespace of the current environment and
    layers in none: every request to the function service made by the
    listing, the deletion, the logs, the invocation, the copy, the
    download address, the status and the updates of a function, and by
    the creation and the deletion of its triggers, names the namespace of
    the current environment, and no request of a method on layers names
    any. *)
Theorem X29_functions_are_namespaced_layers_are_not host h :
  (forall limit offset,
     namespaced host (snd (listFunctions host limit offset h)))
  /\ (forall funcName, namespaced host (snd (deleteFunction host funcName h)))
  /\ (forall options, namespaced host (snd (getFunctionLogs host options h)))
  /\ (forall funcName params,
        namespaced host (snd (invokeFunction host funcName params h)))
  /\ (forall funcName newName target force,
        namespaced host
          (snd (copyFunction host funcName newName target force h)))
  /\ (forall funcName triggerName,
        namespaced host
          (snd (deleteFunctionTrigger host funcName triggerName h)))
  /\ (forall funcName codeSecret,
        namespaced host
          (snd (getFunctionDownloadUrl host funcName codeSecret h)))
  /\ (forall funcName codeSecret,
        namespaced host (snd (getFunctionDetail host funcName codeSecret h)))
  /\ (forall funcName ts,
        namespaced host (snd (createFunctionTriggers host funcName ts h)))
  /\ (forall func, namespaced host (snd (updateFunctionConfig host func h)))
  /\ (forall param,
        namespaced host (snd (updateFunctionIncrementalCode host param h)))
  /\ (forall options, unscoped (snd (deleteLayerVersion host options h)))
  /\ (forall options, unscoped (snd (getLayerVersion host options h)))
  /\ (forall options, unscoped (snd (listLayerVersions host options h)))
  /\ (forall options, unscoped (snd (listLayers host options h)))
  /\ (forall machine options hl,
        unscoped (remote_calls (snd (createLayer host machine options hl)))).
Proof.
  repeat split.
  - intros limit offset. unfold listFunctions. mrun.
    destruct (request_reply host h scf "ListFunctions" _) as [e | res];
      cbn [snd]; [now apply namespaced_one|].
    destruct (with_default (obj_get res "Functions") (JArr []));
      try (cbn [snd app]; now apply namespaced_one).
    destruct (listFunctions_forEach items []);
      cbn [snd app]; now apply namespaced_one.
  - intros funcName. now apply namespaced_one.
  - intros options. now apply namespaced_one.
  - intros funcName params. unfold invokeFunction.
    assert (Hn : forall v,
               obj_get (invokeFunction_params host funcName v) "Namespace"
               = JStr (namespace host))
      by (intros v; unfold invokeFunction_params; now through_sets).
    destruct params as [v | [|] refusal]; mrun;
      [| apply namespaced_nil |];
      rewrite app_nil_r;
      destruct (request_reply host h scf "Invoke" _); cbn [snd app];
      now apply namespaced_one.
  - intros funcName newName target force. unfold copyFunction.
    destruct (_ || _); [apply namespaced_nil | now apply namespaced_one].
  - intros funcName triggerName. now apply namespaced_one.
  - intros funcName codeSecret. unfold getFunctionDownloadUrl. mrun.
    assert (Hn : obj_get (getFunctionDownloadUrl_params host funcName
                            codeSecret) "Namespace" = JStr (namespace host))
      by (unfold getFunctionDownloadUrl_params; now through_sets).
    destruct (request_reply host h scf "GetFunctionAddress" _);
      cbn [snd app]; now apply namespaced_one.
  - intros funcName codeSecret.
    assert (Hn : obj_get (getFunctionDetail_params host funcName codeSecret)
                   "Namespace" = JStr (namespace host))
      by (unfold getFunctionDetail_params; now through_sets).
    destruct (getFunctionDetail_trace host funcName codeSecret h)
      as (o & _ & [-> | [-> | [d ->]]]); cbn [snd];
      intros a dd Hin; cbn [In] in Hin;
      decompose [or] Hin; try discriminate; try contradiction;
      match goal with
      | H : Request _ _ _ = Request _ _ _ |- _ => injection H as _ <-
      end; now eexists.
  - intros funcName ts.
    destruct ts as [[|item ts]|]; try apply namespaced_nil.
    unfold createFunctionTriggers.
    destruct (parseTriggers (item :: ts)); [apply namespaced_nil|].
    mrun. destruct (request_reply host h scf "BatchCreateTrigger" _);
      cbn [snd app]; now apply namespaced_one.
  - intros func. apply namespaced_one.
    unfold updateFunctionConfig_params.
    rewrite obj_get_set_if_other by discriminate.
    destruct (installDependency func);
      rewrite ?obj_get_set_other by discriminate;
      rewrite obj_get_set_if_other by discriminate;
      rewrite obj_get_set_other by discriminate;
      rewrite obj_get_set_if_other by discriminate;
      (destruct (timeout func);
       [rewrite obj_get_set_if_other by discriminate|]);
      now rewrite obj_get_set_if_other by discriminate.
  - intros param. unfold updateFunctionIncrementalCode. unfold bind at 1.
    destruct (validCreateParams (ui_func param) None h) as [[[] | e |] t0]
      eqn:Hv; cbn [snd].
    2,3: unfold validCreateParams in Hv;
         repeat match type of Hv with
         | (if ?c then _ else _) _ = _ => destruct c
         end; inversion Hv; apply namespaced_nil.
    assert (Ht0 : t0 = []).
    { unfold validCreateParams in Hv.
      repeat match type of Hv with
      | (if ?c then _ else _) _ = _ => destruct c
      end; now inversion Hv. }
    subst t0. rewrite app_nil_r. fold (incremental_base host param).
    assert (Hb : obj_get (incremental_base host param) "Namespace"
                 = JStr (namespace host)).
    { unfold incremental_base. destruct (ui_deleteFiles param);
        [now rewrite obj_get_set_other by discriminate | reflexivity]. }
    destruct (truthy_s (ui_addFiles param)); mrun.
    + destruct (build_reply host h _ _ _ _ _) as [e | base64];
        [intros a d [H | []]; discriminate H|].
      destruct (negb (truthy (JStr base64)));
        [intros a d [H | []]; discriminate H|].
      mnorm.
      destruct (request_reply host _ scf _ _); cbn [snd app];
        (intros a d Hin; cbn [In] in Hin;
         decompose [or] Hin; try discriminate; try contradiction;
         match goal with
         | H : Request _ _ _ = Request _ _ _ |- _ => injection H as _ <-
         end; eexists; split; [reflexivity|];
         now rewrite obj_get_set_other by discriminate).
    + destruct (request_reply host _ scf _ _); cbn [snd app];
        now apply namespaced_one.
  - intros options. now apply unscoped_one.
  - intros options. now apply unscoped_one.
  - intros options. unfold listLayerVersions.
    destruct (has_runtimes (vl_runtimes options)).
    + destruct (some_invalid _); mrun; [apply unscoped_nil|].
      destruct (request_reply host _ scf _ _); cbn [snd app];
        apply unscoped_one; now rewrite obj_has_set_other by discriminate.
    + mrun. destruct (request_reply host _ scf _ _); cbn [snd app];
        now apply unscoped_one.
  - intros options. unfold listLayers.
    destruct (truthy_s (ll_runtime options)).
    + destruct (negb _); mrun; [apply unscoped_nil|].
      destruct (request_reply host _ scf _ _); cbn [snd app];
        apply unscoped_one; now rewrite obj_has_set_other by discriminate.
    + mrun. destruct (request_reply host _ scf _ _); cbn [snd app];
        now apply unscoped_one.
  - intros machine options hl s a d Hin.
    assert (Hr : In (Remote (Request s a d))
                   (snd (createLayer host machine options hl))).
    { revert Hin. generalize (snd (createLayer host machine options hl)).
      induction l as [|[c | c] l IH]; cbn [remote_calls In]; [tauto | |].
      - intros [-> | H]; [now left | right; now apply IH].
      - intros H. right. now apply IH. }
    destruct (createLayer_publishes host machine options hl _ Hr)
      as (way & base64 & _ & _ & Heq).
    unfold publish_call in Heq. injection Heq as -> -> ->. now eexists.
Qed.

(** ** The errors of updateFunctionCode *)

(** A wait that throws throws the error of its last status request. *)
Lemma waitFunctionActive_thrown host funcName fuel : forall h e t,
  waitFunctionActive host fuel funcName h = (Thrown e, t) ->
  exists before,
    t = (before ++ [detail_call host funcName None])%list
    /\ request_reply host (h ++ before)%list scf "GetFunction"
         (Some (getFunctionDetail_params host funcName None)) = inl e.
Proof.
  induction fuel as [|fuel IH]; intros h e t; [discriminate|].
  cbn [waitFunctionActive]. unfold bind at 1.
  destruct (getFunctionDetail host funcName None h) as [[detail | e0 |] t0]
    eqn:Hd; try discriminate.
  2:{ intros H. inversion H; subst.
      destruct (getFunctionDetail_thrown host _ _ _ _ _ Hd) as [Hr ->].
      exists []. now rewrite app_nil_r. }
  unfold bind at 1. unfold sleep at 1.
  destruct (is_transient host (obj_get detail "Status")); [|discriminate].
  destruct (waitFunctionActive host fuel funcName _) as [[[] | e1 |] t1]
    eqn:Hw; try discriminate.
  intros H. inversion H; subst.
  destruct (IH _ _ _ Hw) as (before & -> & Hr).
  exists (t0 ++ Sleep 1000 :: before)%list. split.
  - now rewrite <- !app_assoc.
  - rewrite <- Hr. f_equal. now rewrite <- !app_assoc.
Qed.

(** X19. Once [updateFunctionCode] has sent its request, whatever makes it
    throw is the last request of its trace, which the platform refused:
    the code-update request itself, or a status request of the wait that
    follows.  The error thrown is built from the error of that refusal:
    the function name and the message of the refusal, its code, and no
    request id.  What is thrown before the request is thrown with nothing
    in the trace but builds of the packer. *)
Theorem X19_updateFunctionCode_error_loses_request_id host fuel param h e
  t :
  updateFunctionCode host fuel param h = (Thrown e, t) ->
  (count_action "UpdateFunctionCode" t = 0
   /\ Forall (fun c => call_kind c = KBuild) t)
  \/ (exists cause before action data,
        t = (before ++ [Request scf action data])%list
        /\ request_reply host (h ++ before)%list scf action data = inl cause
        /\ (action = "UpdateFunctionCode" \/ action = "GetFunction")
        /\ message e
           = "[" ++ name (uc_func param) ++ "] 函数代码更新失败： "
               ++ message cause
        /\ code e = code cause
        /\ requestId e = None
        /\ count_action "UpdateFunctionCode" t = 1).
Proof.
  unfold updateFunctionCode. unfold bind at 1.
  destruct (params_ok (uc_func param) None) eqn:Hok.
  2:{ destruct (validCreateParams_rejects (uc_func param) None h Hok)
        as [e0 ->].
      intros H. inversion H; subst. left. split; [reflexivity | constructor]. }
  rewrite (validCreateParams_ok _ _ _ Hok). unfold bind at 1.
  rewrite app_nil_r.
  pose proof (builds_only host (uc_functionRootPath param) (uc_func param)
                (uc_base64Code param) h) as Htp.
  destruct (package_code host _ _ _ h) as [[base64 | e0 |] tp];
    cbn [snd app] in *; try discriminate.
  2:{ intros H. inversion H; subst. left. split; [|exact Htp].
      apply (count_action_none _ [KBuild]).
      - eapply Forall_impl; [|exact Htp]. intros c ->. now left.
      - intros [Hk | []]. discriminate. }
  unfold try_catch. unfold bind at 1. unfold request at 1.
  assert (Hb : count_action "UpdateFunctionCode" tp = 0).
  { apply (count_action_none _ [KBuild]).
    - eapply Forall_impl; [|exact Htp]. intros c ->. now left.
    - intros [Hk | []]. discriminate. }
  set (update := Some (updateFunctionCode_params host (uc_func param) base64
                         (uc_codeSecret param))).
  destruct (request_reply host (h ++ tp)%list scf "UpdateFunctionCode" update)
    as [e0 | res] eqn:Hr.
  - mrun. intros H. inversion H; subst. right.
    exists e0, tp, "UpdateFunctionCode", update.
    split; [now rewrite ?app_nil_r|]. split; [exact Hr|].
    split; [now left|]. repeat split.
    rewrite ?app_nil_r, count_action_app, Hb. reflexivity.
  - unfold bind at 1.
    destruct (truthy (JStr (installDependency_of (uc_func param)))
              && isWaitInstall_true (uc_func param)).
    2:{ mrun. discriminate. }
    destruct (waitFunctionActive host fuel (name (uc_func param)) _)
      as [[[] | e' |] w] eqn:Hw; mrun; try discriminate.
    intros H. inversion H; subst. right.
    pose proof (emits_waitFunctionActive host fuel (name (uc_func param))
                  ((h ++ tp) ++ [Request scf "UpdateFunctionCode" update])%list)
      as Hkinds.
    rewrite Hw in Hkinds. cbn [snd] in Hkinds.
    destruct (waitFunctionActive_thrown _ _ _ _ _ _ Hw)
      as (before & -> & Hcause).
    exists e', (tp ++ Request scf "UpdateFunctionCode" update :: before)%list,
      "GetFunction",
      (Some (getFunctionDetail_params host (name (uc_func param)) None)).
    split.
    { rewrite app_nil_r. unfold detail_call.
      now rewrite <- app_assoc. }
    split.
    { rewrite <- Hcause. f_equal. now rewrite <- !app_assoc. }
    split; [now right|]. repeat split.
    rewrite app_nil_r.
    change (tp ++ Request scf "UpdateFunctionCode" update
               :: before ++ [detail_call host (name (uc_func param)) None])%list
      with (tp ++ [Request scf "UpdateFunctionCode" update]
               ++ (before ++ [detail_call host (name (uc_func param)) None]))%list.
    rewrite count_action_app, Hb.
    rewrite (count_action_app _ [Request scf "UpdateFunctionCode" update]).
    rewrite (count_action_none _ wait_kinds _ Hkinds).
    + reflexivity.
    + cbn. intros Hk.
      repeat (destruct Hk as [Hk | Hk]; [discriminate Hk|]). exact Hk.
Qed.

(** The platform refuses the code update; and it takes it, but refuses
    the status request of the wait. *)
Lemma X19_updateFunctionCode_error_loses_request_id_witness :
  (exists cause before action data,
     [Request scf "UpdateFunctionCode"
        (Some (updateFunctionCode_params (scripted [busy "req-1"] (inr ""))
                 (plain_function "f") "UEsDBAoAAAAAAA==" None))]
     = (before ++ [Request scf action data])%list
     /\ request_reply (scripted [busy "req-1"] (inr "")) ([] ++ before) scf
          action data = inl cause
     /\ message (update_error "f" (busy_error "req-1"))
        = "[" ++ "f" ++ "] 函数代码更新失败： " ++ message cause
     /\ code (update_error "f" (busy_error "req-1")) = code cause
     /\ requestId (update_error "f" (busy_error "req-1")) = None)
  /\ updateFunctionCode (scripted [reply_id "req-1"; busy "req-2"] (inr ""))
       1 (update_of waiting_function None) []
     = (Thrown (update_error "f" (busy_error "req-2")),
        [Request scf "UpdateFunctionCode"
           (Some (updateFunctionCode_params
                    (scripted [reply_id "req-1"; busy "req-2"] (inr ""))
                    waiting_function "UEsDBAoAAAAAAA==" None));
         get_call "f"]).
Proof.
  split; [|reflexivity].
  destruct (X19_updateFunctionCode_error_loses_request_id
              (scripted [busy "req-1"] (inr "")) 0
              (update_of (plain_function "f") None) []
              (update_error "f" (busy_error "req-1"))
              [Request scf "UpdateFunctionCode"
                 (Some (updateFunctionCode_params
                          (scripted [busy "req-1"] (inr ""))
                          (plain_function "f") "UEsDBAoAAAAAAA==" None))]
              eq_refl)
    as [[Hc _] | (cause & before & action & data & Ht & Hr & _ & Hm & Hco
                  & Hid & _)].
  - vm_compute in Hc. discriminate Hc.
  - exists cause, before, action, data. repeat split; assumption.
Defined.
(** ** The Reconcile sequence of createFunction *)

Section ReconcileRun.

Variable host : Host.

Lemma triggers_created_run func h triggerRes t1 :
  triggers_created host func h triggerRes t1 ->
  createFunctionTriggers host (name func) (triggers func) h
  = (Returned triggerRes, t1).
Proof.
  unfold triggers_created.
  destruct (triggers func) as [[|item ts]|].
  - now intros [-> ->].
  - intros (Hall & reply & Hr & -> & ->).
    rewrite (createFunctionTriggers_all_timers _ _ _ _ _ Hall).
    now rewrite Hr.
  - now intros [-> ->].
Qed.

(** An attempt at the code update that the platform takes. *)
Lemma updateFunctionCode_taken fuel param h base64 res w :
  params_ok (uc_func param) None = true ->
  uc_base64Code param = Some base64 ->
  truthy_s (Some base64) = true ->
  request_reply host h scf "UpdateFunctionCode"
    (Some (updateFunctionCode_params host (uc_func param) base64
             (uc_codeSecret param))) = inr res ->
  settled host fuel (uc_func param)
    (h ++ [code_update host (uc_func param) base64 (uc_codeSecret param)])
    w ->
  updateFunctionCode host fuel param h
  = (Returned res,
     code_update host (uc_func param) base64 (uc_codeSecret param) :: w).
Proof.
  intros Hok Hcode Htruthy Hr Hw. unfold updateFunctionCode.
  unfold bind at 1. rewrite (validCreateParams_ok _ _ _ Hok).
  unfold bind at 1. rewrite Hcode.
  rewrite (package_code_supplied host _ _ _ _ Htruthy).
  rewrite (or_s_Some _ _ Htruthy). cbn [app].
  unfold try_catch. unfold bind at 1. unfold request at 1.
  rewrite !app_nil_r, Hr. rewrite installDependency_of_truthy. cbn [andb].
  unfold settled in Hw. unfold isWaitInstall_true, code_update in *.
  destruct (isWaitInstall (uc_func param)) as [[|]|].
  - destruct Hw as (statuses & Hchecks & Hfuel).
    unfold bind at 1.
    rewrite (polls_returns host _ _ _ _ (checks_polls _ _ _ _ _ Hchecks)
               fuel Hfuel).
    mrun. now rewrite !app_nil_r.
  - subst w. mrun. reflexivity.
  - subst w. mrun. reflexivity.
Qed.

End ReconcileRun.

(** What the configuration update carries. *)
Lemma updateFunctionConfig_params_carries host func :
  let params := updateFunctionConfig_params host func in
  obj_get params "FunctionName" = JStr (name func)
  /\ obj_get params "Namespace" = JStr (namespace host)
  /\ obj_get params "Timeout"
     = match timeout func with
       | Some t => if (t =? 0)%Z then JUndefined else JNum t
       | None => JUndefined
       end
  /\ obj_get params "Runtime"
     = match runtime func with
       | Some r => if r =? "" then JUndefined else JStr r
       | None => JUndefined
       end
  /\ obj_get params "VpcConfig"
     = JObj [("SubnetId",
              JStr (match vpc func with Some v => subnetId v | None => "" end));
             ("VpcId",
              JStr (match vpc func with Some v => vpcId v | None => "" end))]
  /\ obj_get params "Layers"
     = match layers func with
       | Some (layer :: others) => JArr (layer :: others)
       | _ => JUndefined
       end.
Proof.
  intros params. unfold params, updateFunctionConfig_params.
  unfold has_layers, layers_of, VpcConfig_of, truthy_s, or_s.
  repeat split;
    destruct (layers func) as [[|layer others]|];
    destruct (installDependency func) as [install|];
    destruct (timeout func) as [t|];
    try destruct (t =? 0)%Z;
    destruct (runtime func) as [r|];
    try destruct (r =? "") eqn:Hr;
    try destruct (r =? "Nodejs8.9");
    destruct (negb (List.length (envVariables_of func) =? 0)%nat);
    cbn [negb obj_set_if]; through_sets; try reflexivity.
Qed.

(** C1. When the create request fails with a ResourceConflict and [force]
    is true, [createFunction] goes through the Reconcile sequence:
    triggers, then configuration, then code, and returns the composite of
    the three results.

    In every such run, nothing is packaged after the create request, every
    code-update request is the one that carries the artifact packaged
    before it, and a run that returns has sent, in this order, the trigger
    creation (when the function has triggers), one configuration update
    and between one and four code updates.

    When the platform takes each step, the call does return: its result is
    the composite of the three replies, and after the create request it
    has sent exactly the trigger creation (when there are triggers), the
    configuration update and the code update, in this order, then the
    status checks of the wait when the caller asked for it.

    A step that the platform refuses ends the sequence: when it refuses
    the triggers, neither update is sent, and when it refuses the
    configuration, the code update is not sent; the refusal is thrown.

    The configuration update names the function and the namespace and
    carries the VPC of the function, and its timeout, its runtime and its
    layers when the function gives any; the code update names the function
    and the namespace too and carries the artifact. *)
Theorem C1_reconcile_sequence host fuel fp h base64 tp e :
  let func := cf_func fp in
  let create := create_call host fp base64 in
  let config := updateFunctionConfig_params host func in
  let update := updateFunctionCode_params host func base64
                  (cf_codeSecret fp) in
  let configure := Request scf "UpdateFunctionConfiguration" (Some config) in
  let upload := Request scf "UpdateFunctionCode" (Some update) in
  let h1 := (h ++ tp ++ [create])%list in
  create_answered host fp h base64 tp (inl e) ->
  code e = Some "ResourceInUse.FunctionName" ->
  force_of fp = true ->
  (exists o t,
     createFunction host fuel fp h = (o, tp ++ create :: t)%list
     /\ Forall (fun c => is_build c = false) t
     /\ (forall service data,
           In (Request service "UpdateFunctionCode" data) t ->
           Request service "UpdateFunctionCode" data = upload)
     /\ (forall res, o = Returned res ->
           exists triggerRes configRes codeRes k,
             res = Composite triggerRes configRes codeRes
             /\ 1 <= k <= 4
             /\ main_actions t
                = ((if no_triggers (triggers func) then []
                    else ["BatchCreateTrigger"])
                   ++ "UpdateFunctionConfiguration"
                      :: repeat "UpdateFunctionCode" k)%list))
  /\ (forall triggerRes t1 configRes codeRes w,
        triggers_created host func h1 triggerRes t1 ->
        request_reply host (h1 ++ t1)%list scf "UpdateFunctionConfiguration"
          (Some config) = inr configRes ->
        request_reply host (h1 ++ t1 ++ [configure])%list scf
          "UpdateFunctionCode" (Some update) = inr codeRes ->
        settled host fuel func (h1 ++ t1 ++ [configure; upload])%list w ->
        createFunction host fuel fp h
        = (Returned (Composite triggerRes (configRes : obj) codeRes),
           tp ++ create :: t1 ++ configure :: upload :: w)%list)
  /\ (forall ts e1,
        triggers func = Some ts -> ts <> [] ->
        forallb is_timer ts = true ->
        request_reply host h1 scf "BatchCreateTrigger"
          (Some (triggers_params host (name func) ts)) = inl e1 ->
        createFunction host fuel fp h
        = (Thrown e1,
           tp ++ [create; trigger_creation host (name func) ts])%list)
  /\ (forall triggerRes t1 e2,
        triggers_created host func h1 triggerRes t1 ->
        request_reply host (h1 ++ t1)%list scf "UpdateFunctionConfiguration"
          (Some config) = inl e2 ->
        createFunction host fuel fp h
        = (Thrown e2, tp ++ create :: t1 ++ [configure])%list)
  /\ (obj_get config "FunctionName" = JStr (name func)
      /\ obj_get config "Namespace" = JStr (namespace host)
      /\ obj_get config "Timeout"
         = match timeout func with
           | Some t => if (t =? 0)%Z then JUndefined else JNum t
           | None => JUndefined
           end
      /\ obj_get config "Runtime"
         = match runtime func with
           | Some r => if r =? "" then JUndefined else JStr r
           | None => JUndefined
           end
      /\ obj_get config "VpcConfig"
         = JObj [("SubnetId",
                  JStr (match vpc func with
                        | Some v => subnetId v
                        | None => ""
                        end));
                 ("VpcId",
                  JStr (match vpc func with
                        | Some v => vpcId v
                        | None => ""
                        end))]
      /\ obj_get config "Layers"
         = match layers func with
           | Some (layer :: others) => JArr (layer :: others)
           | _ => JUndefined
           end)
  /\ (obj_get update "FunctionName" = JStr (name func)
      /\ obj_get update "Namespace" = JStr (namespace host)
      /\ obj_get update "ZipFile" = JStr base64).
Proof.
  intros func create config update configure upload h1 Hcreate Hcode Hforce.
  assert (Hrun : createFunction host fuel fp h
                 = (let (o, t) := reconcile host fuel fp base64 h1 in
                    (o, tp ++ create :: t))%list).
  { rewrite (createFunction_create_failed host fuel fp h base64 tp e Hcreate).
    unfold on_create_failure, is_conflict.
    now rewrite Hcode, Hforce, String.eqb_refl. }
  destruct Hcreate as (Hok & Hpack & Hreply).
  pose proof (params_ok_None _ _ Hok) as Hok'.
  pose proof (package_code_truthy host _ _ _ _ _ _ Hpack) as Htruthy.
  split; [|split; [|split; [|split; [|split]]]].
  - rewrite Hrun.
    destruct (reconcile host fuel fp base64 h1) as [o t] eqn:E.
    exists o, t. split; [reflexivity|].
    exact (reconcile_run host fuel fp base64 Hok' Htruthy _ _ _ E).
  - intros triggerRes t1 configRes codeRes w Htriggers Hconfig Hupdate Hwait.
    rewrite Hrun. unfold reconcile.
    rewrite (bind_Returned _ _ _ _ _
               (triggers_created_run host func h1 _ _ Htriggers)).
    assert (Hc : updateFunctionConfig host func (h1 ++ t1)%list
                 = (Returned configRes, [configure])).
    { unfold updateFunctionConfig, request. fold config. now rewrite Hconfig. }
    fold func. rewrite (bind_Returned _ _ _ _ _ Hc).
    assert (Hu : retryUpdateFunctionCode host fuel (reconcile_param fp base64)
                   0 ((h1 ++ t1) ++ [configure])%list
                 = (Returned codeRes, upload :: w)).
    { rewrite retryUpdateFunctionCode_eq. apply retry_loop_returned.
      rewrite <- app_assoc.
      apply (updateFunctionCode_taken host fuel (reconcile_param fp base64)
               _ base64 codeRes w Hok' eq_refl Htruthy Hupdate).
      unfold code_update. cbn [reconcile_param uc_func uc_codeSecret].
      fold func update upload. rewrite <- !app_assoc. exact Hwait. }
    rewrite (bind_Returned _ _ _ _ _ Hu). cbn [ret app].
    now rewrite app_nil_r.
  - intros ts e1 Hts Hne Hall Hrefused. rewrite Hrun.
    destruct ts as [|item ts]; [contradiction|].
    rewrite (reconcile_triggers_failed host fuel fp base64 h1 e1
               [trigger_creation host (name func) (item :: ts)]);
      [reflexivity|].
    fold func. rewrite Hts.
    rewrite (createFunctionTriggers_all_timers _ _ _ _ _ Hall).
    now rewrite Hrefused.
  - intros triggerRes t1 e2 Htriggers Hconfig. rewrite Hrun.
    rewrite (reconcile_config_failed host fuel fp base64 h1 triggerRes t1 e2
               [configure]); [reflexivity | |].
    + exact (triggers_created_run host func h1 _ _ Htriggers).
    + fold func. unfold updateFunctionConfig, request. fold config.
      now rewrite Hconfig.
  - exact (updateFunctionConfig_params_carries host func).
  - unfold update, updateFunctionCode_params, obj_set_if.
    destruct (truthy_s (cf_codeSecret fp)); through_sets;
      repeat split; reflexivity.
Qed.

(** The name [f] is taken and [force] is true.  The platform takes the
    timer, the configuration and the code of [timed_function]; it takes
    the two updates of [waiting_function], whose caller waits, and reports
    it Active at the first check; it refuses the timer; and it refuses the
    configuration. *)
Lemma C1_reconcile_sequence_witness :
  createFunction taken_host 0 (deploy timed_function true) []
  = (Returned (Composite (JObj [("RequestId", JStr "req-2")])
                 [("RequestId", JStr "req-3")]
                 [("RequestId", JStr "req-4")]),
     [create_call taken_host (deploy timed_function true) "UEsDBAoAAAAAAA==";
      batch_call; config_call taken_host; code_call taken_host])
  /\ createFunction taken_waiting_host 1 (deploy waiting_function true) []
     = (Returned (Composite JNull [("RequestId", JStr "req-2")]
                    [("RequestId", JStr "req-3")]),
        [create_call taken_waiting_host (deploy waiting_function true)
           "UEsDBAoAAAAAAA==";
         config_update taken_waiting_host waiting_function;
         code_update taken_waiting_host waiting_function "UEsDBAoAAAAAAA=="
           None;
         get_call "f"; Sleep 1000])
  /\ createFunction refused_trigger_host 0 (deploy timed_function true) []
     = (Thrown (busy_error "req-2"),
        [create_call refused_trigger_host (deploy timed_function true)
           "UEsDBAoAAAAAAA==";
         batch_call])
  /\ createFunction refused_config_host 0 (deploy timed_function true) []
     = (Thrown (busy_error "req-3"),
        [create_call refused_config_host (deploy timed_function true)
           "UEsDBAoAAAAAAA==";
         batch_call; config_call refused_config_host]).
Proof.
  assert (Htimer : forall host' reply,
            namespace host' = "env-1" ->
            JSON_stringify host' (JArr [parsed_trigger timer]) = "[...]" ->
            request_reply host'
              [create_call host' (deploy timed_function true)
                 "UEsDBAoAAAAAAA=="]
              scf "BatchCreateTrigger"
              (Some (triggers_params host' "f" [timer])) = inr reply ->
            triggers_created host' timed_function
              [create_call host' (deploy timed_function true)
                 "UEsDBAoAAAAAAA=="]
              (JObj reply) [batch_call]).
  { intros host' reply Hn Hj Hr. split; [reflexivity|].
    exists reply. split; [exact Hr|]. split; [reflexivity|].
    unfold batch_call, trigger_creation, triggers_params.
    cbn [map List.length]. now rewrite Hn, Hj. }
  split; [|split; [|split]].
  - pose proof (C1_reconcile_sequence taken_host 0
                  (deploy timed_function true) [] "UEsDBAoAAAAAAA==" []
                  (conflict_error "f already exists")
                  (conj eq_refl (conj eq_refl eq_refl)) eq_refl eq_refl)
      as (_ & Htaken & _).
    apply (Htaken (JObj [("RequestId", JStr "req-2")]) [batch_call]
             [("RequestId", JStr "req-3")] [("RequestId", JStr "req-4")] []).
    + now apply Htimer.
    + reflexivity.
    + reflexivity.
    + reflexivity.
  - pose proof (C1_reconcile_sequence taken_waiting_host 1
                  (deploy waiting_function true) [] "UEsDBAoAAAAAAA==" []
                  (conflict_error "f already exists")
                  (conj eq_refl (conj eq_refl eq_refl)) eq_refl eq_refl)
      as (_ & Htaken & _).
    apply (Htaken JNull [] [("RequestId", JStr "req-2")]
             [("RequestId", JStr "req-3")] [get_call "f"; Sleep 1000]).
    + split; reflexivity.
    + reflexivity.
    + reflexivity.
    + exists [JStr "Active"]. split; [|apply Nat.le_refl].
      apply (checks_last taken_waiting_host "f" _ [("Status", JStr "Active")]
               [get_call "f"]); [reflexivity|].
      intros [H | H]; discriminate H.
  - pose proof (C1_reconcile_sequence refused_trigger_host 0
                  (deploy timed_function true) [] "UEsDBAoAAAAAAA==" []
                  (conflict_error "f already exists")
                  (conj eq_refl (conj eq_refl eq_refl)) eq_refl eq_refl)
      as (_ & _ & Hrefused & _).
    apply (Hrefused [timer] (busy_error "req-2")).
    + reflexivity.
    + discriminate.
    + reflexivity.
    + reflexivity.
  - pose proof (C1_reconcile_sequence refused_config_host 0
                  (deploy timed_function true) [] "UEsDBAoAAAAAAA==" []
                  (conflict_error "f already exists")
                  (conj eq_refl (conj eq_refl eq_refl)) eq_refl eq_refl)
      as (_ & _ & _ & Hrefused & _).
    apply (Hrefused (JObj [("RequestId", JStr "req-2")]) [batch_call]
             (busy_error "req-3")).
    + now apply Htimer.
    + reflexivity.
Defined.
